(** * PendingStateManager (container-runtime): a shallow embedding

    Source: packages/runtime/container-runtime/src/pendingStateManager.ts

    The class keeps two double-ended queues of pending states, a counter
    of unacked messages and the batch tracker.  Its methods are embedded
    as functions on an explicit state record; a failed [assert], a
    [throw] and a property access on [undefined] are results of their
    own that keep the state reached when the exception left the method,
    since JavaScript does not roll mutations back. *)

From Stdlib Require Import List ZArith Bool String Lia.
Import ListNotations.
Local Open Scope string_scope.
Local Open Scope list_scope.
Local Open Scope Z_scope.

(** ** Values shared with the rest of the runtime *)

(** FlushMode of runtime-definitions. *)
Inductive FlushMode := Automatic | Manual.

Definition FlushMode_eqb (a b : FlushMode) : bool :=
  match a, b with
  | Automatic, Automatic | Manual, Manual => true
  | _, _ => false
  end.

(** Modelled from the spec: the enum ContainerMessageType is declared in
    containerRuntime.ts, which is not part of the sources at hand.  The
    manager only compares a message type with [ChunkedOp]; every other
    member is kept by its name. *)
Inductive ContainerMessageType :=
| ChunkedOp
| OtherOp (name : string).

Definition isChunkedOp (t : ContainerMessageType) : bool :=
  match t with ChunkedOp => true | OtherOp _ => false end.

(** What leaves a method abnormally. *)
Inductive Exception :=
| AssertionError (msg : string)   (* assert(cond, msg) of common-utils *)
| JsError (msg : string)          (* throw new Error(msg) *)
| TypeError.                      (* reading a property of undefined *)

(** The fields DataCorruptionError is built with. *)
Record DataCorruptionError := {
  dce_message : string;
  dce_clientId : string;
  dce_sequenceNumber : Z;
  dce_clientSequenceNumber : Z;
  dce_expectedClientSequenceNumber : Z
}.

(** ISequencedDocumentMessage, restricted to the fields the manager reads.
    [msg_batch] is [metadata?.batch]: absent, true or false.  [msg_ref] is
    the identity of the JavaScript object: [===] between two messages
    compares references, not fields. *)
Record ISequencedDocumentMessage := {
  msg_ref : nat;
  msg_type : ContainerMessageType;
  msg_clientId : string;
  msg_sequenceNumber : Z;
  msg_clientSequenceNumber : Z;
  msg_batch : option bool
}.

Definition sameMessage (a b : ISequencedDocumentMessage) : bool :=
  Nat.eqb (msg_ref a) (msg_ref b).

Definition option_string_eqb (a b : option string) : bool :=
  match a, b with
  | Some x, Some y => String.eqb x y
  | None, None => true
  | _, _ => false
  end.

(** Acks for the scenarios. *)
Definition opType : ContainerMessageType := OtherOp "component".

Definition ack (ref : nat) (cid : string) (sn csn : Z) (batch : option bool)
    : ISequencedDocumentMessage :=
  {| msg_ref := ref; msg_type := opType; msg_clientId := cid;
     msg_sequenceNumber := sn; msg_clientSequenceNumber := csn;
     msg_batch := batch |}.

Section Manager.

Set Implicit Arguments.

(** [content: any], [localOpMetadata: unknown] and the record behind
    [opMetadata] are opaque to the manager. *)
Variables Content LocalOpMetadata OpMetadata : Type.

(** ** Pending states *)

Record IPendingMessage := {
  messageType : ContainerMessageType;
  clientSequenceNumber : Z;
  referenceSequenceNumber : Z;
  content : Content;
  localOpMetadata : LocalOpMetadata;
  opMetadata : option OpMetadata
}.

(** IPendingState = IPendingMessage | IPendingFlushMode | IPendingFlush *)
Inductive IPendingState :=
| PMessage (m : IPendingMessage)
| PFlushMode (flushMode : FlushMode)
| PFlush.

Definition isMessage (st : IPendingState) : bool :=
  match st with PMessage _ => true | _ => false end.

Record IPendingLocalState := {
  ls_clientId : option string;
  ls_pendingStates : list IPendingState
}.

(** ** The container runtime, as the manager sees it *)

(** The calls the manager makes on the runtime. *)
Inductive RuntimeCall :=
| ReSubmitFn (t : ContainerMessageType) (c : Content)
             (l : LocalOpMetadata) (o : option OpMetadata)
| SetFlushMode (mode : FlushMode)
| FlushCall
| CloseFn (error : DataCorruptionError).

(** Modelled from the spec: the class ContainerRuntime is not part of the
    sources at hand.  The hooks of section 6.1 are kept as the fields the
    manager reads ([connected], [clientId], [flushMode]) and a log of the
    calls it makes, oldest first; [setFlushMode] stores the mode. *)
Record ContainerRuntime := {
  rt_connected : bool;
  rt_clientId : option string;
  rt_flushMode : FlushMode;
  rt_calls : list RuntimeCall
}.

(** ** The manager *)

Record PendingStateManager := {
  pendingStates : list IPendingState;
  initialStates : list IPendingState;
  initialClientId : option string;
  initialClientSeqNum : Z;
  pendingMessagesCount : Z;
  isProcessingBatch : bool;
  pendingBatchBeginMessage : option ISequencedDocumentMessage;
  clientId : option string;
  containerRuntime : ContainerRuntime;
  (* the calls made on the injected rebaseOp, oldest first *)
  rebaseOpCalls : list (Content * LocalOpMetadata)
}.

Definition set_pendingStates (q : list IPendingState) (s : PendingStateManager) :=
  {| pendingStates := q;
     initialStates := initialStates s;
     initialClientId := initialClientId s;
     initialClientSeqNum := initialClientSeqNum s;
     pendingMessagesCount := pendingMessagesCount s;
     isProcessingBatch := isProcessingBatch s;
     pendingBatchBeginMessage := pendingBatchBeginMessage s;
     clientId := clientId s;
     containerRuntime := containerRuntime s;
     rebaseOpCalls := rebaseOpCalls s |}.

Definition set_initialStates (q : list IPendingState) (s : PendingStateManager) :=
  {| pendingStates := pendingStates s;
     initialStates := q;
     initialClientId := initialClientId s;
     initialClientSeqNum := initialClientSeqNum s;
     pendingMessagesCount := pendingMessagesCount s;
     isProcessingBatch := isProcessingBatch s;
     pendingBatchBeginMessage := pendingBatchBeginMessage s;
     clientId := clientId s;
     containerRuntime := containerRuntime s;
     rebaseOpCalls := rebaseOpCalls s |}.

Definition set_pendingMessagesCount (n : Z) (s : PendingStateManager) :=
  {| pendingStates := pendingStates s;
     initialStates := initialStates s;
     initialClientId := initialClientId s;
     initialClientSeqNum := initialClientSeqNum s;
     pendingMessagesCount := n;
     isProcessingBatch := isProcessingBatch s;
     pendingBatchBeginMessage := pendingBatchBeginMessage s;
     clientId := clientId s;
     containerRuntime := containerRuntime s;
     rebaseOpCalls := rebaseOpCalls s |}.

Definition set_batch (b : bool) (m : option ISequencedDocumentMessage)
    (s : PendingStateManager) :=
  {| pendingStates := pendingStates s;
     initialStates := initialStates s;
     initialClientId := initialClientId s;
     initialClientSeqNum := initialClientSeqNum s;
     pendingMessagesCount := pendingMessagesCount s;
     isProcessingBatch := b;
     pendingBatchBeginMessage := m;
     clientId := clientId s;
     containerRuntime := containerRuntime s;
     rebaseOpCalls := rebaseOpCalls s |}.

Definition set_clientId (c : option string) (s : PendingStateManager) :=
  {| pendingStates := pendingStates s;
     initialStates := initialStates s;
     initialClientId := initialClientId s;
     initialClientSeqNum := initialClientSeqNum s;
     pendingMessagesCount := pendingMessagesCount s;
     isProcessingBatch := isProcessingBatch s;
     pendingBatchBeginMessage := pendingBatchBeginMessage s;
     clientId := c;
     containerRuntime := containerRuntime s;
     rebaseOpCalls := rebaseOpCalls s |}.

Definition set_containerRuntime (r : ContainerRuntime) (s : PendingStateManager) :=
  {| pendingStates := pendingStates s;
     initialStates := initialStates s;
     initialClientId := initialClientId s;
     initialClientSeqNum := initialClientSeqNum s;
     pendingMessagesCount := pendingMessagesCount s;
     isProcessingBatch := isProcessingBatch s;
     pendingBatchBeginMessage := pendingBatchBeginMessage s;
     clientId := clientId s;
     containerRuntime := r;
     rebaseOpCalls := rebaseOpCalls s |}.

(** this.rebaseOp(content, localOpMetadata): the injected callback, as a
    log of the calls made on it.  The callback is taken to return; one that
    throws is outside this model. *)
Definition rebaseOp (c : Content) (l : LocalOpMetadata) (s : PendingStateManager) :=
  {| pendingStates := pendingStates s;
     initialStates := initialStates s;
     initialClientId := initialClientId s;
     initialClientSeqNum := initialClientSeqNum s;
     pendingMessagesCount := pendingMessagesCount s;
     isProcessingBatch := isProcessingBatch s;
     pendingBatchBeginMessage := pendingBatchBeginMessage s;
     clientId := clientId s;
     containerRuntime := containerRuntime s;
     rebaseOpCalls := rebaseOpCalls s ++ [(c, l)] |}.

(** ** Deque operations used by the manager *)

Definition push (st : IPendingState) (s : PendingStateManager) :=
  set_pendingStates (pendingStates s ++ [st]) s.

Definition peekBack (q : list IPendingState) : option IPendingState :=
  match q with [] => None | _ => Some (last q PFlush) end.

(** removeBack on an empty deque does nothing, as [removelast []] = []. *)
Definition removeBack (s : PendingStateManager) :=
  set_pendingStates (removelast (pendingStates s)) s.

Definition peekFront (q : list IPendingState) : option IPendingState := hd_error q.

(** shift, its value dropped *)
Definition shift (s : PendingStateManager) :=
  set_pendingStates (tl (pendingStates s)) s.

(** ** Outcomes and sequencing *)

Inductive Result (A : Type) :=
| Ok (s : PendingStateManager) (a : A)
| Throw (e : Exception) (s : PendingStateManager).
Arguments Throw {A} e s.

(** A method body: it runs on the manager's state and either returns or
    throws, in both cases with the state it reached. *)
Definition Method (A : Type) := PendingStateManager -> Result A.

Definition ret {A} (a : A) : Method A := fun s => Ok s a.

Definition throw {A} (e : Exception) : Method A := fun s => Throw e s.

Definition bind {A B} (c : Method A) (k : A -> Method B) : Method B :=
  fun s => match c s with
           | Ok s' a => k a s'
           | Throw e s' => Throw e s'
           end.

Definition get : Method PendingStateManager := fun s => Ok s s.

Definition modify (f : PendingStateManager -> PendingStateManager) : Method unit :=
  fun s => Ok (f s) tt.

(** assert(cond, msg) *)
Definition assert (cond : bool) (msg : string) : Method unit :=
  if cond then ret tt else throw (AssertionError msg).

Definition stateOf {A} (r : Result A) : PendingStateManager :=
  match r with Ok s _ => s | Throw _ s => s end.

Definition returned {A} (r : Result A) : bool :=
  match r with Ok _ _ => true | Throw _ _ => false end.

(** ** Queries *)

Definition hasPendingMessages (s : PendingStateManager) : bool :=
  negb (pendingMessagesCount s =? 0).

Definition getLocalState (s : PendingStateManager) : option IPendingLocalState :=
  if hasPendingMessages s
  then Some {| ls_clientId := clientId s; ls_pendingStates := pendingStates s |}
  else None.

Fixpoint contentsOf (q : list IPendingState) : list Content :=
  match q with
  | [] => []
  | PMessage m :: r => content m :: contentsOf r
  | _ :: r => contentsOf r
  end.

Definition getPendingMessages (s : PendingStateManager) : list Content :=
  contentsOf (pendingStates s ++ initialStates s).

(** ** Constructor *)

(** The loop of the constructor: the client sequence number of the first
    message of the initial states, -1 when there is none. *)
Fixpoint firstClientSeqNum (q : list IPendingState) : Z :=
  match q with
  | [] => -1
  | PMessage m :: _ => clientSequenceNumber m
  | _ :: r => firstClientSeqNum r
  end.

Definition new (runtime : ContainerRuntime) (initialState : option IPendingLocalState)
    : PendingStateManager :=
  let init := match initialState with
              | Some st => ls_pendingStates st
              | None => []
              end in
  {| pendingStates := [];
     initialStates := init;
     initialClientId := match initialState with
                        | Some st => ls_clientId st
                        | None => None
                        end;
     initialClientSeqNum := firstClientSeqNum init;
     pendingMessagesCount := 0;
     isProcessingBatch := false;
     pendingBatchBeginMessage := None;
     clientId := None;
     containerRuntime := runtime;
     rebaseOpCalls := [] |}.

(** ** Submission side *)

Definition onSubmitMessage (t : ContainerMessageType) (csn rsn : Z) (c : Content)
    (l : LocalOpMetadata) (o : option OpMetadata) (s : PendingStateManager)
    : PendingStateManager :=
  let pendingMessage :=
    {| messageType := t; clientSequenceNumber := csn;
       referenceSequenceNumber := rsn; content := c;
       localOpMetadata := l; opMetadata := o |} in
  let s1 := push (PMessage pendingMessage) s in
  set_pendingMessagesCount (pendingMessagesCount s1 + 1) s1.

(** onSubmitMessage, called with the fields of [m]. *)
Definition onSubmit (m : IPendingMessage) (s : PendingStateManager)
    : PendingStateManager :=
  onSubmitMessage (messageType m) (clientSequenceNumber m)
    (referenceSequenceNumber m) (content m) (localOpMetadata m) (opMetadata m) s.

Definition onFlushModeUpdated (flushMode : FlushMode) (s : PendingStateManager)
    : PendingStateManager :=
  match flushMode with
  | Automatic =>
      let previousState := peekBack (pendingStates s) in
      let s1 := match previousState with
                | Some PFlush => removeBack s
                | _ => s
                end in
      match previousState with
      | Some (PFlushMode Manual) => removeBack s1
      | _ => push (PFlushMode flushMode) s1
      end
  | Manual => push (PFlushMode flushMode) s
  end.

Definition onFlush (s : PendingStateManager) : PendingStateManager :=
  match rt_flushMode (containerRuntime s) with
  | Automatic => s
  | Manual =>
      match peekBack (pendingStates s) with
      | Some (PMessage _) => push PFlush s
      | _ => s
      end
  end.

Notation "x <- c ;; k" := (bind c (fun x => k))
  (at level 61, c at next level, right associativity).
Notation "c ;; k" := (bind c (fun _ => k))
  (at level 61, right associativity).

(** ** Acknowledgements *)

(** What processMessage returns. *)
Record ProcessResult := {
  localAck : bool;
  res_localOpMetadata : option LocalOpMetadata   (* None is undefined *)
}.

Definition peekNextPendingState : Method IPendingState :=
  s <- get ;;
  match peekFront (pendingStates s) with
  | Some nextPendingState => ret nextPendingState
  | None => throw (AssertionError "No pending state found for the remote message")
  end.

Definition isNone {A} (o : option A) : bool :=
  match o with None => true | Some _ => false end.

Definition batch_is (o : option bool) (b : bool) : bool :=
  match o with Some x => Bool.eqb x b | None => false end.

Definition maybeProcessBatchBegin (message : ISequencedDocumentMessage) : Method unit :=
  pendingState <- peekNextPendingState ;;
  match pendingState with
  | PMessage _ => ret tt
  | _ =>
      match pendingState with
      | PFlushMode flushMode =>
          assert (FlushMode_eqb flushMode Manual)
                 "Flush mode should be manual when processing batch begin"
      | _ => ret tt
      end ;;
      s <- get ;;
      assert (negb (isProcessingBatch s) && isNone (pendingBatchBeginMessage s))
             "The pending batch state indicates we are already processing a batch" ;;
      modify (set_batch true (Some message)) ;;
      modify shift
  end.

Definition maybeProcessBatchEnd (message : ISequencedDocumentMessage) : Method unit :=
  nextPendingState <- peekNextPendingState ;;
  match nextPendingState with
  | PMessage _ => ret tt
  | _ =>
      match nextPendingState with
      | PFlushMode flushMode =>
          assert (FlushMode_eqb flushMode Automatic)
                 "Flush mode is set to Manual in the middle of processing a batch" ;;
          modify shift
      | _ => ret tt
      end ;;
      s <- get ;;
      match pendingBatchBeginMessage s with
      | None => throw (AssertionError "There is no pending batch begin message")
      | Some beginMessage =>
          let batchBeginMetadata := msg_batch beginMessage in
          (if sameMessage beginMessage message
           then assert (isNone batchBeginMetadata)
                       "Batch with single message should not have batch metadata"
           else
             let batchEndMetadata := msg_batch message in
             assert (batch_is batchBeginMetadata true)
                    "Did not receive batch begin metadata" ;;
             assert (batch_is batchEndMetadata false)
                    "Did not receive batch end metadata") ;;
          modify (set_batch false None)
      end
  end.

Definition logCall (c : RuntimeCall) (rt : ContainerRuntime) : ContainerRuntime :=
  {| rt_connected := rt_connected rt;
     rt_clientId := rt_clientId rt;
     rt_flushMode := match c with
                     | SetFlushMode mode => mode
                     | _ => rt_flushMode rt
                     end;
     rt_calls := rt_calls rt ++ [c] |}.

(** this.containerRuntime.closeFn(error): the container closes, nothing
    comes back into the manager. *)
Definition closeFn (error : DataCorruptionError) (s : PendingStateManager) :=
  set_containerRuntime (logCall (CloseFn error) (containerRuntime s)) s.

Definition processPendingLocalMessage (message : ISequencedDocumentMessage)
    : Method (option LocalOpMetadata) :=
  maybeProcessBatchBegin message ;;
  pendingState <- peekNextPendingState ;;
  match pendingState with
  | PMessage p =>
      modify shift ;;
      if negb (clientSequenceNumber p =? msg_clientSequenceNumber message)
      then
        modify (closeFn
                  {| dce_message := "Unexpected ack received";
                     dce_clientId := msg_clientId message;
                     dce_sequenceNumber := msg_sequenceNumber message;
                     dce_clientSequenceNumber := msg_clientSequenceNumber message;
                     dce_expectedClientSequenceNumber := clientSequenceNumber p |}) ;;
        ret None
      else
        modify (fun s => set_pendingMessagesCount (pendingMessagesCount s - 1) s) ;;
        s <- get ;;
        (if isProcessingBatch s then maybeProcessBatchEnd message else ret tt) ;;
        ret (Some (localOpMetadata p))
  | _ => throw (AssertionError "No pending message found for this remote message")
  end.

(** The first loop of processRemoteMessage; [init] is the initial queue
    at the head of the iteration. *)
Fixpoint rebaseInitialUpTo (message : ISequencedDocumentMessage)
    (init : list IPendingState) : Method unit :=
  match init with
  | [] => ret tt
  | nextState :: rest =>
      match nextState with
      | PMessage p =>
          if referenceSequenceNumber p >? msg_sequenceNumber message
          then ret tt
          else
            s <- get ;;
            if (clientSequenceNumber p =? initialClientSeqNum s)
               && (msg_sequenceNumber message >? referenceSequenceNumber p)
            then throw (JsError "loaded from snapshot too recent to rebase pending initial ops")
            else
              modify (rebaseOp (content p) (localOpMetadata p)) ;;
              modify (set_initialStates rest) ;;
              modify (push nextState) ;;
              rebaseInitialUpTo message rest
      | _ =>
          modify (set_initialStates rest) ;;
          modify (push nextState) ;;
          rebaseInitialUpTo message rest
      end
  end.

(** The second loop of processRemoteMessage; [q] is the pending queue at
    the head of the iteration. *)
Fixpoint shiftUntilMessage (q : list IPendingState) : Method ProcessResult :=
  match q with
  | [] => ret {| localAck := false; res_localOpMetadata := None |}
  | nextState :: rest =>
      modify (set_pendingStates rest) ;;
      match nextState with
      | PMessage p =>
          ret {| localAck := true; res_localOpMetadata := Some (localOpMetadata p) |}
      | _ => shiftUntilMessage rest
      end
  end.

Definition processRemoteMessage (message : ISequencedDocumentMessage)
    : Method ProcessResult :=
  s <- get ;;
  rebaseInitialUpTo message (initialStates s) ;;
  s <- get ;;
  if option_string_eqb (Some (msg_clientId message)) (initialClientId s)
     && (msg_clientSequenceNumber message >=? initialClientSeqNum s)
  then shiftUntilMessage (pendingStates s)
  else ret {| localAck := false; res_localOpMetadata := None |}.

Definition processMessage (message : ISequencedDocumentMessage) (local : bool)
    : Method ProcessResult :=
  if isChunkedOp (msg_type message)
  then ret {| localAck := false; res_localOpMetadata := None |}
  else if local
  then
    r <- processPendingLocalMessage message ;;
    ret {| localAck := false; res_localOpMetadata := r |}
  else processRemoteMessage message.

(** ** Replay on reconnect *)

(** What a runtime hook may call back on the manager while it runs. *)
Inductive Reentry :=
| ReOnSubmitMessage (m : IPendingMessage)
| ReOnFlushModeUpdated (flushMode : FlushMode)
| ReOnFlush.

Definition isReOnSubmitMessage (r : Reentry) : bool :=
  match r with ReOnSubmitMessage _ => true | _ => false end.

(** Modelled from the spec: what reSubmitFn, setFlushMode and flush of the
    absent ContainerRuntime do to the manager.  Section 4.1.7 says a
    resubmission re-enters through onSubmit; which calls come back, and how
    many, is the runtime's choice and is left open here: for a call and the
    runtime it is made on, [reentry] gives the manager methods the hook
    invokes before it returns. *)
Variable reentry : RuntimeCall -> ContainerRuntime -> list Reentry.

Definition reenter (s : PendingStateManager) (r : Reentry) : PendingStateManager :=
  match r with
  | ReOnSubmitMessage m => onSubmit m s
  | ReOnFlushModeUpdated flushMode => onFlushModeUpdated flushMode s
  | ReOnFlush => onFlush s
  end.

Definition callRuntime (c : RuntimeCall) (s : PendingStateManager)
    : PendingStateManager :=
  let rt := containerRuntime s in
  fold_left reenter (reentry c rt) (set_containerRuntime (logCall c rt) s).

(** The call replayPendingStates makes for a pending state. *)
Definition replayCall (pendingState : IPendingState) : RuntimeCall :=
  match pendingState with
  | PMessage p =>
      ReSubmitFn (messageType p) (content p) (localOpMetadata p) (opMetadata p)
  | PFlushMode flushMode => SetFlushMode flushMode
  | PFlush => FlushCall
  end.

(** The first loop of replayPendingStates. *)
Fixpoint rebaseRemaining (init : list IPendingState) : Method unit :=
  match init with
  | [] => ret tt
  | nextMessage :: rest =>
      modify (set_initialStates rest) ;;
      match nextMessage with
      | PMessage p => modify (rebaseOp (content p) (localOpMetadata p))
      | _ => ret tt
      end ;;
      modify (push nextMessage) ;;
      rebaseRemaining rest
  end.

(** The second loop; [shift()!] on an empty deque gives undefined, and the
    switch on its [type] throws. *)
Fixpoint replayLoop (pendingStatesCount : nat) : Method unit :=
  match pendingStatesCount with
  | O => ret tt
  | S remaining =>
      s <- get ;;
      match pendingStates s with
      | [] => throw TypeError
      | pendingState :: _ =>
          modify shift ;;
          modify (callRuntime (replayCall pendingState)) ;;
          replayLoop remaining
      end
  end.

Definition replayPendingStates : Method unit :=
  s <- get ;;
  assert (rt_connected (containerRuntime s))
         "The connection state is not consistent with the runtime" ;;
  assert (negb (option_string_eqb (clientId s) (rt_clientId (containerRuntime s))))
         "replayPendingStates called twice for same clientId!" ;;
  modify (set_clientId (rt_clientId (containerRuntime s))) ;;
  rebaseRemaining (initialStates s) ;;
  s <- get ;;
  let pendingStatesCount := List.length (pendingStates s) in
  match pendingStatesCount with
  | O => ret tt
  | _ =>
      modify (set_pendingMessagesCount 0) ;;
      let savedFlushMode := rt_flushMode (containerRuntime s) in
      replayLoop pendingStatesCount ;;
      modify (callRuntime (SetFlushMode savedFlushMode))
  end.

(** ** Sessions: the manager driven by its callers *)

(** serialize, construct a new manager from the result, on a new runtime. *)
Definition rehydrate (runtime : ContainerRuntime) (s : PendingStateManager)
    : PendingStateManager :=
  new runtime (getLocalState s).

(** The runtime changes on its own between two calls of the manager: it
    connects under a client id, its flush mode is set. *)
Definition runtimeChanged (connected : bool) (cid : option string)
    (mode : FlushMode) (s : PendingStateManager) : PendingStateManager :=
  set_containerRuntime
    {| rt_connected := connected;
       rt_clientId := cid;
       rt_flushMode := mode;
       rt_calls := rt_calls (containerRuntime s) |} s.

(** One call of a public method, or one change of the runtime. *)
Inductive Call :=
| OnSubmitMessage (m : IPendingMessage)
| OnFlushModeUpdated (flushMode : FlushMode)
| OnFlush
| ProcessMessage (message : ISequencedDocumentMessage) (local : bool)
| ReplayPendingStates
| RuntimeChanged (connected : bool) (cid : option string) (mode : FlushMode).

Definition step (c : Call) : Method unit :=
  match c with
  | OnSubmitMessage m => modify (onSubmit m)
  | OnFlushModeUpdated flushMode => modify (onFlushModeUpdated flushMode)
  | OnFlush => modify onFlush
  | ProcessMessage message local => processMessage message local ;; ret tt
  | ReplayPendingStates => replayPendingStates
  | RuntimeChanged connected cid mode => modify (runtimeChanged connected cid mode)
  end.

(** The state after a sequence of calls; a call that throws leaves the
    state it reached, and the caller goes on. *)
Fixpoint run (cs : list Call) (s : PendingStateManager) : PendingStateManager :=
  match cs with
  | [] => s
  | c :: rest => run rest (stateOf (step c s))
  end.

Definition isSubmission (c : Call) : bool :=
  match c with
  | OnSubmitMessage _ | OnFlushModeUpdated _ | OnFlush | RuntimeChanged _ _ _ => true
  | _ => false
  end.


(** Number of messages in a queue. *)
Definition messageCount (q : list IPendingState) : Z :=
  Z.of_nat (List.length (filter isMessage q)).

(** ** Vocabulary of the properties *)

(** The message of the assertion in peekNextPendingState. *)
Definition noPendingState : string :=
  "No pending state found for the remote message".

(** A marker that opens a batch when it is at the head of the queue. *)
Definition opensBatch (st : IPendingState) : bool :=
  match st with
  | PFlush | PFlushMode Manual => true
  | _ => false
  end.

(** The pending queue once maybeProcessBatchBegin has consumed a marker at
    its head. *)
Definition afterBatchBegin (q : list IPendingState) : list IPendingState :=
  match q with
  | st :: rest => if isMessage st then q else rest
  | [] => []
  end.

(** The batch metadata rule in the words of section 4.1.5: a batch of one
    message carries no batch metadata; otherwise the first message carries
    [true] and the last one [false]. *)
Definition batchMetadataOk (beginMessage message : ISequencedDocumentMessage) : bool :=
  if sameMessage beginMessage message
  then isNone (msg_batch beginMessage)
  else batch_is (msg_batch beginMessage) true && batch_is (msg_batch message) false.

(** The error processPendingLocalMessage hands to closeFn. *)
Definition unexpectedAck (message : ISequencedDocumentMessage) (expected : Z)
    : DataCorruptionError :=
  {| dce_message := "Unexpected ack received";
     dce_clientId := msg_clientId message;
     dce_sequenceNumber := msg_sequenceNumber message;
     dce_clientSequenceNumber := msg_clientSequenceNumber message;
     dce_expectedClientSequenceNumber := expected |}.

Definition isAssertionError (e : Exception) : bool :=
  match e with AssertionError _ => true | _ => false end.

Definition tooRecent : string :=
  "loaded from snapshot too recent to rebase pending initial ops".

(** The state maybeProcessBatchEnd leaves when it meets [marker] at the
    head of the queue: a flush mode update is removed, a flush stays. *)
Definition afterBatchEnd (marker : IPendingState) (s : PendingStateManager)
    : PendingStateManager :=
  match marker with
  | PFlushMode _ => shift s
  | _ => s
  end.

(** The runtime after the manager has made the calls [cs] on it. *)
Definition runtimeAfter (cs : list RuntimeCall) (rt : ContainerRuntime)
    : ContainerRuntime :=
  fold_left (fun r c => logCall c r) cs rt.

(** The pending state a re-entrant onSubmitMessage adds. *)
Definition asPending (r : Reentry) : list IPendingState :=
  match r with
  | ReOnSubmitMessage m => [PMessage m]
  | _ => []
  end.

(** The pending states the runtime submits while the manager makes the
    calls [cs] on it, in order. *)
Fixpoint submittedBy (cs : list RuntimeCall) (rt : ContainerRuntime)
    : list IPendingState :=
  match cs with
  | [] => []
  | c :: rest => flat_map asPending (reentry c rt) ++ submittedBy rest (logCall c rt)
  end.

(** The rebaseOp calls the first loop of replayPendingStates makes. *)
Fixpoint rebaseCallsOf (q : list IPendingState) : list (Content * LocalOpMetadata) :=
  match q with
  | [] => []
  | PMessage p :: rest => (content p, localOpMetadata p) :: rebaseCallsOf rest
  | _ :: rest => rebaseCallsOf rest
  end.

(** The calls replayPendingStates makes on the runtime for the queue
    [entries] when the flush mode it saved is [saved]. *)
Definition replayCalls (entries : list IPendingState) (saved : FlushMode)
    : list RuntimeCall :=
  match entries with
  | [] => []
  | _ => map replayCall entries ++ [SetFlushMode saved]
  end.

(** *** Shapes of the pending queue *)

Definition isFlush (st : IPendingState) : bool :=
  match st with PFlush => true | _ => false end.

Definition isFlushMode (st : IPendingState) : bool :=
  match st with PFlushMode _ => true | _ => false end.

(** Every flush behind the head of the queue comes right after a message. *)
Fixpoint flushesFollowMessages (q : list IPendingState) : bool :=
  match q with
  | a :: rest =>
      match rest with
      | b :: _ => (negb (isFlush b) || isMessage a) && flushesFollowMessages rest
      | [] => true
      end
  | [] => true
  end.

(** Every flush of the queue comes right after a message: as above, and
    the head is no flush. *)
Definition flushesBetweenMessages (q : list IPendingState) : bool :=
  match q with
  | PFlush :: _ => false
  | _ => flushesFollowMessages q
  end.

(** The messages of a queue, and the messages a sequence of calls submits. *)
Fixpoint messagesOf (q : list IPendingState) : list IPendingMessage :=
  match q with
  | [] => []
  | PMessage m :: rest => m :: messagesOf rest
  | _ :: rest => messagesOf rest
  end.

Fixpoint submittedMessages (cs : list Call) : list IPendingMessage :=
  match cs with
  | [] => []
  | OnSubmitMessage m :: rest => m :: submittedMessages rest
  | _ :: rest => submittedMessages rest
  end.

(** The arguments of the reSubmitFn calls of a log, in order. *)
Fixpoint resubmissions (calls : list RuntimeCall)
    : list (ContainerMessageType * Content * LocalOpMetadata * option OpMetadata) :=
  match calls with
  | [] => []
  | ReSubmitFn t c l o :: rest => (t, c, l, o) :: resubmissions rest
  | _ :: rest => resubmissions rest
  end.

Definition resubmission (m : IPendingMessage)
    : ContainerMessageType * Content * LocalOpMetadata * option OpMetadata :=
  (messageType m, content m, localOpMetadata m, opMetadata m).

Definition enqueuesMessage (c : Call) : bool :=
  match c with
  | OnSubmitMessage _ | ReplayPendingStates => true
  | _ => false
  end.

(** *** Invariants of method bodies *)

(** [P] holds in the state a method leaves, whether it returns or throws. *)
Definition Preserves {A} (P : PendingStateManager -> Prop) (c : Method A) : Prop :=
  forall s, P s -> P (stateOf (c s)).

(** A manager without initial states whose pending queue satisfies [G]. *)
Definition onQueue (G : list IPendingState -> Prop) (s : PendingStateManager) : Prop :=
  initialStates s = [] /\ G (pendingStates s).

(** The queue invariant of flush markers, on a manager without initial
    states. *)
Definition framed : PendingStateManager -> Prop :=
  onQueue (fun q => flushesFollowMessages q = true).

(** The queue holds flush mode updates only, on a manager without initial
    states. *)
Definition onlyFlushModes : PendingStateManager -> Prop :=
  onQueue (fun q => forallb isFlushMode q = true).

(** What a method returned, if it did. *)
Definition returnedValue {A} (r : Result A) : option A :=
  match r with Ok _ a => Some a | Throw _ _ => None end.

(** A marker that closes the batch being processed when it comes right
    behind the acked message. *)
Definition closesBatch (st : IPendingState) : bool :=
  match st with
  | PFlush | PFlushMode Automatic => true
  | _ => false
  end.

(** What a local ack [message] does on [s] when it closes a batch whose
    first message is [beginMessage]: if the batch metadata rule holds it
    returns the metadata [l], the tracker is cleared and the queue is
    [after]; if not it fails an assertion.  The runtime is not called. *)
Definition batchClosedOrAsserted (beginMessage message : ISequencedDocumentMessage)
    (l : LocalOpMetadata) (after : list IPendingState) (s : PendingStateManager)
    : Prop :=
  if batchMetadataOk beginMessage message
  then
    exists s',
      processMessage message true s
      = Ok s' {| localAck := false; res_localOpMetadata := Some l |}
      /\ isProcessingBatch s' = false
      /\ pendingBatchBeginMessage s' = None
      /\ pendingStates s' = after
      /\ rt_calls (containerRuntime s') = rt_calls (containerRuntime s)
  else
    exists msg s',
      processMessage message true s = Throw (AssertionError msg) s'
      /\ rt_calls (containerRuntime s') = rt_calls (containerRuntime s).

(** The queue behind a closed batch: a flush mode update is consumed, a
    flush stays for the next batch begin. *)
Definition behindBatch (marker : IPendingState) (rest : list IPendingState)
    : list IPendingState :=
  match marker with
  | PFlushMode _ => rest
  | _ => marker :: rest
  end.

(** ** Data for the scenarios *)

Definition pendingMessage (t : ContainerMessageType) (csn rsn : Z) (c : Content)
    (l : LocalOpMetadata) : IPendingMessage :=
  {| messageType := t; clientSequenceNumber := csn;
     referenceSequenceNumber := rsn; content := c;
     localOpMetadata := l; opMetadata := None |}.

Definition runtimeOf (connected : bool) (cid : option string) (mode : FlushMode)
    : ContainerRuntime :=
  {| rt_connected := connected; rt_clientId := cid;
     rt_flushMode := mode; rt_calls := [] |}.

(** A runtime whose reSubmitFn submits the op again, once, under the next
    client sequence number, and whose other hooks call nothing back. *)
Definition resubmitOnce (c : RuntimeCall) (rt : ContainerRuntime) : list Reentry :=
  match c with
  | ReSubmitFn t content l o =>
      [ReOnSubmitMessage
         {| messageType := t;
            clientSequenceNumber := 1 + Z.of_nat (List.length (rt_calls rt));
            referenceSequenceNumber := 0;
            content := content; localOpMetadata := l; opMetadata := o |}]
  | _ => []
  end.

(** ** Vocabulary of the further properties *)

(** The batch tracker holds a first message exactly while a batch is being
    processed. *)
Definition trackerConsistent (s : PendingStateManager) : Prop :=
  isProcessingBatch s = negb (isNone (pendingBatchBeginMessage s)).

(** The method threw the assertion whose message is [msg]. *)
Definition failedAssertion {A} (msg : string) (r : Result A) : bool :=
  match r with
  | Throw (AssertionError m) _ => String.eqb m msg
  | _ => false
  end.

(** The rebaseOp calls made so far, followed by the ones still owed to the
    messages of the initial queue. *)
Definition rebasedThenOwed (s : PendingStateManager)
    : list (Content * LocalOpMetadata) :=
  rebaseOpCalls s ++ rebaseCallsOf (initialStates s).

(** The message of the assertion on the tracker in maybeProcessBatchEnd. *)
Definition noBatchBegin : string := "There is no pending batch begin message".

(** A remote message is claimed as the ack of an op of the previous
    session: the test of processRemoteMessage before its second loop. *)
Definition claimsAck (message : ISequencedDocumentMessage) (s : PendingStateManager)
    : bool :=
  option_string_eqb (Some (msg_clientId message)) (initialClientId s)
  && (msg_clientSequenceNumber message >=? initialClientSeqNum s).

(** The first loop of processRemoteMessage stops at once: the initial
    queue is empty, or its head is a message submitted after [message]
    was sequenced. *)
Definition rebaseStops (message : ISequencedDocumentMessage)
    (init : list IPendingState) : bool :=
  match init with
  | [] => true
  | PMessage p :: _ => referenceSequenceNumber p >? msg_sequenceNumber message
  | _ => false
  end.

(** The local acks [acks] acknowledge the messages [ms] one for one, in
    order: none is a chunked op and the client sequence numbers agree. *)
Fixpoint acknowledged (ms : list IPendingMessage)
    (acks : list ISequencedDocumentMessage) : bool :=
  match ms, acks with
  | [], [] => true
  | m :: ms', a :: acks' =>
      negb (isChunkedOp (msg_type a))
      && (clientSequenceNumber m =? msg_clientSequenceNumber a)
      && acknowledged ms' acks'
  | _, _ => false
  end.

(** What processMessage returns for each of a sequence of local acks,
    processed one after the other; None for a call that throws. *)
Fixpoint ackResults (acks : list ISequencedDocumentMessage) (s : PendingStateManager)
    : list (option ProcessResult) :=
  match acks with
  | [] => []
  | a :: rest =>
      returnedValue (processMessage a true s)
      :: ackResults rest (stateOf (processMessage a true s))
  end.

Definition localAcks (acks : list ISequencedDocumentMessage) : list Call :=
  map (fun a => ProcessMessage a true) acks.

Definition isCloseFn (c : RuntimeCall) : bool :=
  match c with CloseFn _ => true | _ => false end.

(** closeFn has been called on the runtime. *)
Definition closed (s : PendingStateManager) : bool :=
  existsb isCloseFn (rt_calls (containerRuntime s)).

(** A manager without initial state on which, as long as closeFn has not
    been called, pendingMessagesCount is the number of messages of the
    pending queue. *)
Definition countsMessages (s : PendingStateManager) : Prop :=
  initialStates s = [] /\ initialClientId s = None
  /\ (closed s = false -> pendingMessagesCount s = messageCount (pendingStates s)).

Definition isRuntimeChanged (c : Call) : bool :=
  match c with RuntimeChanged _ _ _ => true | _ => false end.

(** The messages of two assertions. *)
Definition calledTwice : string :=
  "replayPendingStates called twice for same clientId!".

Definition notManual : string :=
  "Flush mode should be manual when processing batch begin".

(** The manager has replayed under the client id its runtime is connected
    with. *)
Definition replayed (s : PendingStateManager) : Prop :=
  rt_connected (containerRuntime s) = true
  /\ option_string_eqb (clientId s) (rt_clientId (containerRuntime s)) = true.

(** maybeProcessBatchBegin fails an assertion: the queue is empty, its head
    is a flush mode update to Automatic, or its head is a marker while the
    batch tracker is not idle. *)
Definition batchBeginFails (s : PendingStateManager) : bool :=
  match pendingStates s with
  | [] => true
  | PMessage _ :: _ => false
  | PFlushMode Automatic :: _ => true
  | _ :: _ => isProcessingBatch s || negb (isNone (pendingBatchBeginMessage s))
  end.

(** Modelled from the spec: the class ContainerRuntime is not part of the
    sources at hand.  A runtime that notifies the manager as section 4.1.7
    and the comments of the source describe: reSubmitFn submits the op
    again, once, under the next client sequence number, which comes back
    through onSubmitMessage; setFlushMode comes back through
    onFlushModeUpdated when the flush mode changes (comment of
    IPendingFlushMode); flush comes back through onFlush (comments of
    IPendingFlush and of onFlush). *)
Definition notifying (c : RuntimeCall) (rt : ContainerRuntime) : list Reentry :=
  match c with
  | SetFlushMode mode =>
      if FlushMode_eqb mode (rt_flushMode rt) then []
      else [ReOnFlushModeUpdated mode]
  | FlushCall => [ReOnFlush]
  | _ => resubmitOnce c rt
  end.

Unset Implicit Arguments.

(** * Properties *)

(** ** Queue lemmas *)

Lemma peekBack_push (q : list IPendingState) (x : IPendingState) :
  peekBack (q ++ [x]) = Some x.
Proof.
  unfold peekBack. rewrite last_last.
  destruct q; reflexivity.
Qed.

Lemma removeBack_push (x : IPendingState) (s : PendingStateManager) :
  removeBack (push x s) = s.
Proof.
  unfold removeBack, push; simpl. rewrite removelast_last.
  destruct s; reflexivity.
Qed.

(** ** Flush-mode transitions *)

(** C8: onFlushModeUpdated(Manual) directly followed by
    onFlushModeUpdated(Automatic) leaves the pending queue, and with it the
    whole state of the manager, as it was before the two calls. *)
Theorem manual_then_automatic_collapses (s : PendingStateManager) :
  onFlushModeUpdated Automatic (onFlushModeUpdated Manual s) = s
  /\ pendingStates (onFlushModeUpdated Automatic (onFlushModeUpdated Manual s))
     = pendingStates s.
Proof.
  assert (E : onFlushModeUpdated Automatic (onFlushModeUpdated Manual s) = s).
  { unfold onFlushModeUpdated at 1.
    replace (pendingStates (onFlushModeUpdated Manual s))
      with (pendingStates s ++ [PFlushMode Manual]) by reflexivity.
    rewrite peekBack_push.
    apply removeBack_push. }
  split; [exact E | now rewrite E].
Qed.

(** ** Local acks *)

Ltac unfold_local :=
  unfold processMessage, processPendingLocalMessage, maybeProcessBatchBegin,
    maybeProcessBatchEnd, peekNextPendingState, bind, get, modify, ret,
    throw, assert, peekFront.

Lemma chunked_ack_skipped (message : ISequencedDocumentMessage) (local : bool)
    (s : PendingStateManager) :
  isChunkedOp (msg_type message) = true ->
  processMessage message local s
  = Ok s {| localAck := false; res_localOpMetadata := None |}.
Proof. intros H. unfold processMessage. now rewrite H. Qed.

(** What maybeProcessBatchBegin does, by the head of the queue. *)
Lemma maybeProcessBatchBegin_message (message : ISequencedDocumentMessage)
    (s : PendingStateManager) (p : IPendingMessage) (rest : list IPendingState) :
  pendingStates s = PMessage p :: rest ->
  maybeProcessBatchBegin message s = Ok s tt.
Proof. intros H. unfold_local. now rewrite H. Qed.

Lemma maybeProcessBatchBegin_marker (message : ISequencedDocumentMessage)
    (s : PendingStateManager) (marker : IPendingState) (rest : list IPendingState) :
  pendingStates s = marker :: rest ->
  opensBatch marker = true ->
  isProcessingBatch s = false ->
  pendingBatchBeginMessage s = None ->
  maybeProcessBatchBegin message s
  = Ok (shift (set_batch true (Some message) s)) tt.
Proof.
  intros H Hm Hb Hn. unfold_local. rewrite H. simpl.
  destruct marker as [q | [] | ]; try discriminate; simpl;
    now rewrite Hb, Hn.
Qed.

Lemma maybeProcessBatchBegin_outcome (message : ISequencedDocumentMessage)
    (s : PendingStateManager) :
  match maybeProcessBatchBegin message s with
  | Ok s' _ =>
      pendingStates s' = afterBatchBegin (pendingStates s)
      /\ containerRuntime s' = containerRuntime s
      /\ pendingMessagesCount s' = pendingMessagesCount s
  | Throw e s' => isAssertionError e = true /\ s' = s
  end.
Proof.
  unfold_local.
  destruct (pendingStates s) as [| st rest] eqn:E; simpl.
  - split; reflexivity.
  - destruct st as [p | [] | ]; simpl; try rewrite E; simpl; auto;
      destruct (negb (isProcessingBatch s) && isNone (pendingBatchBeginMessage s));
      simpl; try rewrite E; auto.
Qed.

(** maybeProcessBatchEnd never calls the runtime. *)
Lemma maybeProcessBatchEnd_outcome (message : ISequencedDocumentMessage)
    (s : PendingStateManager) :
  match maybeProcessBatchEnd message s with
  | Ok s' _ =>
      containerRuntime s' = containerRuntime s
      /\ pendingMessagesCount s' = pendingMessagesCount s
  | Throw e s' =>
      isAssertionError e = true /\ containerRuntime s' = containerRuntime s
  end.
Proof.
  unfold_local.
  destruct (pendingStates s) as [| st rest] eqn:E; simpl; auto.
  destruct st as [p | [] | ]; simpl; auto;
    destruct (pendingBatchBeginMessage s) as [b |]; simpl; auto;
    destruct (sameMessage b message); simpl;
    try destruct (isNone (msg_batch b)); simpl; auto;
    destruct (batch_is (msg_batch b) true); simpl; auto;
    destruct (batch_is (msg_batch message) false); simpl; auto.
Qed.

(** The body of processPendingLocalMessage after the batch-begin step, on
    a queue whose head is a message. *)
Lemma local_ack_at_message (message : ISequencedDocumentMessage)
    (s : PendingStateManager) (p : IPendingMessage) (rest : list IPendingState) :
  pendingStates s = PMessage p :: rest ->
  processPendingLocalMessage message s
  = if negb (clientSequenceNumber p =? msg_clientSequenceNumber message)
    then Ok (closeFn (unexpectedAck message (clientSequenceNumber p)) (shift s)) None
    else
      let s1 := set_pendingMessagesCount (pendingMessagesCount s - 1) (shift s) in
      if isProcessingBatch s
      then match maybeProcessBatchEnd message s1 with
           | Ok s2 _ => Ok s2 (Some (localOpMetadata p))
           | Throw e s2 => Throw e s2
           end
      else Ok s1 (Some (localOpMetadata p)).
Proof.
  intros H. unfold processPendingLocalMessage, bind.
  rewrite (maybeProcessBatchBegin_message message s p rest H).
  unfold peekNextPendingState, bind, get, peekFront. rewrite H.
  unfold ret, modify; simpl.
  destruct (negb (clientSequenceNumber p =? msg_clientSequenceNumber message));
    [reflexivity |].
  change (isProcessingBatch (shift s)) with (isProcessingBatch s).
  change (pendingMessagesCount (shift s)) with (pendingMessagesCount s).
  destruct (isProcessingBatch s); reflexivity.
Qed.

(** processPendingLocalMessage, split at the batch-begin step. *)
Lemma local_ack_steps (message : ISequencedDocumentMessage) (s : PendingStateManager) :
  processPendingLocalMessage message s
  = match maybeProcessBatchBegin message s with
    | Ok s1 _ =>
        match pendingStates s1 with
        | PMessage _ :: _ => processPendingLocalMessage message s1
        | [] => Throw (AssertionError noPendingState) s1
        | _ :: _ =>
            Throw (AssertionError
                     "No pending message found for this remote message") s1
        end
    | Throw e s1 => Throw e s1
    end.
Proof.
  unfold processPendingLocalMessage at 1. unfold bind at 1.
  destruct (maybeProcessBatchBegin message s) as [s1 [] | e s1]; [| reflexivity].
  destruct (pendingStates s1) as [| [p | f | ] rest] eqn:E.
  - unfold_local. now rewrite E.
  - rewrite (local_ack_at_message message s1 p rest E).
    unfold peekNextPendingState, bind, get, peekFront. rewrite E.
    unfold ret, modify; simpl.
    destruct (negb (clientSequenceNumber p =? msg_clientSequenceNumber message));
      [reflexivity |].
    change (isProcessingBatch (shift s1)) with (isProcessingBatch s1).
    change (pendingMessagesCount (shift s1)) with (pendingMessagesCount s1).
    destruct (isProcessingBatch s1); reflexivity.
  - unfold_local. now rewrite E.
  - unfold_local. now rewrite E.
Qed.

Lemma local_ack_opening_batch (message : ISequencedDocumentMessage)
    (s : PendingStateManager) (marker : IPendingState) (rest : list IPendingState) :
  pendingStates s = marker :: rest ->
  opensBatch marker = true ->
  isProcessingBatch s = false ->
  pendingBatchBeginMessage s = None ->
  processPendingLocalMessage message s
  = match rest with
    | PMessage _ :: _ =>
        processPendingLocalMessage message (shift (set_batch true (Some message) s))
    | [] => Throw (AssertionError noPendingState)
              (shift (set_batch true (Some message) s))
    | _ :: _ =>
        Throw (AssertionError "No pending message found for this remote message")
          (shift (set_batch true (Some message) s))
    end.
Proof.
  intros Hq Hm Hb Hn.
  rewrite (local_ack_steps message s),
    (maybeProcessBatchBegin_marker message s marker rest Hq Hm Hb Hn).
  simpl. rewrite Hq. reflexivity.
Qed.

(** What maybeProcessBatchBegin does, decided on the state. *)
Lemma maybeProcessBatchBegin_decided (message : ISequencedDocumentMessage)
    (s : PendingStateManager) :
  if batchBeginFails s
  then exists msg, maybeProcessBatchBegin message s = Throw (AssertionError msg) s
  else exists s1,
         maybeProcessBatchBegin message s = Ok s1 tt
         /\ pendingStates s1 = afterBatchBegin (pendingStates s)
         /\ containerRuntime s1 = containerRuntime s
         /\ pendingMessagesCount s1 = pendingMessagesCount s.
Proof.
  unfold batchBeginFails. unfold_local.
  destruct (pendingStates s) as [| [p | [] | ] rest] eqn:E; simpl.
  - eexists. reflexivity.
  - exists s. rewrite E. repeat split.
  - eexists. reflexivity.
  - destruct (isProcessingBatch s); simpl; [eexists; reflexivity |].
    destruct (pendingBatchBeginMessage s); simpl; [eexists; reflexivity |].
    eexists. split; [reflexivity |]. simpl. rewrite E. repeat split.
  - destruct (isProcessingBatch s); simpl; [eexists; reflexivity |].
    destruct (pendingBatchBeginMessage s); simpl; [eexists; reflexivity |].
    eexists. split; [reflexivity |]. simpl. rewrite E. repeat split.
Qed.

(** processMessage on a local ack that is not a chunked op. *)
Lemma processMessage_local (message : ISequencedDocumentMessage)
    (s : PendingStateManager) :
  isChunkedOp (msg_type message) = false ->
  processMessage message true s
  = match processPendingLocalMessage message s with
    | Ok s' r => Ok s' {| localAck := false; res_localOpMetadata := r |}
    | Throw e s' => Throw e s'
    end.
Proof. intros Hc. unfold processMessage. now rewrite Hc. Qed.

(** C3 (amended): a local ack of type ChunkedOp is skipped.  Any other
    local ack fails an assertion, leaving the manager as it was, when
    maybeProcessBatchBegin fails (the queue is empty, its head is a flush
    mode update to Automatic, or its head is a marker while the batch
    tracker is not idle).  Otherwise, when no message is at the head of
    the queue once a batch-begin marker is consumed, it fails an assertion
    without calling the runtime.  Otherwise a message is at the head: when
    its client sequence number differs from the ack's, the call returns,
    with no metadata, after it has dequeued the message and called closeFn
    exactly once, with a data corruption error whose
    expectedClientSequenceNumber is the pending message's and whose
    clientSequenceNumber is the ack's, and the count is not decremented;
    when they are equal, the runtime is not called, and the call returns
    the message's localOpMetadata or fails an assertion of the batch
    checks. *)
Theorem local_ack_matches_or_closes (s : PendingStateManager)
    (message : ISequencedDocumentMessage) :
  if isChunkedOp (msg_type message)
  then processMessage message true s
       = Ok s {| localAck := false; res_localOpMetadata := None |}
  else if batchBeginFails s
  then exists msg, processMessage message true s = Throw (AssertionError msg) s
  else
    match afterBatchBegin (pendingStates s) with
    | PMessage p :: rest =>
        if clientSequenceNumber p =? msg_clientSequenceNumber message
        then
          match processMessage message true s with
          | Ok s' r =>
              r = {| localAck := false;
                     res_localOpMetadata := Some (localOpMetadata p) |}
              /\ rt_calls (containerRuntime s') = rt_calls (containerRuntime s)
          | Throw e s' =>
              isAssertionError e = true
              /\ rt_calls (containerRuntime s') = rt_calls (containerRuntime s)
          end
        else
          exists s',
            processMessage message true s
            = Ok s' {| localAck := false; res_localOpMetadata := None |}
            /\ rt_calls (containerRuntime s')
               = rt_calls (containerRuntime s)
                 ++ [CloseFn (unexpectedAck message (clientSequenceNumber p))]
            /\ dce_expectedClientSequenceNumber
                 (unexpectedAck message (clientSequenceNumber p))
               = clientSequenceNumber p
            /\ dce_clientSequenceNumber
                 (unexpectedAck message (clientSequenceNumber p))
               = msg_clientSequenceNumber message
            /\ pendingStates s' = rest
            /\ pendingMessagesCount s' = pendingMessagesCount s
    | _ =>
        exists msg s',
          processMessage message true s = Throw (AssertionError msg) s'
          /\ rt_calls (containerRuntime s') = rt_calls (containerRuntime s)
    end.
Proof.
  destruct (isChunkedOp (msg_type message)) eqn:Hc.
  - now apply chunked_ack_skipped.
  - rewrite (processMessage_local message s Hc), (local_ack_steps message s).
    pose proof (maybeProcessBatchBegin_decided message s) as Hb.
    destruct (batchBeginFails s).
    + destruct Hb as (msg & ->). now exists msg.
    + destruct Hb as (s1 & -> & Hq & Hrt & Hn). rewrite <- Hq.
      destruct (pendingStates s1) as [| [p | f | ] rest] eqn:E.
      * eexists. exists s1. split; [reflexivity | now rewrite Hrt].
      * rewrite (local_ack_at_message message s1 p rest E).
        destruct (clientSequenceNumber p =? msg_clientSequenceNumber message);
          simpl negb; cbv iota zeta.
        -- set (s2 := set_pendingMessagesCount (pendingMessagesCount s1 - 1)
                        (shift s1)).
           assert (Hrt2 : containerRuntime s2 = containerRuntime s)
             by (now rewrite <- Hrt).
           destruct (isProcessingBatch s1).
           ++ pose proof (maybeProcessBatchEnd_outcome message s2) as He.
              destruct (maybeProcessBatchEnd message s2) as [s3 [] | e s3].
              ** destruct He as (He & _). split; [reflexivity | congruence].
              ** destruct He as (He1 & He2). split; [exact He1 | congruence].
           ++ split; [reflexivity | congruence].
        -- eexists. split; [reflexivity |]. simpl. rewrite Hrt, E, Hn.
           repeat split.
      * eexists. exists s1. split; [reflexivity | now rewrite Hrt].
      * eexists. exists s1. split; [reflexivity | now rewrite Hrt].
Qed.

(** C1 (amended): a local ack that is not a ChunkedOp and whose client
    sequence number equals that of the message at the head of the queue
    (after a batch-begin marker is consumed) either fails an assertion of
    the batch checks, or returns localAck false together with the
    localOpMetadata of that message, and then the count has gone down by
    one.  Outside a batch, with the message at the very head, it returns. *)
Theorem local_ack_returns_metadata (s : PendingStateManager)
    (message : ISequencedDocumentMessage) (p : IPendingMessage)
    (rest : list IPendingState) :
  isChunkedOp (msg_type message) = false ->
  afterBatchBegin (pendingStates s) = PMessage p :: rest ->
  clientSequenceNumber p = msg_clientSequenceNumber message ->
  match processMessage message true s with
  | Ok s' r =>
      r = {| localAck := false; res_localOpMetadata := Some (localOpMetadata p) |}
      /\ pendingMessagesCount s' = pendingMessagesCount s - 1
  | Throw e _ => isAssertionError e = true
  end
  /\ (pendingStates s = PMessage p :: rest ->
      isProcessingBatch s = false ->
      processMessage message true s
      = Ok (set_pendingMessagesCount (pendingMessagesCount s - 1) (shift s))
           {| localAck := false;
              res_localOpMetadata := Some (localOpMetadata p) |}).
Proof.
  intros Hc Hq Hcsn.
  assert (Heq : negb (clientSequenceNumber p =? msg_clientSequenceNumber message) = false).
  { apply negb_false_iff, Z.eqb_eq, Hcsn. }
  split.
  - unfold processMessage. rewrite Hc. unfold bind at 1.
    rewrite (local_ack_steps message s).
    pose proof (maybeProcessBatchBegin_outcome message s) as Hb.
    destruct (maybeProcessBatchBegin message s) as [s1 [] | e s1].
    + destruct Hb as (Hq1 & _ & Hn). rewrite Hq in Hq1. rewrite Hq1.
      rewrite (local_ack_at_message message s1 p rest Hq1), Heq. cbv zeta.
      set (s2 := set_pendingMessagesCount (pendingMessagesCount s1 - 1) (shift s1)).
      assert (Hn2 : pendingMessagesCount s2 = pendingMessagesCount s - 1)
        by (simpl; now rewrite Hn).
      destruct (isProcessingBatch s1).
      * pose proof (maybeProcessBatchEnd_outcome message s2) as He.
        destruct (maybeProcessBatchEnd message s2) as [s3 [] | e s3]; simpl in *.
        -- split; [reflexivity | destruct He as (_ & He); congruence].
        -- apply He.
      * simpl. split; [reflexivity | exact Hn2].
    + apply Hb.
  - intros Hp Hbatch. unfold processMessage. rewrite Hc. unfold bind at 1.
    rewrite (local_ack_at_message message s p rest Hp), Heq, Hbatch.
    reflexivity.
Qed.

(** ** Batch metadata *)

Lemma maybeProcessBatchEnd_at_marker (message beginMessage : ISequencedDocumentMessage)
    (s : PendingStateManager) (marker : IPendingState) (rest : list IPendingState) :
  pendingStates s = marker :: rest ->
  isMessage marker = false ->
  marker <> PFlushMode Manual ->
  pendingBatchBeginMessage s = Some beginMessage ->
  maybeProcessBatchEnd message s
  = if sameMessage beginMessage message
    then if isNone (msg_batch beginMessage)
         then Ok (set_batch false None (afterBatchEnd marker s)) tt
         else Throw (AssertionError
                "Batch with single message should not have batch metadata")
                (afterBatchEnd marker s)
    else if batch_is (msg_batch beginMessage) true
         then if batch_is (msg_batch message) false
              then Ok (set_batch false None (afterBatchEnd marker s)) tt
              else Throw (AssertionError "Did not receive batch end metadata")
                     (afterBatchEnd marker s)
         else Throw (AssertionError "Did not receive batch begin metadata")
                (afterBatchEnd marker s).
Proof.
  intros Hq Hm Hmanual Hb. unfold_local. rewrite Hq. simpl.
  destruct marker as [q | [] | ]; try discriminate; try congruence; simpl;
    rewrite Hb;
    destruct (sameMessage beginMessage message);
    try destruct (isNone (msg_batch beginMessage)); simpl; try reflexivity;
    destruct (batch_is (msg_batch beginMessage) true); simpl; try reflexivity;
    destruct (batch_is (msg_batch message) false); reflexivity.
Qed.

Lemma batchMetadataOk_cases (beginMessage message : ISequencedDocumentMessage)
    (A : Type) (ok : A) (single begin_missing end_missing : A) :
  (if sameMessage beginMessage message
   then if isNone (msg_batch beginMessage) then ok else single
   else if batch_is (msg_batch beginMessage) true
        then if batch_is (msg_batch message) false then ok else end_missing
        else begin_missing)
  = if batchMetadataOk beginMessage message
    then ok
    else if sameMessage beginMessage message then single
         else if batch_is (msg_batch beginMessage) true then end_missing
              else begin_missing.
Proof.
  unfold batchMetadataOk.
  destruct (sameMessage beginMessage message);
    [destruct (isNone (msg_batch beginMessage)); reflexivity |].
  destruct (batch_is (msg_batch beginMessage) true); simpl; [| reflexivity].
  destruct (batch_is (msg_batch message) false); reflexivity.
Qed.

Lemma closing_open_batch (s : PendingStateManager)
    (message beginMessage : ISequencedDocumentMessage) (p : IPendingMessage)
    (marker : IPendingState) (rest : list IPendingState) :
  isChunkedOp (msg_type message) = false ->
  pendingStates s = PMessage p :: marker :: rest ->
  clientSequenceNumber p = msg_clientSequenceNumber message ->
  closesBatch marker = true ->
  isProcessingBatch s = true ->
  pendingBatchBeginMessage s = Some beginMessage ->
  batchClosedOrAsserted beginMessage message (localOpMetadata p)
    (behindBatch marker rest) s.
Proof.
  intros Hc Hq Hcsn Hclose Hbatch Hbegin.
  assert (Hm : isMessage marker = false) by (now destruct marker as [q | [] | ]).
  assert (Hmanual : marker <> PFlushMode Manual) by (now destruct marker as [q | [] | ]).
  assert (Heq : negb (clientSequenceNumber p =? msg_clientSequenceNumber message) = false).
  { apply negb_false_iff, Z.eqb_eq, Hcsn. }
  set (s1 := set_pendingMessagesCount (pendingMessagesCount s - 1) (shift s)).
  assert (Hrun : processMessage message true s
                 = match maybeProcessBatchEnd message s1 with
                   | Ok s2 _ =>
                       Ok s2 {| localAck := false;
                                res_localOpMetadata := Some (localOpMetadata p) |}
                   | Throw e s2 => Throw e s2
                   end).
  { unfold processMessage. rewrite Hc. unfold bind at 1.
    rewrite (local_ack_at_message message s p (marker :: rest) Hq), Heq, Hbatch.
    cbv zeta. fold s1. now destruct (maybeProcessBatchEnd message s1). }
  unfold batchClosedOrAsserted. rewrite Hrun. clear Hrun.
  assert (Hq1 : pendingStates s1 = marker :: rest) by (simpl; now rewrite Hq).
  rewrite (maybeProcessBatchEnd_at_marker message beginMessage s1 marker rest
             Hq1 Hm Hmanual Hbegin).
  rewrite batchMetadataOk_cases.
  destruct (batchMetadataOk beginMessage message).
  - eexists. split; [reflexivity |].
    destruct marker as [q | [] | ]; try discriminate; simpl; rewrite Hq;
      repeat split; reflexivity.
  - destruct (sameMessage beginMessage message);
      [| destruct (batch_is (msg_batch beginMessage) true)];
      eexists; eexists; (split; [reflexivity |]);
      destruct marker as [q | [] | ]; reflexivity.
Qed.

(** C5 (amended): when a local ack closes a batch, that is when a batch is
    open and the entry behind the acked message is a flush or a flush mode
    update to Automatic, the batch metadata is checked against the message
    that opened the batch: when the ack itself opened it (a batch of one
    message) it must carry no batch metadata, otherwise the first message
    must carry true and the acked one false.  When the rule holds the ack
    is accepted and the batch tracker is cleared; when it is violated the
    call fails an assertion, and runtime.closeFn is not called.  A flush
    mode update to Manual behind the acked message fails an assertion as
    well. *)
Theorem local_ack_closing_batch (s : PendingStateManager)
    (message : ISequencedDocumentMessage) (p : IPendingMessage)
    (marker : IPendingState) (rest : list IPendingState) :
  isChunkedOp (msg_type message) = false ->
  clientSequenceNumber p = msg_clientSequenceNumber message ->
  (closesBatch marker = true ->
   (forall beginMessage,
      pendingStates s = PMessage p :: marker :: rest ->
      isProcessingBatch s = true ->
      pendingBatchBeginMessage s = Some beginMessage ->
      batchClosedOrAsserted beginMessage message (localOpMetadata p)
        (behindBatch marker rest) s)
   /\ (forall opener,
         pendingStates s = opener :: PMessage p :: marker :: rest ->
         opensBatch opener = true ->
         isProcessingBatch s = false ->
         pendingBatchBeginMessage s = None ->
         batchClosedOrAsserted message message (localOpMetadata p)
           (behindBatch marker rest) s))
  /\ (marker = PFlushMode Manual ->
      pendingStates s = PMessage p :: marker :: rest ->
      isProcessingBatch s = true ->
      processMessage message true s
      = Throw (AssertionError
                 "Flush mode is set to Manual in the middle of processing a batch")
          (set_pendingMessagesCount (pendingMessagesCount s - 1) (shift s))).
Proof.
  intros Hc Hcsn.
  assert (Heq : negb (clientSequenceNumber p =? msg_clientSequenceNumber message) = false).
  { apply negb_false_iff, Z.eqb_eq, Hcsn. }
  split; [intros Hclose; split |].
  - intros beginMessage Hq Hbatch Hbegin.
    now apply closing_open_batch.
  - intros opener Hq Hopen Hbatch Hbegin.
    set (s1 := shift (set_batch true (Some message) s)).
    assert (Hsame : processMessage message true s = processMessage message true s1).
    { unfold processMessage. rewrite Hc. unfold bind.
      now rewrite (local_ack_opening_batch message s opener _ Hq Hopen Hbatch Hbegin). }
    pose proof (closing_open_batch s1 message message p marker rest Hc) as H1.
    unfold batchClosedOrAsserted in *. rewrite Hsame.
    apply H1; try assumption; try reflexivity.
    simpl. now rewrite Hq.
  - intros -> Hq Hbatch.
    unfold processMessage. rewrite Hc. unfold bind at 1.
    rewrite (local_ack_at_message message s p _ Hq), Heq, Hbatch.
    cbv zeta. unfold_local. simpl. rewrite Hq. reflexivity.
Qed.

(** ** Acks on a queue that runs out *)

Lemma local_ack_last_entry_in_batch (message : ISequencedDocumentMessage)
    (s : PendingStateManager) (p : IPendingMessage) :
  clientSequenceNumber p = msg_clientSequenceNumber message ->
  pendingStates s = [PMessage p] ->
  isProcessingBatch s = true ->
  processPendingLocalMessage message s
  = Throw (AssertionError noPendingState)
      (set_pendingMessagesCount (pendingMessagesCount s - 1) (shift s)).
Proof.
  intros Hcsn Hq Hb.
  rewrite (local_ack_at_message message s p [] Hq), Hb.
  replace (negb (clientSequenceNumber p =? msg_clientSequenceNumber message))
    with false by (symmetry; apply negb_false_iff, Z.eqb_eq, Hcsn).
  cbv zeta. unfold_local. simpl. rewrite Hq. reflexivity.
Qed.

(** C10: a local ack peeks the head of the pending queue at three points,
    and at each of them an empty queue fails the assertion of
    peekNextPendingState: at batch begin (empty queue), at the message
    match (the queue held only the marker that opened the batch) and at
    batch end (the acked message was the last entry while a batch is
    open).  After onFlushModeUpdated(Manual) and one onSubmitMessage, the
    ack of that message fails this assertion at batch end; the message is
    gone from the queue, the call does not return and closeFn is not
    called. *)
Theorem local_ack_peeks_empty_queue (s : PendingStateManager)
    (message : ISequencedDocumentMessage) (p : IPendingMessage) :
  isChunkedOp (msg_type message) = false ->
  clientSequenceNumber p = msg_clientSequenceNumber message ->
  (pendingStates s = [] ->
   processMessage message true s = Throw (AssertionError noPendingState) s)
  /\ (forall marker,
        pendingStates s = [marker] -> opensBatch marker = true ->
        isProcessingBatch s = false -> pendingBatchBeginMessage s = None ->
        processMessage message true s
        = Throw (AssertionError noPendingState)
            (shift (set_batch true (Some message) s)))
  /\ (pendingStates s = [PMessage p] -> isProcessingBatch s = true ->
      processMessage message true s
      = Throw (AssertionError noPendingState)
          (set_pendingMessagesCount (pendingMessagesCount s - 1) (shift s)))
  /\ (forall marker,
        pendingStates s = [marker; PMessage p] -> opensBatch marker = true ->
        isProcessingBatch s = false -> pendingBatchBeginMessage s = None ->
        processMessage message true s
        = Throw (AssertionError noPendingState)
            (set_pendingMessagesCount (pendingMessagesCount s - 1)
               (shift (shift (set_batch true (Some message) s)))))
  /\ (forall rt : ContainerRuntime,
        exists s',
          processMessage message true
            (onSubmit p (onFlushModeUpdated Manual (new rt None)))
          = Throw (AssertionError noPendingState) s'
          /\ pendingStates s' = []
          /\ isProcessingBatch s' = true
          /\ rt_calls (containerRuntime s') = rt_calls rt).
Proof.
  intros Hc Hcsn.
  assert (Hlocal : forall s0,
            processMessage message true s0
            = match processPendingLocalMessage message s0 with
              | Ok s' r => Ok s' {| localAck := false; res_localOpMetadata := r |}
              | Throw e s' => Throw e s'
              end).
  { intros s0. unfold processMessage. now rewrite Hc. }
  assert (Hopen : forall s0 marker,
            pendingStates s0 = [marker; PMessage p] -> opensBatch marker = true ->
            isProcessingBatch s0 = false -> pendingBatchBeginMessage s0 = None ->
            processMessage message true s0
            = Throw (AssertionError noPendingState)
                (set_pendingMessagesCount (pendingMessagesCount s0 - 1)
                   (shift (shift (set_batch true (Some message) s0))))).
  { intros s0 marker Hq Hm Hb Hn. rewrite Hlocal.
    rewrite (local_ack_opening_batch message s0 marker [PMessage p] Hq Hm Hb Hn).
    rewrite (local_ack_last_entry_in_batch message _ p Hcsn);
      [reflexivity | simpl; now rewrite Hq | reflexivity]. }
  split; [| split; [| split; [| split]]].
  - intros Hq. rewrite Hlocal. unfold_local. now rewrite Hq.
  - intros marker Hq Hm Hb Hn. rewrite Hlocal.
    now rewrite (local_ack_opening_batch message s marker [] Hq Hm Hb Hn).
  - intros Hq Hb. rewrite Hlocal.
    now rewrite (local_ack_last_entry_in_batch message s p Hcsn Hq Hb).
  - apply Hopen.
  - intros rt. destruct p as [t csn rsn c l o]. eexists. split.
    + apply (Hopen _ (PFlushMode Manual)); reflexivity.
    + repeat split; reflexivity.
Qed.

(** ** Remote acks *)

(** C6: when the head of the initial queue is a message whose client
    sequence number is initialClientSeqNum and the sequence number of a
    remote ack is strictly greater than its reference sequence number,
    processing the ack throws the error "loaded from snapshot too recent
    to rebase pending initial ops".  The state is the one before the call:
    rebaseOp has not been called and the message is still in the initial
    queue. *)
Theorem remote_ack_snapshot_too_recent (s : PendingStateManager)
    (message : ISequencedDocumentMessage) (p : IPendingMessage)
    (rest : list IPendingState) :
  isChunkedOp (msg_type message) = false ->
  initialStates s = PMessage p :: rest ->
  clientSequenceNumber p = initialClientSeqNum s ->
  msg_sequenceNumber message > referenceSequenceNumber p ->
  processMessage message false s = Throw (JsError tooRecent) s
  /\ rebaseOpCalls (stateOf (processMessage message false s)) = rebaseOpCalls s
  /\ initialStates (stateOf (processMessage message false s)) = PMessage p :: rest.
Proof.
  intros Hc Hinit Hcsn Hsn.
  assert (E : processMessage message false s = Throw (JsError tooRecent) s).
  { unfold processMessage. rewrite Hc.
    unfold processRemoteMessage, bind, get. rewrite Hinit.
    simpl rebaseInitialUpTo.
    replace (referenceSequenceNumber p >? msg_sequenceNumber message) with false
      by (symmetry; rewrite Z.gtb_ltb; apply Z.ltb_ge; lia).
    unfold bind, get.
    replace (clientSequenceNumber p =? initialClientSeqNum s) with true
      by (symmetry; apply Z.eqb_eq, Hcsn).
    replace (msg_sequenceNumber message >? referenceSequenceNumber p) with true
      by (symmetry; rewrite Z.gtb_ltb; apply Z.ltb_lt; lia).
    reflexivity. }
  rewrite E. simpl. auto.
Qed.

(** ** Replay on reconnect *)

Lemma rt_calls_runtimeAfter (cs : list RuntimeCall) (rt : ContainerRuntime) :
  rt_calls (runtimeAfter cs rt) = rt_calls rt ++ cs.
Proof.
  revert rt. induction cs as [| c cs IH]; intros rt; simpl.
  - now rewrite app_nil_r.
  - unfold runtimeAfter in IH. rewrite IH. simpl. now rewrite <- app_assoc.
Qed.

Lemma runtimeAfter_app (cs ds : list RuntimeCall) (rt : ContainerRuntime) :
  runtimeAfter (cs ++ ds) rt = runtimeAfter ds (runtimeAfter cs rt).
Proof. unfold runtimeAfter. apply fold_left_app. Qed.

Lemma submittedBy_app (cs ds : list RuntimeCall) (rt : ContainerRuntime) :
  submittedBy (cs ++ ds) rt
  = submittedBy cs rt ++ submittedBy ds (runtimeAfter cs rt).
Proof.
  revert rt. induction cs as [| c cs IH]; intros rt; simpl.
  - reflexivity.
  - rewrite IH, <- app_assoc. reflexivity.
Qed.

Lemma rebaseRemaining_outcome (init : list IPendingState) (s : PendingStateManager) :
  initialStates s = init ->
  exists s',
    rebaseRemaining init s = Ok s' tt
    /\ pendingStates s' = pendingStates s ++ init
    /\ initialStates s' = []
    /\ containerRuntime s' = containerRuntime s
    /\ pendingMessagesCount s' = pendingMessagesCount s
    /\ clientId s' = clientId s
    /\ rebaseOpCalls s' = rebaseOpCalls s ++ rebaseCallsOf init.
Proof.
  revert s. induction init as [| st rest IH]; intros s Hinit.
  - exists s. simpl. rewrite !app_nil_r. repeat split; auto.
  - simpl. unfold bind, modify.
    set (s1 := push st
                 (stateOf (match st with
                           | PMessage p =>
                               Ok (rebaseOp (content p) (localOpMetadata p)
                                     (set_initialStates rest s)) tt
                           | _ => ret tt (set_initialStates rest s)
                           end))).
    destruct (IH s1) as (s' & Hrun & Hq & Hi & Hrt & Hn & Hc & Hr).
    { destruct st; reflexivity. }
    exists s'. split.
    + destruct st; exact Hrun.
    + rewrite Hq, Hi, Hrt, Hn, Hc, Hr.
      destruct st; simpl; rewrite <- ?app_assoc; repeat split; reflexivity.
Qed.

Section SubmitOnly.

(** The runtime's hooks come back into the manager through
    onSubmitMessage only. *)
Hypothesis reentry_submits :
  forall c rt, forallb isReOnSubmitMessage (reentry c rt) = true.

Lemma reenter_submit (s : PendingStateManager) (m : IPendingMessage) :
  pendingStates (reenter s (ReOnSubmitMessage m)) = pendingStates s ++ [PMessage m]
  /\ pendingMessagesCount (reenter s (ReOnSubmitMessage m)) = pendingMessagesCount s + 1
  /\ containerRuntime (reenter s (ReOnSubmitMessage m)) = containerRuntime s
  /\ initialStates (reenter s (ReOnSubmitMessage m)) = initialStates s
  /\ clientId (reenter s (ReOnSubmitMessage m)) = clientId s
  /\ rebaseOpCalls (reenter s (ReOnSubmitMessage m)) = rebaseOpCalls s.
Proof. destruct m. repeat split; reflexivity. Qed.

Lemma fold_reenter_submits (rs : list Reentry) (s : PendingStateManager) :
  forallb isReOnSubmitMessage rs = true ->
  pendingStates (fold_left reenter rs s)
  = pendingStates s ++ flat_map asPending rs
  /\ pendingMessagesCount (fold_left reenter rs s)
     = pendingMessagesCount s + Z.of_nat (List.length (flat_map asPending rs))
  /\ containerRuntime (fold_left reenter rs s) = containerRuntime s
  /\ initialStates (fold_left reenter rs s) = initialStates s
  /\ clientId (fold_left reenter rs s) = clientId s
  /\ rebaseOpCalls (fold_left reenter rs s) = rebaseOpCalls s.
Proof.
  revert s. induction rs as [| r rs IH]; intros s Hall.
  - simpl. rewrite app_nil_r, Z.add_0_r. repeat split; reflexivity.
  - simpl in Hall. apply andb_true_iff in Hall. destruct Hall as (Hr & Hall).
    destruct r as [m | f | ]; try discriminate.
    destruct (IH (reenter s (ReOnSubmitMessage m)) Hall)
      as (Hq & Hn & Hrt & Hi & Hc & Hb).
    destruct (reenter_submit s m) as (Hq1 & Hn1 & Hrt1 & Hi1 & Hc1 & Hb1).
    change (fold_left reenter (ReOnSubmitMessage m :: rs) s)
      with (fold_left reenter rs (reenter s (ReOnSubmitMessage m))).
    rewrite Hq, Hn, Hrt, Hi, Hc, Hb, Hq1, Hn1, Hrt1, Hi1, Hc1, Hb1.
    change (flat_map asPending (ReOnSubmitMessage m :: rs))
      with (PMessage m :: flat_map asPending rs).
    rewrite <- app_assoc.
    change (List.length (PMessage m :: flat_map asPending rs))
      with (S (List.length (flat_map asPending rs))).
    repeat split; try reflexivity. lia.
Qed.

Lemma callRuntime_submits (c : RuntimeCall) (s : PendingStateManager) :
  pendingStates (callRuntime c s)
  = pendingStates s ++ submittedBy [c] (containerRuntime s)
  /\ pendingMessagesCount (callRuntime c s)
     = pendingMessagesCount s
       + Z.of_nat (List.length (submittedBy [c] (containerRuntime s)))
  /\ containerRuntime (callRuntime c s) = logCall c (containerRuntime s)
  /\ initialStates (callRuntime c s) = initialStates s
  /\ clientId (callRuntime c s) = clientId s
  /\ rebaseOpCalls (callRuntime c s) = rebaseOpCalls s.
Proof.
  unfold callRuntime. simpl submittedBy. rewrite app_nil_r.
  apply (fold_reenter_submits (reentry c (containerRuntime s))
           (set_containerRuntime (logCall c (containerRuntime s)) s)).
  apply reentry_submits.
Qed.

(** The second loop of replayPendingStates on a queue that starts with
    [entries]: it returns, it has made one call per entry, in order, and
    what the runtime submitted meanwhile is behind [extra], untouched. *)
Lemma replayLoop_outcome (entries extra : list IPendingState) (s : PendingStateManager) :
  pendingStates s = entries ++ extra ->
  exists s',
    replayLoop (List.length entries) s = Ok s' tt
    /\ pendingStates s'
       = extra ++ submittedBy (map replayCall entries) (containerRuntime s)
    /\ pendingMessagesCount s'
       = pendingMessagesCount s
         + Z.of_nat (List.length
                       (submittedBy (map replayCall entries) (containerRuntime s)))
    /\ containerRuntime s' = runtimeAfter (map replayCall entries) (containerRuntime s)
    /\ initialStates s' = initialStates s
    /\ clientId s' = clientId s
    /\ rebaseOpCalls s' = rebaseOpCalls s.
Proof.
  revert extra s. induction entries as [| e entries IH]; intros extra s Hq.
  - exists s. simpl. rewrite app_nil_r, Z.add_0_r. repeat split; auto.
  - change (List.length (e :: entries)) with (S (List.length entries)).
    simpl replayLoop. unfold bind at 1, get at 1.
    rewrite Hq. simpl app. unfold bind, modify.
    set (s1 := callRuntime (replayCall e) (shift s)).
    destruct (callRuntime_submits (replayCall e) (shift s))
      as (Hq1 & Hn1 & Hrt1 & Hi1 & Hc1 & Hb1).
    fold s1 in Hq1, Hn1, Hrt1, Hi1, Hc1, Hb1.
    change (containerRuntime (shift s)) with (containerRuntime s) in *.
    assert (Hq1' : pendingStates s1
                   = entries ++ (extra ++ submittedBy [replayCall e] (containerRuntime s))).
    { rewrite Hq1. simpl. rewrite Hq. simpl. now rewrite <- app_assoc. }
    destruct (IH _ s1 Hq1') as (s' & Hrun & Hq' & Hn' & Hrt' & Hi' & Hc' & Hb').
    exists s'. split; [exact Hrun |].
    rewrite Hq', Hn', Hrt', Hi', Hc', Hb', Hrt1, Hn1, Hi1, Hc1, Hb1.
    change (map replayCall (e :: entries))
      with ([replayCall e] ++ map replayCall entries).
    rewrite submittedBy_app, runtimeAfter_app, length_app, <- app_assoc.
    repeat split; try reflexivity.
    + simpl. now rewrite app_nil_r.
    + rewrite Nat2Z.inj_add.
      change (pendingMessagesCount (shift s)) with (pendingMessagesCount s).
      change (runtimeAfter [replayCall e] (containerRuntime s))
        with (logCall (replayCall e) (containerRuntime s)).
      lia.
Qed.

(** What replayPendingStates does when its two assertions hold. *)
Lemma replayPendingStates_outcome (s : PendingStateManager) :
  rt_connected (containerRuntime s) = true ->
  option_string_eqb (clientId s) (rt_clientId (containerRuntime s)) = false ->
  let rt := containerRuntime s in
  let entries := pendingStates s ++ initialStates s in
  let calls := replayCalls entries (rt_flushMode rt) in
  exists s',
    replayPendingStates s = Ok s' tt
    /\ rt_calls (containerRuntime s') = rt_calls rt ++ calls
    /\ List.length calls
       = match entries with [] => O | _ => S (List.length entries) end
    /\ pendingStates s' = submittedBy calls rt
    /\ initialStates s' = []
    /\ rt_flushMode (containerRuntime s') = rt_flushMode rt
    /\ clientId s' = rt_clientId rt
    /\ pendingMessagesCount s'
       = match entries with
         | [] => pendingMessagesCount s
         | _ => Z.of_nat (List.length (submittedBy calls rt))
         end
    /\ rebaseOpCalls s' = rebaseOpCalls s ++ rebaseCallsOf (initialStates s).
Proof.
  intros Hconn Hcid rt entries calls.
  unfold replayPendingStates. unfold bind at 1, get at 1.
  rewrite Hconn, Hcid. simpl negb. unfold assert.
  unfold bind at 1, ret at 1. unfold bind at 1, ret at 1.
  unfold bind at 1, modify at 1. unfold bind at 1.
  destruct (rebaseRemaining_outcome (initialStates s)
              (set_clientId (rt_clientId (containerRuntime s)) s) eq_refl)
    as (s2 & Hrun & Hq & Hi & Hrt & Hn & Hc & Hb).
  rewrite Hrun. clear Hrun.
  change (pendingStates (set_clientId (rt_clientId (containerRuntime s)) s))
    with (pendingStates s) in Hq.
  change (containerRuntime (set_clientId (rt_clientId (containerRuntime s)) s))
    with rt in Hrt.
  change (pendingMessagesCount (set_clientId (rt_clientId (containerRuntime s)) s))
    with (pendingMessagesCount s) in Hn.
  change (clientId (set_clientId (rt_clientId (containerRuntime s)) s))
    with (rt_clientId rt) in Hc.
  change (rebaseOpCalls (set_clientId (rt_clientId (containerRuntime s)) s))
    with (rebaseOpCalls s) in Hb.
  fold entries in Hq.
  unfold bind at 1, get at 1. rewrite Hq.
  destruct entries as [| e entries'] eqn:He.
  - exists s2. simpl. rewrite !app_nil_r, Hq, Hrt. repeat split; auto.
  - set (n := List.length (e :: entries')).
    change (match n with O => ret tt | S _ => ?k end) with k.
    unfold bind at 1, modify at 1.
    unfold bind at 1.
    destruct (replayLoop_outcome (e :: entries') [] (set_pendingMessagesCount 0 s2))
      as (s4 & Hrun & Hq4 & Hn4 & Hrt4 & Hi4 & Hc4 & Hb4).
    { simpl. rewrite Hq. now rewrite app_nil_r. }
    fold n in Hrun. rewrite Hrun. clear Hrun.
    change (containerRuntime (set_pendingMessagesCount 0 s2))
      with (containerRuntime s2) in *.
    rewrite Hrt in *.
    unfold modify.
    destruct (callRuntime_submits (SetFlushMode (rt_flushMode rt)) s4)
      as (Hq5 & Hn5 & Hrt5 & Hi5 & Hc5 & Hb5).
    eexists. split; [reflexivity |].
    rewrite Hq5, Hn5, Hrt5, Hi5, Hc5, Hb5, Hq4, Hn4, Hrt4, Hi4, Hc4, Hb4.
    unfold calls, replayCalls.
    rewrite submittedBy_app, length_app, length_app, length_map.
    simpl app at 1. subst n.
    split; [| split; [| split; [| split; [| split; [| split; [| split]]]]]].
    + simpl rt_calls. rewrite rt_calls_runtimeAfter. simpl rt_calls.
      rewrite <- !app_assoc. reflexivity.
    + simpl. lia.
    + reflexivity.
    + exact Hi.
    + reflexivity.
    + exact Hc.
    + simpl pendingMessagesCount. lia.
    + exact Hb.
Qed.

(** Replay on a runtime whose hooks come back through onSubmitMessage only:
    replayPendingStates returns.  With [entries] the queue after the
    initial states are drained into it, it makes exactly one call on the
    runtime per entry, in queue order, followed by the setFlushMode that
    restores the flush mode it saved; what the runtime submitted through
    onSubmitMessage meanwhile is all in the queue afterwards, so none of
    it was replayed; the runtime's flush mode is the one it had before. *)
Theorem replay_processes_each_pending_state_once (s : PendingStateManager) :
  rt_connected (containerRuntime s) = true ->
  option_string_eqb (clientId s) (rt_clientId (containerRuntime s)) = false ->
  let rt := containerRuntime s in
  let entries := pendingStates s ++ initialStates s in
  let calls := replayCalls entries (rt_flushMode rt) in
  exists s',
    replayPendingStates s = Ok s' tt
    /\ rt_calls (containerRuntime s') = rt_calls rt ++ calls
    /\ List.length calls
       = match entries with [] => O | _ => S (List.length entries) end
    /\ pendingStates s' = submittedBy calls rt
    /\ initialStates s' = []
    /\ rt_flushMode (containerRuntime s') = rt_flushMode rt.
Proof.
  intros Hconn Hcid rt entries calls.
  destruct (replayPendingStates_outcome s Hconn Hcid)
    as (s' & Hrun & Hcalls & Hlen & Hq & Hi & Hmode & _).
  exists s'. repeat split; assumption.
Qed.

(** ** Serialize, rehydrate, replay *)

Lemma messagesOf_app (q r : list IPendingState) :
  messagesOf (q ++ r) = messagesOf q ++ messagesOf r.
Proof.
  induction q as [| [m | f | ] q IH]; simpl; [reflexivity | | |];
    now rewrite IH.
Qed.

Lemma messagesOf_removelast (q : list IPendingState) (st : IPendingState) :
  peekBack q = Some st -> isMessage st = false ->
  messagesOf (removelast q) = messagesOf q.
Proof.
  intros Hp Hm.
  destruct q as [| a q]; [reflexivity |].
  destruct (exists_last (l := a :: q)) as (q' & x & Hq'); [discriminate |].
  rewrite Hq' in *. rewrite peekBack_push in Hp. injection Hp as ->.
  rewrite removelast_last, messagesOf_app.
  destruct st; try discriminate; simpl; now rewrite app_nil_r.
Qed.

Lemma resubmissions_app (a b : list RuntimeCall) :
  resubmissions (a ++ b) = resubmissions a ++ resubmissions b.
Proof.
  induction a as [| [t c l o | m | | e] a IH]; simpl; [reflexivity | | | |];
    now rewrite IH.
Qed.


(** A call of the submission side returns, adds the message it submits
    and keeps the count in step. *)
Lemma submission_step (c : Call) (s : PendingStateManager) :
  isSubmission c = true ->
  messagesOf (pendingStates (stateOf (step c s)))
  = messagesOf (pendingStates s) ++ submittedMessages [c]
  /\ pendingMessagesCount (stateOf (step c s))
     = pendingMessagesCount s + Z.of_nat (List.length (submittedMessages [c])).
Proof.
  intros Hc.
  destruct c as [m | f | | message local | | connected cid mode];
    try discriminate; simpl.
  - destruct m. simpl. rewrite messagesOf_app. split; reflexivity.
  - rewrite app_nil_r, Z.add_0_r. unfold onFlushModeUpdated.
    destruct f; [| simpl; rewrite messagesOf_app; simpl;
                   rewrite app_nil_r; split; reflexivity].
    destruct (peekBack (pendingStates s)) as [[p | [] | ] |] eqn:E; simpl;
      rewrite ?messagesOf_app; simpl; rewrite ?app_nil_r;
      try (split; reflexivity).
    + split; [| reflexivity].
      now apply (messagesOf_removelast _ (PFlushMode Manual)).
    + split; [| reflexivity].
      now apply (messagesOf_removelast _ PFlush).
  - rewrite app_nil_r, Z.add_0_r. unfold onFlush.
    destruct (rt_flushMode (containerRuntime s)); [split; reflexivity |].
    destruct (peekBack (pendingStates s)) as [[p | f | ] |]; simpl;
      rewrite ?messagesOf_app; simpl; rewrite ?app_nil_r; split; reflexivity.
  - rewrite app_nil_r, Z.add_0_r. split; reflexivity.
Qed.

Lemma submittedMessages_cons (c : Call) (cs : list Call) :
  submittedMessages (c :: cs) = submittedMessages [c] ++ submittedMessages cs.
Proof. destruct c; reflexivity. Qed.

Lemma submission_run (cs : list Call) (s : PendingStateManager) :
  forallb isSubmission cs = true ->
  messagesOf (pendingStates (run cs s))
  = messagesOf (pendingStates s) ++ submittedMessages cs
  /\ pendingMessagesCount (run cs s)
     = pendingMessagesCount s + Z.of_nat (List.length (submittedMessages cs)).
Proof.
  revert s. induction cs as [| c cs IH]; intros s Hcs.
  - simpl. rewrite app_nil_r, Z.add_0_r. split; reflexivity.
  - simpl in Hcs. apply andb_true_iff in Hcs. destruct Hcs as (Hc & Hcs).
    destruct (submission_step c s Hc) as (Hm & Hn).
    destruct (IH (stateOf (step c s)) Hcs) as (Hm' & Hn').
    change (run (c :: cs) s) with (run cs (stateOf (step c s))).
    rewrite (submittedMessages_cons c cs), Hm', Hn', Hm, Hn, length_app, <- app_assoc.
    split; [reflexivity | lia].
Qed.




End SubmitOnly.

(** ** Invariants of the pending queue *)

Section PreservesRules.

Variable P : PendingStateManager -> Prop.

Lemma preserves_ret {A} (a : A) : Preserves P (ret a).
Proof. intros s H. exact H. Qed.

Lemma preserves_throw {A} (e : Exception) : Preserves P (@throw A e).
Proof. intros s H. exact H. Qed.

Lemma preserves_assert (cond : bool) (msg : string) : Preserves P (assert cond msg).
Proof. intros s H. unfold assert. destruct cond; exact H. Qed.

Lemma preserves_modify (f : PendingStateManager -> PendingStateManager) :
  (forall s, P s -> P (f s)) -> Preserves P (modify f).
Proof. intros Hf s H. apply Hf, H. Qed.

Lemma preserves_bind {A B} (c : Method A) (k : A -> Method B) :
  Preserves P c -> (forall a, Preserves P (k a)) -> Preserves P (bind c k).
Proof.
  intros Hc Hk s H. unfold bind. specialize (Hc s H).
  destruct (c s) as [s' a | e s']; simpl in Hc.
  - apply Hk, Hc.
  - exact Hc.
Qed.

Lemma preserves_get_bind {B} (k : PendingStateManager -> Method B) :
  (forall s, P s -> P (stateOf (k s s))) -> Preserves P (bind get k).
Proof. intros Hk s H. unfold bind, get. apply Hk, H. Qed.

End PreservesRules.

Section QueueInvariant.

(** A property of queues that the tail of a queue inherits. *)
Variable G : list IPendingState -> Prop.
Hypothesis G_tl : forall a q, G (a :: q) -> G q.

Lemma onQueue_shift (s : PendingStateManager) : onQueue G s -> onQueue G (shift s).
Proof.
  intros (Hi & Hq). split; [exact Hi |]. simpl.
  destruct (pendingStates s) as [| a q]; [exact Hq | exact (G_tl a q Hq)].
Qed.

Lemma preserves_peekNextPendingState :
  Preserves (onQueue G) peekNextPendingState.
Proof.
  apply preserves_get_bind. intros s H.
  destruct (peekFront (pendingStates s)); exact H.
Qed.

Lemma preserves_maybeProcessBatchBegin (message : ISequencedDocumentMessage) :
  Preserves (onQueue G) (maybeProcessBatchBegin message).
Proof.
  apply preserves_bind; [apply preserves_peekNextPendingState |].
  intros st.
  assert (Hrest : forall c : Method unit,
            Preserves (onQueue G) c ->
            Preserves (onQueue G)
              (c ;; s <- get ;;
               assert (negb (isProcessingBatch s) && isNone (pendingBatchBeginMessage s))
                 "The pending batch state indicates we are already processing a batch" ;;
               modify (set_batch true (Some message)) ;;
               modify shift)).
  { intros c Hc. apply preserves_bind; [exact Hc |]. intros _.
    apply preserves_get_bind. intros s H.
    apply (preserves_bind (onQueue G)); [apply preserves_assert | | exact H].
    intros _. apply preserves_bind.
    - apply preserves_modify. intros s0 H0. exact H0.
    - intros _. apply preserves_modify, onQueue_shift. }
  destruct st as [p | f | ].
  - apply preserves_ret.
  - apply Hrest, preserves_assert.
  - apply Hrest, preserves_ret.
Qed.

Lemma preserves_maybeProcessBatchEnd (message : ISequencedDocumentMessage) :
  Preserves (onQueue G) (maybeProcessBatchEnd message).
Proof.
  apply preserves_bind; [apply preserves_peekNextPendingState |].
  intros st.
  assert (Hrest : forall c : Method unit,
            Preserves (onQueue G) c ->
            Preserves (onQueue G)
              (c ;; s <- get ;;
               match pendingBatchBeginMessage s with
               | None => throw (AssertionError "There is no pending batch begin message")
               | Some beginMessage =>
                   let batchBeginMetadata := msg_batch beginMessage in
                   (if sameMessage beginMessage message
                    then assert (isNone batchBeginMetadata)
                           "Batch with single message should not have batch metadata"
                    else
                      let batchEndMetadata := msg_batch message in
                      assert (batch_is batchBeginMetadata true)
                        "Did not receive batch begin metadata" ;;
                      assert (batch_is batchEndMetadata false)
                        "Did not receive batch end metadata") ;;
                   modify (set_batch false None)
               end)).
  { intros c Hc. apply preserves_bind; [exact Hc |]. intros _.
    apply preserves_get_bind. intros s H.
    destruct (pendingBatchBeginMessage s) as [b |]; [| exact H].
    apply (preserves_bind (onQueue G)); [| | exact H].
    - destruct (sameMessage b message); [apply preserves_assert |].
      apply preserves_bind; [apply preserves_assert |].
      intros _. apply preserves_assert.
    - intros _. apply preserves_modify. intros s0 H0. exact H0. }
  destruct st as [p | f | ].
  - apply preserves_ret.
  - apply Hrest. apply preserves_bind; [apply preserves_assert |].
    intros _. apply preserves_modify, onQueue_shift.
  - apply Hrest, preserves_ret.
Qed.

Lemma preserves_processPendingLocalMessage (message : ISequencedDocumentMessage) :
  Preserves (onQueue G) (processPendingLocalMessage message).
Proof.
  apply preserves_bind; [apply preserves_maybeProcessBatchBegin |]. intros _.
  apply preserves_bind; [apply preserves_peekNextPendingState |].
  intros [p | f | ]; try apply preserves_throw.
  apply preserves_bind; [apply preserves_modify, onQueue_shift |]. intros _.
  destruct (negb (clientSequenceNumber p =? msg_clientSequenceNumber message)).
  - apply preserves_bind; [| intros _; apply preserves_ret].
    apply preserves_modify. intros s H. exact H.
  - apply preserves_bind; [apply preserves_modify; intros s H; exact H |].
    intros _. apply preserves_get_bind. intros s H.
    apply (preserves_bind (onQueue G)); [| intros _; apply preserves_ret | exact H].
    destruct (isProcessingBatch s);
      [apply preserves_maybeProcessBatchEnd | apply preserves_ret].
Qed.

Lemma shiftUntilMessage_onQueue (q : list IPendingState) (s : PendingStateManager) :
  onQueue G s -> G q -> onQueue G (stateOf (shiftUntilMessage q s)).
Proof.
  revert s. induction q as [| st rest IH]; intros s H Hq.
  - exact H.
  - simpl. unfold bind, modify.
    assert (H1 : onQueue G (set_pendingStates rest s)).
    { split; [apply H | exact (G_tl st rest Hq)]. }
    destruct st as [p | f | ].
    + exact H1.
    + apply IH; [exact H1 | exact (G_tl _ _ Hq)].
    + apply IH; [exact H1 | exact (G_tl _ _ Hq)].
Qed.

Lemma preserves_processRemoteMessage (message : ISequencedDocumentMessage) :
  Preserves (onQueue G) (processRemoteMessage message).
Proof.
  apply preserves_get_bind. intros s H.
  destruct H as (Hi & Hq). rewrite Hi. simpl rebaseInitialUpTo.
  unfold bind, ret, get.
  destruct (option_string_eqb (Some (msg_clientId message)) (initialClientId s)
            && (msg_clientSequenceNumber message >=? initialClientSeqNum s)).
  - apply shiftUntilMessage_onQueue; [split; assumption | exact Hq].
  - split; assumption.
Qed.

Lemma preserves_processMessage (message : ISequencedDocumentMessage) (local : bool) :
  Preserves (onQueue G) (processMessage message local).
Proof.
  unfold processMessage.
  destruct (isChunkedOp (msg_type message)); [apply preserves_ret |].
  destruct local.
  - apply preserves_bind; [apply preserves_processPendingLocalMessage |].
    intros r. apply preserves_ret.
  - apply preserves_processRemoteMessage.
Qed.

End QueueInvariant.

(** ** Flush markers *)

Lemma framed_tl (a : IPendingState) (q : list IPendingState) :
  flushesFollowMessages (a :: q) = true -> flushesFollowMessages q = true.
Proof.
  destruct q as [| b q]; [reflexivity |].
  intros H. change (flushesFollowMessages (a :: b :: q))
    with ((negb (isFlush b) || isMessage a) && flushesFollowMessages (b :: q)) in H.
  apply andb_true_iff in H. apply H.
Qed.

Lemma peekBack_cons (a b : IPendingState) (q : list IPendingState) :
  peekBack (a :: b :: q) = peekBack (b :: q).
Proof. reflexivity. Qed.

Lemma framed_push (q : list IPendingState) (x : IPendingState) :
  flushesFollowMessages q = true ->
  (isFlush x = true -> exists p, peekBack q = Some (PMessage p)) ->
  flushesFollowMessages (q ++ [x]) = true.
Proof.
  induction q as [| a q IH]; intros H Hx; [reflexivity |].
  destruct q as [| b q].
  - change (flushesFollowMessages ([a] ++ [x]))
      with ((negb (isFlush x) || isMessage a) && true).
    rewrite andb_true_r.
    destruct (isFlush x); [| reflexivity].
    destruct (Hx eq_refl) as (p & Hp). injection Hp as ->. reflexivity.
  - change (flushesFollowMessages ((a :: b :: q) ++ [x]))
      with ((negb (isFlush b) || isMessage a)
            && flushesFollowMessages ((b :: q) ++ [x])).
    change (flushesFollowMessages (a :: b :: q))
      with ((negb (isFlush b) || isMessage a) && flushesFollowMessages (b :: q)) in H.
    apply andb_true_iff in H. destruct H as (H1 & H2).
    rewrite H1. apply IH; [exact H2 |].
    intros Hf. rewrite <- peekBack_cons with (a := a). exact (Hx Hf).
Qed.

Lemma framed_removelast (q : list IPendingState) :
  flushesFollowMessages q = true -> flushesFollowMessages (removelast q) = true.
Proof.
  induction q as [| a q IH]; intros H; [reflexivity |].
  destruct q as [| b q]; [reflexivity |].
  change (removelast (a :: b :: q)) with (a :: removelast (b :: q)).
  change (flushesFollowMessages (a :: b :: q))
    with ((negb (isFlush b) || isMessage a) && flushesFollowMessages (b :: q)) in H.
  apply andb_true_iff in H. destruct H as (H1 & H2).
  specialize (IH H2).
  destruct q as [| c q]; [reflexivity |].
  change (removelast (b :: c :: q)) with (b :: removelast (c :: q)) in *.
  change (flushesFollowMessages (a :: b :: removelast (c :: q)))
    with ((negb (isFlush b) || isMessage a)
          && flushesFollowMessages (b :: removelast (c :: q))).
  now rewrite H1, IH.
Qed.

Lemma framed_push_state (x : IPendingState) (s : PendingStateManager) :
  framed s ->
  (isFlush x = true -> exists p, peekBack (pendingStates s) = Some (PMessage p)) ->
  framed (push x s).
Proof.
  intros (Hi & Hq) Hx. split; [exact Hi |]. simpl. now apply framed_push.
Qed.

Lemma framed_removeBack (s : PendingStateManager) : framed s -> framed (removeBack s).
Proof.
  intros (Hi & Hq). split; [exact Hi |]. simpl. now apply framed_removelast.
Qed.

Lemma framed_onFlushModeUpdated (flushMode : FlushMode) (s : PendingStateManager) :
  framed s -> framed (onFlushModeUpdated flushMode s).
Proof.
  intros H. unfold onFlushModeUpdated.
  destruct flushMode.
  - destruct (peekBack (pendingStates s)) as [[p | [] | ] |].
    + apply framed_push_state; [exact H | discriminate].
    + apply framed_push_state; [exact H | discriminate].
    + apply framed_removeBack, H.
    + apply framed_push_state; [apply framed_removeBack, H | discriminate].
    + apply framed_push_state; [exact H | discriminate].
  - apply framed_push_state; [exact H | discriminate].
Qed.

Lemma framed_onFlush (s : PendingStateManager) : framed s -> framed (onFlush s).
Proof.
  intros H. unfold onFlush.
  destruct (rt_flushMode (containerRuntime s)); [exact H |].
  destruct (peekBack (pendingStates s)) as [[p | f | ] |] eqn:E; try exact H.
  apply framed_push_state; [exact H |]. intros _. now exists p.
Qed.

Lemma framed_reenter (s : PendingStateManager) (r : Reentry) :
  framed s -> framed (reenter s r).
Proof.
  intros H. destruct r as [m | f | ].
  - destruct H as (Hi & Hq). split; [exact Hi |].
    simpl. apply framed_push; [exact Hq | discriminate].
  - now apply framed_onFlushModeUpdated.
  - now apply framed_onFlush.
Qed.

Lemma framed_callRuntime (c : RuntimeCall) (s : PendingStateManager) :
  framed s -> framed (callRuntime c s).
Proof.
  intros H. unfold callRuntime.
  assert (Hfold : forall rs s0, framed s0 -> framed (fold_left reenter rs s0)).
  { induction rs as [| r rs IH]; intros s0 H0; [exact H0 |].
    simpl. apply IH, framed_reenter, H0. }
  apply Hfold. exact H.
Qed.

Lemma preserves_replayLoop (n : nat) : Preserves framed (replayLoop n).
Proof.
  induction n as [| n IH]; [apply preserves_ret |].
  simpl. apply preserves_get_bind. intros s H.
  destruct (pendingStates s) as [| st rest] eqn:E; [exact H |].
  apply (preserves_bind framed); [| | exact H].
  - apply preserves_modify, onQueue_shift. apply framed_tl.
  - intros _. apply preserves_bind; [| intros _; exact IH].
    apply preserves_modify. intros s0. apply framed_callRuntime.
Qed.

Lemma preserves_replayPendingStates : Preserves framed replayPendingStates.
Proof.
  apply preserves_get_bind. intros s H.
  apply (preserves_bind framed); [apply preserves_assert | | exact H]. intros _.
  apply preserves_bind; [apply preserves_assert |]. intros _.
  apply preserves_bind; [apply preserves_modify; intros s0 H0; exact H0 |]. intros _.
  destruct H as (Hi & Hq). rewrite Hi. simpl rebaseRemaining.
  apply preserves_bind; [apply preserves_ret |]. intros _.
  apply preserves_get_bind. intros s1 H1.
  destruct (List.length (pendingStates s1)); [exact H1 |].
  apply (preserves_bind framed); [| | exact H1].
  - apply preserves_modify. intros s0 H0. exact H0.
  - intros _. apply preserves_bind; [apply preserves_replayLoop |].
    intros _. apply preserves_modify. intros s0. apply framed_callRuntime.
Qed.

Lemma preserves_step (c : Call) : Preserves framed (step c).
Proof.
  destruct c as [m | f | | message local | | connected cid mode]; simpl.
  - apply preserves_modify. intros s H.
    exact (framed_reenter s (ReOnSubmitMessage m) H).
  - apply preserves_modify. intros s. apply framed_onFlushModeUpdated.
  - apply preserves_modify. intros s. apply framed_onFlush.
  - apply preserves_bind; [| intros r; apply preserves_ret].
    apply preserves_processMessage. apply framed_tl.
  - apply preserves_replayPendingStates.
  - apply preserves_modify. intros s H. exact H.
Qed.

Lemma framed_run (cs : list Call) (s : PendingStateManager) :
  framed s -> framed (run cs s).
Proof.
  revert s. induction cs as [| c cs IH]; intros s H; [exact H |].
  simpl. apply IH, preserves_step, H.
Qed.

Lemma forallb_removelast (f : IPendingState -> bool) (q : list IPendingState) :
  forallb f q = true -> forallb f (removelast q) = true.
Proof.
  induction q as [| a q IH]; intros H; [reflexivity |].
  destruct q as [| b q]; [reflexivity |].
  change (removelast (a :: b :: q)) with (a :: removelast (b :: q)).
  change (forallb f (a :: b :: q)) with (f a && forallb f (b :: q)) in H.
  apply andb_true_iff in H. destruct H as (H1 & H2).
  change (f a && forallb f (removelast (b :: q)) = true).
  now rewrite H1, IH.
Qed.

Lemma forallb_peekBack (f : IPendingState -> bool) (q : list IPendingState)
    (st : IPendingState) :
  forallb f q = true -> peekBack q = Some st -> f st = true.
Proof.
  induction q as [| a q IH]; intros H Hp; [discriminate |].
  change (forallb f (a :: q)) with (f a && forallb f q) in H.
  apply andb_true_iff in H. destruct H as (H1 & H2).
  destruct q as [| b q].
  - injection Hp as <-. exact H1.
  - rewrite peekBack_cons in Hp. now apply IH.
Qed.

Lemma onlyFlushModes_step (c : Call) :
  enqueuesMessage c = false -> Preserves onlyFlushModes (step c).
Proof.
  intros Hc.
  destruct c as [m | f | | message local | | connected cid mode];
    try discriminate; simpl.
  - apply preserves_modify. intros s (Hi & Hq). unfold onFlushModeUpdated.
    assert (Hpush : forall s0 mode, onlyFlushModes s0 ->
                      onlyFlushModes (push (PFlushMode mode) s0)).
    { intros s0 mode (Hi0 & Hq0). split; [exact Hi0 |]. simpl.
      rewrite forallb_app, Hq0. reflexivity. }
    assert (Hrem : forall s0, onlyFlushModes s0 -> onlyFlushModes (removeBack s0)).
    { intros s0 (Hi0 & Hq0). split; [exact Hi0 |]. simpl.
      now apply forallb_removelast. }
    destruct f; [| apply Hpush; now split].
    destruct (peekBack (pendingStates s)) as [[p | [] | ] |].
    + apply Hpush; now split.
    + apply Hpush; now split.
    + apply Hrem; now split.
    + apply Hpush, Hrem; now split.
    + apply Hpush; now split.
  - apply preserves_modify. intros s (Hi & Hq). unfold onFlush.
    destruct (rt_flushMode (containerRuntime s)); [now split |].
    destruct (peekBack (pendingStates s)) as [[p | f | ] |] eqn:E; try now split.
    pose proof (forallb_peekBack isFlushMode _ _ Hq E) as X. discriminate X.
  - apply preserves_bind; [| intros r; apply preserves_ret].
    apply preserves_processMessage.
    intros a q H. change (forallb isFlushMode (a :: q))
      with (isFlushMode a && forallb isFlushMode q) in H.
    apply andb_true_iff in H. apply H.
  - apply preserves_modify. intros s H. exact H.
Qed.

Lemma onlyFlushModes_run (cs : list Call) (s : PendingStateManager) :
  forallb (fun c => negb (enqueuesMessage c)) cs = true ->
  onlyFlushModes s -> onlyFlushModes (run cs s).
Proof.
  revert s. induction cs as [| c cs IH]; intros s Hcs H; [exact H |].
  simpl in Hcs. apply andb_true_iff in Hcs. destruct Hcs as (Hc & Hcs).
  simpl. apply IH; [exact Hcs |].
  apply onlyFlushModes_step; [now apply negb_true_iff | exact H].
Qed.

Lemma onlyFlushModes_no_flush (q : list IPendingState) :
  forallb isFlushMode q = true -> existsb isFlush q = false.
Proof.
  induction q as [| a q IH]; intros H; [reflexivity |].
  simpl in H. apply andb_true_iff in H. destruct H as (H1 & H2).
  simpl. rewrite (IH H2). destruct a; try discriminate. reflexivity.
Qed.

(** C9 (amended): take any sequence of calls on a manager built without
    initial state.  As long as no message has been enqueued the pending
    queue holds no flush at all; in every state reached, every flush
    behind the head of the pending queue comes right after a message (a
    flush may be the head itself, once the message before it has been
    acked).  onFlush does nothing when the runtime's flush mode is
    Automatic or the tail of the queue is not a message; when it does push
    a flush, the tail was a message, and a message submitted next comes
    right after the flush. *)
Theorem flush_markers_follow_messages (rt : ContainerRuntime) (cs : list Call) :
  (forallb (fun c => negb (enqueuesMessage c)) cs = true ->
   existsb isFlush (pendingStates (run cs (new rt None))) = false)
  /\ flushesFollowMessages (pendingStates (run cs (new rt None))) = true
  /\ (forall s, rt_flushMode (containerRuntime s) = Automatic -> onFlush s = s)
  /\ (forall s, (forall p, peekBack (pendingStates s) <> Some (PMessage p)) ->
                onFlush s = s)
  /\ (forall s m, onFlush s <> s ->
        exists q p,
          pendingStates s = q ++ [PMessage p]
          /\ pendingStates (onSubmit m (onFlush s))
             = q ++ [PMessage p; PFlush; PMessage m]).
Proof.
  assert (Hnew : forall G : list IPendingState -> Prop, G [] -> onQueue G (new rt None)).
  { intros G HG. split; [reflexivity | exact HG]. }
  split; [| split; [| split; [| split]]].
  - intros Hcs. apply onlyFlushModes_no_flush.
    apply (onlyFlushModes_run cs (new rt None) Hcs). now apply Hnew.
  - apply (framed_run cs (new rt None)). now apply Hnew.
  - intros s Hmode. unfold onFlush. now rewrite Hmode.
  - intros s Htail. unfold onFlush.
    destruct (rt_flushMode (containerRuntime s)); [reflexivity |].
    destruct (peekBack (pendingStates s)) as [[p | f | ] |] eqn:E; try reflexivity.
    now destruct (Htail p).
  - intros s m Hpush. unfold onFlush in *.
    destruct (rt_flushMode (containerRuntime s)); [now destruct Hpush |].
    destruct (peekBack (pendingStates s)) as [[p | f | ] |] eqn:E;
      try now destruct Hpush.
    destruct (pendingStates s) as [| a q] eqn:Eq; [discriminate E |].
    destruct (exists_last (l := a :: q)) as (q' & x & Hq'); [discriminate |].
    rewrite Hq' in E. rewrite peekBack_push in E. injection E as ->.
    exists q', p. split; [exact Hq' |].
    destruct m. simpl. rewrite Eq, Hq', <- !app_assoc. reflexivity.
Qed.

(** ** The count of pending messages *)

Lemma messageCount_push_message (q : list IPendingState) (p : IPendingMessage) :
  messageCount (q ++ [PMessage p]) = messageCount q + 1.
Proof.
  unfold messageCount. rewrite filter_app, length_app. simpl. lia.
Qed.

(** C2 (what the code does): a remote ack that rebases the message at the
    head of the initial queue moves it onto the pending queue and leaves
    pendingMessagesCount as it was.  The pending queue then holds one
    message more than the count says; if the two agreed before the call,
    they differ after it. *)
Theorem remote_ack_promotes_without_counting (s : PendingStateManager)
    (message : ISequencedDocumentMessage) (p : IPendingMessage) :
  isChunkedOp (msg_type message) = false ->
  initialStates s = [PMessage p] ->
  referenceSequenceNumber p = msg_sequenceNumber message ->
  option_string_eqb (Some (msg_clientId message)) (initialClientId s) = false ->
  exists s',
    processMessage message false s
    = Ok s' {| localAck := false; res_localOpMetadata := None |}
    /\ pendingStates s' = pendingStates s ++ [PMessage p]
    /\ pendingMessagesCount s' = pendingMessagesCount s
    /\ messageCount (pendingStates s') = messageCount (pendingStates s) + 1
    /\ (pendingMessagesCount s = messageCount (pendingStates s) ->
        pendingMessagesCount s' <> messageCount (pendingStates s')).
Proof.
  intros Hc Hinit Hrsn Hcid.
  eexists. split.
  - unfold processMessage. rewrite Hc.
    unfold processRemoteMessage, bind, get. rewrite Hinit.
    simpl rebaseInitialUpTo.
    replace (referenceSequenceNumber p >? msg_sequenceNumber message) with false
      by (symmetry; rewrite Z.gtb_ltb; apply Z.ltb_ge; lia).
    unfold bind, get.
    replace (msg_sequenceNumber message >? referenceSequenceNumber p) with false
      by (symmetry; rewrite Z.gtb_ltb; apply Z.ltb_ge; lia).
    rewrite andb_false_r. unfold modify, ret.
    match goal with
    | |- context [initialClientId ?s1] =>
        change (initialClientId s1) with (initialClientId s)
    end.
    rewrite Hcid. reflexivity.
  - simpl. rewrite messageCount_push_message.
    repeat split; try reflexivity. lia.
Qed.

(** * Further properties *)

(** ** Properties kept by every method *)

Section MethodInvariant.

(** A property of the manager that the elementary updates keep, and that
    the two loops over the initial queue keep. *)
Variable P : PendingStateManager -> Prop.
Hypothesis P_pending : forall q s, P s -> P (set_pendingStates q s).
Hypothesis P_count : forall n s, P s -> P (set_pendingMessagesCount n s).
Hypothesis P_begin : forall m s, P s -> P (set_batch true (Some m) s).
Hypothesis P_end : forall s, P s -> P (set_batch false None s).
Hypothesis P_call :
  forall c s, P s -> P (set_containerRuntime (logCall c (containerRuntime s)) s).
Hypothesis P_clientId : forall c s, P s -> P (set_clientId c s).
Hypothesis P_rebaseInitialUpTo :
  forall m s, P s -> P (stateOf (rebaseInitialUpTo m (initialStates s) s)).
Hypothesis P_rebaseRemaining :
  forall s, P s -> P (stateOf (rebaseRemaining (initialStates s) s)).

Lemma kept_peekNextPendingState : Preserves P peekNextPendingState.
Proof.
  apply preserves_get_bind. intros s H.
  destruct (peekFront (pendingStates s)); exact H.
Qed.

Lemma kept_shift : forall s, P s -> P (shift s).
Proof. intros s H. apply P_pending, H. Qed.

Lemma kept_maybeProcessBatchBegin (message : ISequencedDocumentMessage) :
  Preserves P (maybeProcessBatchBegin message).
Proof.
  apply preserves_bind; [apply kept_peekNextPendingState |].
  intros st.
  assert (Hrest : forall c : Method unit,
            Preserves P c ->
            Preserves P
              (c ;; s <- get ;;
               assert (negb (isProcessingBatch s) && isNone (pendingBatchBeginMessage s))
                 "The pending batch state indicates we are already processing a batch" ;;
               modify (set_batch true (Some message)) ;;
               modify shift)).
  { intros c Hc. apply preserves_bind; [exact Hc |]. intros _.
    apply preserves_get_bind. intros s H.
    apply (preserves_bind P); [apply preserves_assert | | exact H].
    intros _. apply preserves_bind.
    - apply preserves_modify, P_begin.
    - intros _. apply preserves_modify, kept_shift. }
  destruct st as [p | f | ].
  - apply preserves_ret.
  - apply Hrest, preserves_assert.
  - apply Hrest, preserves_ret.
Qed.

Lemma kept_maybeProcessBatchEnd (message : ISequencedDocumentMessage) :
  Preserves P (maybeProcessBatchEnd message).
Proof.
  apply preserves_bind; [apply kept_peekNextPendingState |].
  intros st.
  assert (Hrest : forall c : Method unit,
            Preserves P c ->
            Preserves P
              (c ;; s <- get ;;
               match pendingBatchBeginMessage s with
               | None => throw (AssertionError "There is no pending batch begin message")
               | Some beginMessage =>
                   let batchBeginMetadata := msg_batch beginMessage in
                   (if sameMessage beginMessage message
                    then assert (isNone batchBeginMetadata)
                           "Batch with single message should not have batch metadata"
                    else
                      let batchEndMetadata := msg_batch message in
                      assert (batch_is batchBeginMetadata true)
                        "Did not receive batch begin metadata" ;;
                      assert (batch_is batchEndMetadata false)
                        "Did not receive batch end metadata") ;;
                   modify (set_batch false None)
               end)).
  { intros c Hc. apply preserves_bind; [exact Hc |]. intros _.
    apply preserves_get_bind. intros s H.
    destruct (pendingBatchBeginMessage s) as [b |]; [| exact H].
    apply (preserves_bind P); [| | exact H].
    - destruct (sameMessage b message); [apply preserves_assert |].
      apply preserves_bind; [apply preserves_assert |].
      intros _. apply preserves_assert.
    - intros _. apply preserves_modify, P_end. }
  destruct st as [p | f | ].
  - apply preserves_ret.
  - apply Hrest. apply preserves_bind; [apply preserves_assert |].
    intros _. apply preserves_modify, kept_shift.
  - apply Hrest, preserves_ret.
Qed.

Lemma kept_processPendingLocalMessage (message : ISequencedDocumentMessage) :
  Preserves P (processPendingLocalMessage message).
Proof.
  apply preserves_bind; [apply kept_maybeProcessBatchBegin |]. intros _.
  apply preserves_bind; [apply kept_peekNextPendingState |].
  intros [p | f | ]; try apply preserves_throw.
  apply preserves_bind; [apply preserves_modify, kept_shift |]. intros _.
  destruct (negb (clientSequenceNumber p =? msg_clientSequenceNumber message)).
  - apply preserves_bind; [| intros _; apply preserves_ret].
    apply preserves_modify. intros s H. apply P_call, H.
  - apply preserves_bind; [apply preserves_modify; intros s H; apply P_count, H |].
    intros _. apply preserves_get_bind. intros s H.
    apply (preserves_bind P); [| intros _; apply preserves_ret | exact H].
    destruct (isProcessingBatch s);
      [apply kept_maybeProcessBatchEnd | apply preserves_ret].
Qed.

Lemma kept_shiftUntilMessage (q : list IPendingState) :
  Preserves P (shiftUntilMessage q).
Proof.
  induction q as [| st rest IH]; [apply preserves_ret |].
  simpl. apply preserves_bind; [apply preserves_modify, P_pending |].
  intros _. destruct st; [apply preserves_ret | exact IH | exact IH].
Qed.

Lemma kept_processRemoteMessage (message : ISequencedDocumentMessage) :
  Preserves P (processRemoteMessage message).
Proof.
  apply preserves_get_bind. intros s H.
  unfold bind at 1.
  pose proof (P_rebaseInitialUpTo message s H) as H1.
  destruct (rebaseInitialUpTo message (initialStates s) s) as [s1 [] | e s1];
    simpl in H1; [| exact H1].
  revert s1 H1. apply preserves_get_bind. intros s1 H1.
  destruct (option_string_eqb (Some (msg_clientId message)) (initialClientId s1)
            && (msg_clientSequenceNumber message >=? initialClientSeqNum s1)).
  - now apply kept_shiftUntilMessage.
  - exact H1.
Qed.

Lemma kept_processMessage (message : ISequencedDocumentMessage) (local : bool) :
  Preserves P (processMessage message local).
Proof.
  unfold processMessage.
  destruct (isChunkedOp (msg_type message)); [apply preserves_ret |].
  destruct local.
  - apply preserves_bind; [apply kept_processPendingLocalMessage |].
    intros r. apply preserves_ret.
  - apply kept_processRemoteMessage.
Qed.

Lemma kept_push (st : IPendingState) (s : PendingStateManager) : P s -> P (push st s).
Proof. intros H. apply P_pending, H. Qed.

Lemma kept_reenter (s : PendingStateManager) (r : Reentry) : P s -> P (reenter s r).
Proof.
  intros H. destruct r as [m | f | ]; simpl.
  - unfold onSubmit, onSubmitMessage. apply P_count, kept_push, H.
  - unfold onFlushModeUpdated, removeBack.
    destruct f; [| apply kept_push, H].
    destruct (peekBack (pendingStates s)) as [[p | [] | ] |];
      repeat first [apply kept_push | apply P_pending]; exact H.
  - unfold onFlush.
    destruct (rt_flushMode (containerRuntime s)); [exact H |].
    destruct (peekBack (pendingStates s)) as [[p | f | ] |]; try exact H.
    apply kept_push, H.
Qed.

Lemma kept_callRuntime (c : RuntimeCall) (s : PendingStateManager) :
  P s -> P (callRuntime c s).
Proof.
  intros H. unfold callRuntime.
  assert (Hfold : forall rs s0, P s0 -> P (fold_left reenter rs s0)).
  { induction rs as [| r rs IH]; intros s0 H0; [exact H0 |].
    simpl. apply IH, kept_reenter, H0. }
  apply Hfold, P_call, H.
Qed.

Lemma kept_replayLoop (n : nat) : Preserves P (replayLoop n).
Proof.
  induction n as [| n IH]; [apply preserves_ret |].
  simpl. apply preserves_get_bind. intros s H.
  destruct (pendingStates s) as [| st rest] eqn:E; [exact H |].
  apply (preserves_bind P); [| | exact H].
  - apply preserves_modify, kept_shift.
  - intros _. apply preserves_bind; [| intros _; exact IH].
    apply preserves_modify. intros s0. apply kept_callRuntime.
Qed.

Lemma kept_replayPendingStates : Preserves P replayPendingStates.
Proof.
  apply preserves_get_bind. intros s H.
  unfold bind at 1, assert at 1.
  destruct (rt_connected (containerRuntime s)); [| exact H].
  unfold ret at 1. unfold bind at 1, assert at 1.
  destruct (negb (option_string_eqb (clientId s) (rt_clientId (containerRuntime s))));
    [| exact H].
  unfold ret at 1. unfold bind at 1, modify at 1. unfold bind at 1.
  pose proof (P_rebaseRemaining (set_clientId (rt_clientId (containerRuntime s)) s)
                (P_clientId _ _ H)) as H1.
  change (initialStates (set_clientId (rt_clientId (containerRuntime s)) s))
    with (initialStates s) in H1.
  destruct (rebaseRemaining (initialStates s)
              (set_clientId (rt_clientId (containerRuntime s)) s)) as [s1 [] | e s1];
    simpl in H1; [| exact H1].
  revert s1 H1. apply preserves_get_bind. intros s1 H1.
  destruct (List.length (pendingStates s1)); [exact H1 |].
  apply (preserves_bind P); [| | exact H1].
  - apply preserves_modify. intros s0 H0. apply P_count, H0.
  - intros _. apply preserves_bind; [apply kept_replayLoop |].
    intros _. apply preserves_modify. intros s0. apply kept_callRuntime.
Qed.

(** When the runtime's own changes keep the property too, it holds along
    every sequence of calls. *)
Hypothesis P_changed :
  forall connected cid mode s, P s -> P (runtimeChanged connected cid mode s).

Lemma kept_step (c : Call) : Preserves P (step c).
Proof.
  destruct c as [m | f | | message local | | connected cid mode]; simpl.
  - apply preserves_modify. intros s H.
    exact (kept_reenter s (ReOnSubmitMessage m) H).
  - apply preserves_modify. intros s H.
    exact (kept_reenter s (ReOnFlushModeUpdated f) H).
  - apply preserves_modify. intros s H. exact (kept_reenter s ReOnFlush H).
  - apply preserves_bind; [| intros r; apply preserves_ret].
    apply kept_processMessage.
  - apply kept_replayPendingStates.
  - apply preserves_modify, P_changed.
Qed.

Lemma kept_run (cs : list Call) (s : PendingStateManager) : P s -> P (run cs s).
Proof.
  revert s. induction cs as [| c cs IH]; intros s H; [exact H |].
  simpl. apply IH, kept_step, H.
Qed.

End MethodInvariant.

(** The two loops over the initial queue keep what their three updates
    keep. *)
Section InitialLoops.

Variable P : PendingStateManager -> Prop.
Hypothesis P_pending : forall q s, P s -> P (set_pendingStates q s).
Hypothesis P_initial : forall q s, P s -> P (set_initialStates q s).
Hypothesis P_rebase : forall c l s, P s -> P (rebaseOp c l s).

Lemma kept_rebaseInitialUpTo (message : ISequencedDocumentMessage)
    (init : list IPendingState) :
  Preserves P (rebaseInitialUpTo message init).
Proof.
  induction init as [| st rest IH]; [apply preserves_ret |].
  assert (Hmove : Preserves P
                    (modify (set_initialStates rest) ;; modify (push st) ;;
                     rebaseInitialUpTo message rest)).
  { apply preserves_bind; [apply preserves_modify, P_initial |]. intros _.
    apply preserves_bind; [| intros _; exact IH].
    apply preserves_modify. intros s H. apply P_pending, H. }
  destruct st as [p | f | ]; simpl; try exact Hmove.
  destruct (referenceSequenceNumber p >? msg_sequenceNumber message);
    [apply preserves_ret |].
  apply preserves_get_bind. intros s H.
  destruct ((clientSequenceNumber p =? initialClientSeqNum s)
            && (msg_sequenceNumber message >? referenceSequenceNumber p));
    [exact H |].
  apply (preserves_bind P); [apply preserves_modify, P_rebase | | exact H].
  intros _. exact Hmove.
Qed.

Lemma kept_rebaseRemaining (init : list IPendingState) :
  Preserves P (rebaseRemaining init).
Proof.
  induction init as [| st rest IH]; [apply preserves_ret |].
  simpl. apply preserves_bind; [apply preserves_modify, P_initial |]. intros _.
  apply preserves_bind.
  - destruct st; [apply preserves_modify, P_rebase | apply preserves_ret
                  | apply preserves_ret].
  - intros _. apply preserves_bind; [| intros _; exact IH].
    apply preserves_modify. intros s H. apply P_pending, H.
Qed.

End InitialLoops.

(** ** The batch tracker *)

Lemma trackerConsistent_run (cs : list Call) (s : PendingStateManager) :
  trackerConsistent s -> trackerConsistent (run cs s).
Proof.
  apply kept_run; try (intros; assumption).
  - intros m s0 _. reflexivity.
  - intros s0 _. reflexivity.
  - intros m s0. apply kept_rebaseInitialUpTo; intros; assumption.
  - intros s0. apply kept_rebaseRemaining; intros; assumption.
Qed.

Lemma maybeProcessBatchBegin_assertions (message : ISequencedDocumentMessage)
    (s : PendingStateManager) :
  failedAssertion noBatchBegin (maybeProcessBatchBegin message s) = false.
Proof.
  unfold_local.
  destruct (pendingStates s) as [| st rest]; simpl; [reflexivity |].
  destruct st as [p | [] | ]; simpl; try reflexivity;
    destruct (negb (isProcessingBatch s) && isNone (pendingBatchBeginMessage s));
    reflexivity.
Qed.

Lemma maybeProcessBatchEnd_assertions (message b : ISequencedDocumentMessage)
    (s : PendingStateManager) :
  pendingBatchBeginMessage s = Some b ->
  failedAssertion noBatchBegin (maybeProcessBatchEnd message s) = false.
Proof.
  intros Hb. unfold_local.
  destruct (pendingStates s) as [| st rest]; simpl; [reflexivity |].
  destruct st as [p | [] | ]; simpl; try reflexivity; rewrite Hb;
    destruct (sameMessage b message);
    try destruct (isNone (msg_batch b)); simpl; try reflexivity;
    destruct (batch_is (msg_batch b) true); simpl; try reflexivity;
    destruct (batch_is (msg_batch message) false); reflexivity.
Qed.

Lemma rebaseInitialUpTo_assertions (message : ISequencedDocumentMessage)
    (msg : string) (init : list IPendingState) (s : PendingStateManager) :
  failedAssertion msg (rebaseInitialUpTo message init s) = false.
Proof.
  revert s. induction init as [| st rest IH]; intros s; [reflexivity |].
  destruct st as [p | f | ]; simpl; unfold bind, modify, get; try apply IH.
  destruct (referenceSequenceNumber p >? msg_sequenceNumber message);
    [reflexivity |].
  destruct ((clientSequenceNumber p =? initialClientSeqNum s)
            && (msg_sequenceNumber message >? referenceSequenceNumber p));
    [reflexivity | apply IH].
Qed.

Lemma shiftUntilMessage_returns (q : list IPendingState) (s : PendingStateManager) :
  returned (shiftUntilMessage q s) = true.
Proof.
  revert s. induction q as [| st rest IH]; intros s; [reflexivity |].
  simpl. unfold bind, modify. destruct st; [reflexivity | apply IH | apply IH].
Qed.

Lemma processRemoteMessage_assertions (message : ISequencedDocumentMessage)
    (msg : string) (s : PendingStateManager) :
  failedAssertion msg (processRemoteMessage message s) = false.
Proof.
  unfold processRemoteMessage. unfold bind at 1, get at 1. unfold bind at 1.
  pose proof (rebaseInitialUpTo_assertions message msg (initialStates s) s) as H.
  destruct (rebaseInitialUpTo message (initialStates s) s) as [s1 [] | e s1];
    [| exact H].
  unfold bind, get.
  destruct (option_string_eqb (Some (msg_clientId message)) (initialClientId s1)
            && (msg_clientSequenceNumber message >=? initialClientSeqNum s1));
    [| reflexivity].
  pose proof (shiftUntilMessage_returns (pendingStates s1) s1) as Hr.
  destruct (shiftUntilMessage (pendingStates s1) s1); [reflexivity | discriminate].
Qed.

(** X1: The tracker is consistent in every state the manager reaches, with or
    without initial state, and the assertion "There is no pending batch
    begin message" of maybeProcessBatchEnd never fails there. *)
Theorem batch_tracker_is_consistent (rt : ContainerRuntime)
    (initialState : option IPendingLocalState) (cs : list Call)
    (message : ISequencedDocumentMessage) (local : bool) :
  trackerConsistent (run cs (new rt initialState))
  /\ failedAssertion noBatchBegin
       (processMessage message local (run cs (new rt initialState))) = false.
Proof.
  assert (Ht : trackerConsistent (run cs (new rt initialState))).
  { apply trackerConsistent_run. reflexivity. }
  split; [exact Ht |].
  set (s := run cs (new rt initialState)) in *.
  unfold processMessage.
  destruct (isChunkedOp (msg_type message)); [reflexivity |].
  destruct local; [| apply processRemoteMessage_assertions].
  unfold bind at 1. rewrite (local_ack_steps message s).
  pose proof (maybeProcessBatchBegin_assertions message s) as Hb.
  assert (Ht1 : trackerConsistent (stateOf (maybeProcessBatchBegin message s))).
  { revert Ht. apply kept_maybeProcessBatchBegin; try (intros; assumption).
    intros m s0 _. reflexivity. }
  destruct (maybeProcessBatchBegin message s) as [s1 [] | e s1]; [| exact Hb].
  simpl in Ht1.
  destruct (pendingStates s1) as [| [p | f | ] rest] eqn:E; try reflexivity.
  rewrite (local_ack_at_message message s1 p rest E).
  destruct (negb (clientSequenceNumber p =? msg_clientSequenceNumber message));
    [reflexivity |].
  cbv zeta.
  destruct (isProcessingBatch s1) eqn:Hbatch; [| reflexivity].
  unfold trackerConsistent in Ht1. rewrite Hbatch in Ht1.
  destruct (pendingBatchBeginMessage s1) as [b |] eqn:Hbegin; [| discriminate].
  pose proof (maybeProcessBatchEnd_assertions message b
                (set_pendingMessagesCount (pendingMessagesCount s1 - 1) (shift s1))
                Hbegin) as He.
  destruct (maybeProcessBatchEnd message _) as [s2 [] | e s2];
    [reflexivity | exact He].
Qed.

(** ** Rebasing the initial queue *)

Lemma rebaseCallsOf_app (q r : list IPendingState) :
  rebaseCallsOf (q ++ r) = rebaseCallsOf q ++ rebaseCallsOf r.
Proof.
  induction q as [| [m | f | ] q IH]; simpl; [reflexivity | | |];
    now rewrite IH.
Qed.

Lemma rebaseInitialUpTo_owed (message : ISequencedDocumentMessage)
    (init : list IPendingState) (s : PendingStateManager) :
  initialStates s = init ->
  rebasedThenOwed (stateOf (rebaseInitialUpTo message init s)) = rebasedThenOwed s
  /\ pendingStates (stateOf (rebaseInitialUpTo message init s))
     ++ initialStates (stateOf (rebaseInitialUpTo message init s))
     = pendingStates s ++ init.
Proof.
  revert s. induction init as [| st rest IH]; intros s Hinit.
  - simpl. rewrite Hinit. split; reflexivity.
  - assert (Hmove : forall s1,
              initialStates s1 = st :: rest ->
              pendingStates s1 = pendingStates s ->
              rebasedThenOwed s1
              = rebaseOpCalls s1 ++ rebaseCallsOf (st :: rest) ->
              rebaseOpCalls s1 ++ rebaseCallsOf rest = rebasedThenOwed s ->
              let s2 := stateOf (rebaseInitialUpTo message rest
                                   (push st (set_initialStates rest s1))) in
              rebasedThenOwed s2 = rebasedThenOwed s
              /\ pendingStates s2 ++ initialStates s2
                 = pendingStates s ++ st :: rest).
    { intros s1 Hi1 Hq1 _ Howed.
      destruct (IH (push st (set_initialStates rest s1)) eq_refl) as (H1 & H2).
      cbv zeta. rewrite H1, H2. split.
      - unfold rebasedThenOwed at 1. simpl. exact Howed.
      - simpl. rewrite Hq1, <- app_assoc. reflexivity. }
    destruct st as [p | f | ]; simpl; unfold bind, modify, get.
    + destruct (referenceSequenceNumber p >? msg_sequenceNumber message).
      { simpl. rewrite Hinit. split; reflexivity. }
      destruct ((clientSequenceNumber p =? initialClientSeqNum s)
                && (msg_sequenceNumber message >? referenceSequenceNumber p)).
      { simpl. rewrite Hinit. split; reflexivity. }
      apply (Hmove (rebaseOp (content p) (localOpMetadata p) s)).
      * exact Hinit.
      * reflexivity.
      * unfold rebasedThenOwed. simpl. now rewrite Hinit.
      * unfold rebasedThenOwed. simpl. rewrite Hinit. simpl.
        now rewrite <- app_assoc.
    + apply (Hmove s); try reflexivity; try exact Hinit.
      * unfold rebasedThenOwed. now rewrite Hinit.
      * unfold rebasedThenOwed. now rewrite Hinit.
    + apply (Hmove s); try reflexivity; try exact Hinit.
      * unfold rebasedThenOwed. now rewrite Hinit.
      * unfold rebasedThenOwed. now rewrite Hinit.
Qed.

Lemma rebaseRemaining_owed (init : list IPendingState) (s : PendingStateManager) :
  initialStates s = init ->
  rebasedThenOwed (stateOf (rebaseRemaining init s)) = rebasedThenOwed s.
Proof.
  intros Hinit.
  destruct (rebaseRemaining_outcome init s Hinit)
    as (s' & Hrun & _ & Hi & _ & _ & _ & Hb).
  rewrite Hrun. unfold rebasedThenOwed. simpl.
  rewrite Hb, Hi, Hinit. simpl. now rewrite app_nil_r.
Qed.

(** X2: as long as the injected rebaseOp returns (the model has no
    rebaseOp that throws): whatever is called on the manager, in whatever
    order, and whether the manager's calls return or fail an assertion or
    the too-recent error, the rebaseOp calls made so far, followed by the
    messages still in the initial queue, are the same list.  No message of
    the initial state is rebased twice, skipped or rebased out of order,
    whether a remote message or a replay rebases it. *)
Theorem initial_messages_are_rebased_once (cs : list Call) (s : PendingStateManager) :
  rebaseOpCalls (run cs s) ++ rebaseCallsOf (initialStates (run cs s))
  = rebaseOpCalls s ++ rebaseCallsOf (initialStates s).
Proof.
  change (rebasedThenOwed (run cs s) = rebasedThenOwed s).
  apply (kept_run (fun s0 => rebasedThenOwed s0 = rebasedThenOwed s));
    try (intros; assumption); try reflexivity.
  - intros m s0 H. rewrite <- H. now apply rebaseInitialUpTo_owed.
  - intros s0 H. rewrite <- H. now apply rebaseRemaining_owed.
Qed.

(** ** Remote messages *)

Lemma rebaseInitialUpTo_frame (message : ISequencedDocumentMessage)
    (init : list IPendingState) (s : PendingStateManager) :
  initialClientId (stateOf (rebaseInitialUpTo message init s)) = initialClientId s
  /\ initialClientSeqNum (stateOf (rebaseInitialUpTo message init s))
     = initialClientSeqNum s
  /\ pendingMessagesCount (stateOf (rebaseInitialUpTo message init s))
     = pendingMessagesCount s
  /\ containerRuntime (stateOf (rebaseInitialUpTo message init s))
     = containerRuntime s.
Proof.
  apply (kept_rebaseInitialUpTo
           (fun s0 => initialClientId s0 = initialClientId s
                      /\ initialClientSeqNum s0 = initialClientSeqNum s
                      /\ pendingMessagesCount s0 = pendingMessagesCount s
                      /\ containerRuntime s0 = containerRuntime s));
    try (intros; assumption).
  repeat split.
Qed.

(** processMessage on a remote message: the first loop, then the test,
    then the second loop. *)
Lemma processMessage_remote (message : ISequencedDocumentMessage)
    (s : PendingStateManager) :
  isChunkedOp (msg_type message) = false ->
  processMessage message false s
  = match rebaseInitialUpTo message (initialStates s) s with
    | Ok s1 _ =>
        if claimsAck message s1
        then shiftUntilMessage (pendingStates s1) s1
        else Ok s1 {| localAck := false; res_localOpMetadata := None |}
    | Throw e s1 => Throw e s1
    end.
Proof.
  intros Hc. unfold processMessage. rewrite Hc.
  unfold processRemoteMessage, bind, get, claimsAck.
  destruct (rebaseInitialUpTo message (initialStates s) s) as [s1 [] | e s1];
    [| reflexivity].
  now destruct (option_string_eqb (Some (msg_clientId message)) (initialClientId s1)
                && (msg_clientSequenceNumber message >=? initialClientSeqNum s1)).
Qed.

Lemma contentsOf_app (q r : list IPendingState) :
  contentsOf (q ++ r) = contentsOf q ++ contentsOf r.
Proof.
  induction q as [| [m | f | ] q IH]; simpl; [reflexivity | | |];
    now rewrite IH.
Qed.

(** X3: A remote message that is not claimed as an ack moves entries from the
    head of the initial queue to the tail of the pending queue and does
    nothing else to the two queues, whether it returns or throws: the
    pending queue followed by the initial queue is the same sequence, so
    getPendingMessages lists the same contents in the same order, and the
    count of pending messages is unchanged. *)
Theorem unclaimed_remote_message_keeps_order (s : PendingStateManager)
    (message : ISequencedDocumentMessage) :
  isChunkedOp (msg_type message) = false ->
  claimsAck message s = false ->
  pendingStates (stateOf (processMessage message false s))
  ++ initialStates (stateOf (processMessage message false s))
  = pendingStates s ++ initialStates s
  /\ getPendingMessages (stateOf (processMessage message false s))
     = getPendingMessages s
  /\ pendingMessagesCount (stateOf (processMessage message false s))
     = pendingMessagesCount s.
Proof.
  intros Hc Hclaim.
  assert (H : pendingStates (stateOf (processMessage message false s))
              ++ initialStates (stateOf (processMessage message false s))
              = pendingStates s ++ initialStates s
              /\ pendingMessagesCount (stateOf (processMessage message false s))
                 = pendingMessagesCount s).
  { rewrite (processMessage_remote message s Hc).
    destruct (rebaseInitialUpTo_owed message (initialStates s) s eq_refl)
      as (_ & Horder).
    destruct (rebaseInitialUpTo_frame message (initialStates s) s)
      as (Hcid & Hseq & Hn & _).
    destruct (rebaseInitialUpTo message (initialStates s) s) as [s1 [] | e s1];
      unfold stateOf in Horder, Hcid, Hseq, Hn; [| now split].
    unfold claimsAck in *. rewrite Hcid, Hseq, Hclaim. now split. }
  destruct H as (Horder & Hn).
  split; [exact Horder |]. split; [| exact Hn].
  unfold getPendingMessages. now rewrite Horder.
Qed.

Lemma rebaseInitialUpTo_stops (message : ISequencedDocumentMessage)
    (init : list IPendingState) (s : PendingStateManager) :
  rebaseStops message init = true ->
  rebaseInitialUpTo message init s = Ok s tt.
Proof.
  intros H. destruct init as [| [p | f | ] rest]; try discriminate; simpl.
  - reflexivity.
  - simpl in H. now rewrite H.
Qed.

Lemma shiftUntilMessage_claims (markers rest : list IPendingState)
    (p : IPendingMessage) (s : PendingStateManager) :
  existsb isMessage markers = false ->
  exists s',
    shiftUntilMessage (markers ++ PMessage p :: rest) s
    = Ok s' {| localAck := true; res_localOpMetadata := Some (localOpMetadata p) |}
    /\ pendingStates s' = rest
    /\ initialStates s' = initialStates s
    /\ pendingMessagesCount s' = pendingMessagesCount s
    /\ rebaseOpCalls s' = rebaseOpCalls s
    /\ containerRuntime s' = containerRuntime s.
Proof.
  revert s. induction markers as [| st markers IH]; intros s Hm.
  - simpl. unfold bind, modify, ret. eexists. split; [reflexivity |].
    repeat split.
  - simpl in Hm. apply orb_false_iff in Hm. destruct Hm as (Hst & Hm).
    destruct st as [q | f | ]; try discriminate; simpl; unfold bind, modify;
      destruct (IH (set_pendingStates (markers ++ PMessage p :: rest) s) Hm)
        as (s' & Hrun & H); exists s'; (split; [exact Hrun | exact H]).
Qed.

Lemma shiftUntilMessage_empties (q : list IPendingState) (s : PendingStateManager) :
  existsb isMessage q = false ->
  q <> [] ->
  exists s',
    shiftUntilMessage q s
    = Ok s' {| localAck := false; res_localOpMetadata := None |}
    /\ pendingStates s' = []
    /\ pendingMessagesCount s' = pendingMessagesCount s.
Proof.
  revert s. induction q as [| st q IH]; intros s Hm Hne; [now destruct Hne |].
  simpl in Hm. apply orb_false_iff in Hm. destruct Hm as (Hst & Hm).
  destruct q as [| st' q'].
  - destruct st as [p | f | ]; try discriminate; simpl; unfold bind, modify, ret;
      eexists; (split; [reflexivity | split; reflexivity]).
  - destruct st as [p | f | ]; try discriminate; simpl shiftUntilMessage;
      unfold bind at 1, modify at 1;
      destruct (IH (set_pendingStates (st' :: q') s) Hm ltac:(discriminate))
        as (s' & Hrun & H); exists s'; (split; [exact Hrun | exact H]).
Qed.

(** X4: A remote message claimed as the ack of an op of the previous session,
    when nothing is to be rebased first: the pending queue is dequeued
    through its first message, the markers before it are dropped, and the
    call returns localAck true with that message's localOpMetadata.  The
    runtime is not called, nothing is rebased, and pendingMessagesCount is
    not decremented.  When the pending queue holds markers only, it is
    emptied and the call returns localAck false. *)
Theorem claimed_remote_ack_dequeues_first_message (s : PendingStateManager)
    (message : ISequencedDocumentMessage) (markers : list IPendingState) :
  isChunkedOp (msg_type message) = false ->
  rebaseStops message (initialStates s) = true ->
  claimsAck message s = true ->
  existsb isMessage markers = false ->
  (forall p rest,
     pendingStates s = markers ++ PMessage p :: rest ->
     exists s',
       processMessage message false s
       = Ok s' {| localAck := true;
                  res_localOpMetadata := Some (localOpMetadata p) |}
       /\ pendingStates s' = rest
       /\ initialStates s' = initialStates s
       /\ pendingMessagesCount s' = pendingMessagesCount s
       /\ rebaseOpCalls s' = rebaseOpCalls s
       /\ containerRuntime s' = containerRuntime s)
  /\ (pendingStates s = markers ->
      exists s',
        processMessage message false s
        = Ok s' {| localAck := false; res_localOpMetadata := None |}
        /\ pendingStates s' = []
        /\ pendingMessagesCount s' = pendingMessagesCount s).
Proof.
  intros Hc Hstop Hclaim Hm.
  assert (Hrun : processMessage message false s
                 = shiftUntilMessage (pendingStates s) s).
  { rewrite (processMessage_remote message s Hc),
      (rebaseInitialUpTo_stops message _ s Hstop).
    now rewrite Hclaim. }
  rewrite Hrun. split.
  - intros p rest Hq. rewrite Hq. now apply shiftUntilMessage_claims.
  - intros Hq. rewrite Hq.
    destruct markers as [| st q].
    + exists s. simpl. rewrite Hq. repeat split.
    + apply shiftUntilMessage_empties; [exact Hm | discriminate].
Qed.

Lemma rebaseInitialUpTo_grows (message : ISequencedDocumentMessage)
    (init : list IPendingState) (s : PendingStateManager) :
  exists more,
    rebaseOpCalls (stateOf (rebaseInitialUpTo message init s))
    = rebaseOpCalls s ++ more.
Proof.
  apply (kept_rebaseInitialUpTo
           (fun s0 => exists more, rebaseOpCalls s0 = rebaseOpCalls s ++ more));
    try (intros; assumption).
  - intros c l s0 (more & H). exists (more ++ [(c, l)]). simpl.
    now rewrite H, <- app_assoc.
  - exists []. now rewrite app_nil_r.
Qed.

(** The second loop of processRemoteMessage rebases nothing. *)
Lemma processMessage_remote_rebased (message : ISequencedDocumentMessage)
    (s : PendingStateManager) :
  isChunkedOp (msg_type message) = false ->
  rebaseOpCalls (stateOf (processMessage message false s))
  = rebaseOpCalls (stateOf (rebaseInitialUpTo message (initialStates s) s)).
Proof.
  intros Hc. rewrite (processMessage_remote message s Hc).
  destruct (rebaseInitialUpTo message (initialStates s) s) as [s1 [] | e s1];
    [| reflexivity].
  destruct (claimsAck message s1); [| reflexivity].
  unfold stateOf at 2.
  apply (kept_shiftUntilMessage
           (fun s0 => rebaseOpCalls s0 = rebaseOpCalls s1)
           ltac:(intros; assumption) (pendingStates s1) s1 eq_refl).
Qed.

(** X5: The first message of the initial queue, whose client sequence number is
    initialClientSeqNum: a remote message sequenced before its reference
    sequence number rebases nothing and leaves the initial queue as it
    is; a remote message sequenced exactly at its reference sequence
    number rebases it before anything else.  (A later one throws.) *)
Theorem leading_initial_message_is_rebased_at_its_reference (s : PendingStateManager)
    (message : ISequencedDocumentMessage) (p : IPendingMessage)
    (rest : list IPendingState) :
  isChunkedOp (msg_type message) = false ->
  initialStates s = PMessage p :: rest ->
  clientSequenceNumber p = initialClientSeqNum s ->
  (msg_sequenceNumber message < referenceSequenceNumber p ->
   returned (processMessage message false s) = true
   /\ rebaseOpCalls (stateOf (processMessage message false s)) = rebaseOpCalls s
   /\ initialStates (stateOf (processMessage message false s)) = PMessage p :: rest)
  /\ (msg_sequenceNumber message = referenceSequenceNumber p ->
      exists more,
        rebaseOpCalls (stateOf (processMessage message false s))
        = rebaseOpCalls s ++ (content p, localOpMetadata p) :: more).
Proof.
  intros Hc Hinit Hcsn. split.
  - intros Hlt.
    assert (Hstop : rebaseStops message (initialStates s) = true).
    { rewrite Hinit. simpl. rewrite Z.gtb_ltb. apply Z.ltb_lt, Hlt. }
    rewrite (processMessage_remote message s Hc),
      (rebaseInitialUpTo_stops message _ s Hstop).
    destruct (claimsAck message s).
    + pose proof (shiftUntilMessage_returns (pendingStates s) s) as Hr.
      pose proof (kept_shiftUntilMessage
                    (fun s0 => rebaseOpCalls s0 = rebaseOpCalls s
                               /\ initialStates s0 = initialStates s)
                    ltac:(intros; assumption) (pendingStates s) s
                    (conj eq_refl eq_refl)) as (H1 & H2).
      rewrite Hr, H1, H2, Hinit. repeat split.
    + simpl. rewrite Hinit. repeat split.
  - intros Heq.
    rewrite (processMessage_remote_rebased message s Hc), Hinit.
    simpl. unfold bind, get, modify.
    replace (referenceSequenceNumber p >? msg_sequenceNumber message) with false
      by (symmetry; rewrite Z.gtb_ltb; apply Z.ltb_ge; lia).
    replace (msg_sequenceNumber message >? referenceSequenceNumber p) with false
      by (symmetry; rewrite Z.gtb_ltb; apply Z.ltb_ge; lia).
    rewrite andb_false_r.
    destruct (rebaseInitialUpTo_grows message rest
                (push (PMessage p)
                   (set_initialStates rest
                      (rebaseOp (content p) (localOpMetadata p) s))))
      as (more & Hmore).
    exists more. rewrite Hmore. simpl. now rewrite <- app_assoc.
Qed.

(** ** Submissions and their acks *)

Lemma contentsOf_messagesOf (q : list IPendingState) :
  contentsOf q = map content (messagesOf q).
Proof.
  induction q as [| [m | f | ] q IH]; simpl; [reflexivity | | |];
    now rewrite IH.
Qed.

(** X6: Calls of the submission side (onSubmitMessage, onFlushModeUpdated,
    onFlush, and changes of the runtime in between) never drop or reorder
    a message: after them the messages of the pending queue are those it
    held, followed by the submitted ones in submission order, however the
    flush markers around them were added, replaced or removed.
    pendingMessagesCount has grown by the number of submissions, and on a
    manager without initial states getPendingMessages returns the old
    contents followed by the submitted contents. *)
Theorem submissions_are_queued_in_order (cs : list Call) (s : PendingStateManager) :
  forallb isSubmission cs = true ->
  messagesOf (pendingStates (run cs s))
  = messagesOf (pendingStates s) ++ submittedMessages cs
  /\ pendingMessagesCount (run cs s)
     = pendingMessagesCount s + Z.of_nat (List.length (submittedMessages cs))
  /\ initialStates (run cs s) = initialStates s
  /\ (initialStates s = [] ->
      getPendingMessages (run cs s)
      = getPendingMessages s ++ map content (submittedMessages cs)).
Proof.
  intros Hcs.
  destruct (submission_run cs s Hcs) as (Hm & Hn).
  assert (Hi : initialStates (run cs s) = initialStates s).
  { clear Hm Hn. revert s. induction cs as [| c cs IH]; intros s; [reflexivity |].
    simpl in Hcs. apply andb_true_iff in Hcs. destruct Hcs as (Hc & Hcs).
    simpl. rewrite (IH Hcs).
    destruct c as [m | f | | message local | | connected cid mode];
      try discriminate; simpl; try reflexivity.
    - apply (kept_reenter (fun s0 => initialStates s0 = initialStates s)
               ltac:(intros; assumption) ltac:(intros; assumption)
               s (ReOnFlushModeUpdated f) eq_refl).
    - apply (kept_reenter (fun s0 => initialStates s0 = initialStates s)
               ltac:(intros; assumption) ltac:(intros; assumption)
               s ReOnFlush eq_refl). }
  repeat split; [exact Hm | exact Hn | exact Hi |].
  intros Hinit. unfold getPendingMessages.
  rewrite Hi, Hinit, !app_nil_r, !contentsOf_messagesOf, Hm, map_app.
  reflexivity.
Qed.

(** The ack of the message at the head of the queue, outside a batch. *)
Lemma local_ack_outside_batch (message : ISequencedDocumentMessage)
    (s : PendingStateManager) (p : IPendingMessage) (rest : list IPendingState) :
  isChunkedOp (msg_type message) = false ->
  pendingStates s = PMessage p :: rest ->
  isProcessingBatch s = false ->
  clientSequenceNumber p = msg_clientSequenceNumber message ->
  processMessage message true s
  = Ok (set_pendingMessagesCount (pendingMessagesCount s - 1) (shift s))
       {| localAck := false; res_localOpMetadata := Some (localOpMetadata p) |}.
Proof.
  intros Hc Hq Hb Hcsn. unfold processMessage. rewrite Hc. unfold bind.
  rewrite (local_ack_at_message message s p rest Hq), Hb, Hcsn, Z.eqb_refl.
  reflexivity.
Qed.

(** X7: Acks that arrive in submission order drain the queue: when the
    pending queue starts with the messages [ms] and no batch is open, the
    local acks of these messages, in order, each return the
    localOpMetadata of its message with localAck false; afterwards what
    was behind the messages is the whole queue, pendingMessagesCount is
    down by the number of messages, and the runtime has not been
    called. *)
Theorem acks_in_submission_order_drain_the_queue (s : PendingStateManager)
    (ms : list IPendingMessage) (acks : list ISequencedDocumentMessage)
    (rest : list IPendingState) :
  pendingStates s = map PMessage ms ++ rest ->
  isProcessingBatch s = false ->
  acknowledged ms acks = true ->
  ackResults acks s
  = map (fun m => Some {| localAck := false;
                          res_localOpMetadata := Some (localOpMetadata m) |}) ms
  /\ pendingStates (run (localAcks acks) s) = rest
  /\ pendingMessagesCount (run (localAcks acks) s)
     = pendingMessagesCount s - Z.of_nat (List.length ms)
  /\ isProcessingBatch (run (localAcks acks) s) = false
  /\ containerRuntime (run (localAcks acks) s) = containerRuntime s.
Proof.
  revert acks s. induction ms as [| m ms IH]; intros acks s Hq Hb Hack.
  - destruct acks; [| discriminate]. simpl. rewrite Z.sub_0_r.
    repeat split; auto.
  - destruct acks as [| a acks]; [discriminate |].
    simpl in Hack. apply andb_true_iff in Hack. destruct Hack as (Ha & Hack).
    apply andb_true_iff in Ha. destruct Ha as (Hc & Hcsn).
    apply negb_true_iff in Hc. apply Z.eqb_eq in Hcsn.
    pose proof (local_ack_outside_batch a s m (map PMessage ms ++ rest)
                  Hc Hq Hb Hcsn) as Hrun.
    set (s1 := set_pendingMessagesCount (pendingMessagesCount s - 1) (shift s))
      in Hrun.
    assert (Hq1 : pendingStates s1 = map PMessage ms ++ rest).
    { unfold s1. simpl. now rewrite Hq. }
    destruct (IH acks s1 Hq1 Hb Hack) as (Hres & Hq' & Hn' & Hb' & Hrt').
    assert (Hstep : run (localAcks (a :: acks)) s = run (localAcks acks) s1).
    { simpl. unfold bind. now rewrite Hrun. }
    rewrite Hstep. simpl ackResults. rewrite Hrun. simpl.
    rewrite Hres, Hq', Hn', Hb', Hrt'.
    repeat split; try reflexivity.
    unfold s1. simpl pendingMessagesCount. lia.
Qed.

(** ** The count of pending messages *)

Lemma messageCount_messagesOf (q : list IPendingState) :
  messageCount q = Z.of_nat (List.length (messagesOf q)).
Proof.
  unfold messageCount. f_equal.
  induction q as [| [m | f | ] q IH]; simpl; congruence.
Qed.

Lemma messageCount_afterBatchBegin (q : list IPendingState) :
  messageCount (afterBatchBegin q) = messageCount q.
Proof. destruct q as [| [m | f | ] q]; reflexivity. Qed.

Lemma hasPendingMessages_counted (s : PendingStateManager) :
  pendingMessagesCount s = messageCount (pendingStates s) ->
  hasPendingMessages s = existsb isMessage (pendingStates s).
Proof.
  intros H. unfold hasPendingMessages. rewrite H. unfold messageCount.
  induction (pendingStates s) as [| [m | f | ] q IH]; simpl; auto.
Qed.

Lemma no_message_iff (q : list IPendingState) :
  existsb isMessage q = false <-> messagesOf q = [].
Proof.
  induction q as [| [m | f | ] q IH]; simpl; try exact IH.
  - split; reflexivity.
  - split; discriminate.
Qed.

Lemma submitted_are_messages (cs : list RuntimeCall) (rt : ContainerRuntime) :
  messageCount (submittedBy cs rt) = Z.of_nat (List.length (submittedBy cs rt)).
Proof.
  unfold messageCount. f_equal.
  revert rt. induction cs as [| c cs IH]; intros rt; [reflexivity |].
  simpl. rewrite filter_app, !length_app, IH. f_equal.
  induction (reentry c rt) as [| [m | f | ] rs IHr]; simpl; congruence.
Qed.

(** maybeProcessBatchEnd shifts markers only. *)
Lemma maybeProcessBatchEnd_messages (message : ISequencedDocumentMessage)
    (s : PendingStateManager) :
  messageCount (pendingStates (stateOf (maybeProcessBatchEnd message s)))
  = messageCount (pendingStates s)
  /\ pendingMessagesCount (stateOf (maybeProcessBatchEnd message s))
     = pendingMessagesCount s
  /\ containerRuntime (stateOf (maybeProcessBatchEnd message s)) = containerRuntime s
  /\ initialStates (stateOf (maybeProcessBatchEnd message s)) = initialStates s
  /\ initialClientId (stateOf (maybeProcessBatchEnd message s)) = initialClientId s.
Proof.
  unfold_local.
  destruct (pendingStates s) as [| st rest] eqn:E; simpl; [now rewrite E |].
  destruct st as [p | [] | ]; simpl; rewrite ?E; auto;
    destruct (pendingBatchBeginMessage s) as [b |]; simpl; rewrite ?E; auto;
    destruct (sameMessage b message); simpl;
    try destruct (isNone (msg_batch b)); simpl; rewrite ?E; auto;
    destruct (batch_is (msg_batch b) true); simpl; rewrite ?E; auto;
    destruct (batch_is (msg_batch message) false); simpl; rewrite ?E; auto.
Qed.

Lemma closed_closeFn (error : DataCorruptionError) (s : PendingStateManager) :
  closed (closeFn error s) = true.
Proof.
  unfold closed. simpl. rewrite existsb_app. simpl. apply orb_true_r.
Qed.

Lemma countsMessages_local_ack (message : ISequencedDocumentMessage)
    (s : PendingStateManager) :
  countsMessages s ->
  countsMessages (stateOf (processPendingLocalMessage message s)).
Proof.
  intros H. rewrite local_ack_steps.
  pose proof (maybeProcessBatchBegin_outcome message s) as Hb.
  assert (Hi : initialStates (stateOf (maybeProcessBatchBegin message s)) = []
               /\ initialClientId (stateOf (maybeProcessBatchBegin message s)) = None).
  { apply (kept_maybeProcessBatchBegin
             (fun s0 => initialStates s0 = [] /\ initialClientId s0 = None));
      try (intros; assumption).
    destruct H as (H1 & H2 & _). now split. }
  destruct (maybeProcessBatchBegin message s) as [s1 [] | e s1];
    [| destruct Hb as (_ & ->); exact H].
  destruct Hb as (Hq & Hrt & Hn). destruct Hi as (Hi1 & Hi2).
  unfold stateOf in Hi1, Hi2.
  assert (H1 : countsMessages s1).
  { split; [exact Hi1 |]. split; [exact Hi2 |].
    unfold closed. rewrite Hrt, Hn, Hq, messageCount_afterBatchBegin.
    apply H. }
  clear H Hq Hrt Hn.
  destruct (pendingStates s1) as [| [p | f | ] rest] eqn:E; try exact H1.
  rewrite (local_ack_at_message message s1 p rest E).
  destruct (negb (clientSequenceNumber p =? msg_clientSequenceNumber message)).
  - split; [exact Hi1 |]. split; [exact Hi2 |].
    unfold stateOf. rewrite closed_closeFn. discriminate.
  - cbv zeta.
    assert (H2 : countsMessages
                   (set_pendingMessagesCount (pendingMessagesCount s1 - 1) (shift s1))).
    { split; [exact Hi1 |]. split; [exact Hi2 |].
      intros Hc. destruct H1 as (_ & _ & H1). specialize (H1 Hc).
      simpl. rewrite E in *. simpl tl.
      rewrite H1, !messageCount_messagesOf. simpl List.length. lia. }
    destruct (isProcessingBatch s1); [| exact H2].
    destruct (maybeProcessBatchEnd_messages message
                (set_pendingMessagesCount (pendingMessagesCount s1 - 1) (shift s1)))
      as (Hq & Hn & Hrt & Hj1 & Hj2).
    destruct (maybeProcessBatchEnd message
                (set_pendingMessagesCount (pendingMessagesCount s1 - 1) (shift s1)))
      as [s3 [] | e s3]; unfold stateOf in *;
      (split; [now rewrite Hj1 |]; split; [now rewrite Hj2 |];
       unfold closed; rewrite Hrt, Hn, Hq; apply H2).
Qed.

(** Without initial state a remote message does nothing. *)
Lemma countsMessages_remote (message : ISequencedDocumentMessage)
    (s : PendingStateManager) :
  countsMessages s ->
  stateOf (processMessage message false s) = s.
Proof.
  intros (Hi & Hc & _).
  destruct (isChunkedOp (msg_type message)) eqn:Hch.
  - now rewrite (chunked_ack_skipped message false s Hch).
  - rewrite (processMessage_remote message s Hch), Hi. simpl.
    unfold claimsAck. now rewrite Hc.
Qed.

Lemma countsMessages_submission (c : Call) (s : PendingStateManager) :
  isSubmission c = true ->
  countsMessages s -> countsMessages (stateOf (step c s)).
Proof.
  intros Hc (Hi & Hcid & Hn).
  destruct (submission_step c s Hc) as (Hm' & Hn').
  assert (Hframe : initialStates (stateOf (step c s)) = []
                   /\ initialClientId (stateOf (step c s)) = None
                   /\ rt_calls (containerRuntime (stateOf (step c s)))
                      = rt_calls (containerRuntime s)).
  { destruct c as [m | f | | message local | | connected cid mode];
      try discriminate; simpl.
    - now repeat split.
    - apply (kept_reenter
               (fun s0 => initialStates s0 = [] /\ initialClientId s0 = None
                          /\ rt_calls (containerRuntime s0)
                             = rt_calls (containerRuntime s))
               ltac:(intros; assumption) ltac:(intros; assumption)
               s (ReOnFlushModeUpdated f)). now repeat split.
    - apply (kept_reenter
               (fun s0 => initialStates s0 = [] /\ initialClientId s0 = None
                          /\ rt_calls (containerRuntime s0)
                             = rt_calls (containerRuntime s))
               ltac:(intros; assumption) ltac:(intros; assumption)
               s ReOnFlush). now repeat split.
    - now repeat split. }
  destruct Hframe as (Hi' & Hcid' & Hcalls).
  split; [exact Hi' |]. split; [exact Hcid' |].
  unfold closed. rewrite Hcalls. intros Hcl. specialize (Hn Hcl).
  rewrite Hn', Hn, !messageCount_messagesOf, Hm', length_app. lia.
Qed.

Lemma replayPendingStates_refused (s : PendingStateManager) :
  rt_connected (containerRuntime s) = false
  \/ option_string_eqb (clientId s) (rt_clientId (containerRuntime s)) = true ->
  exists msg, replayPendingStates s = Throw (AssertionError msg) s.
Proof.
  intros H. unfold replayPendingStates. unfold bind at 1, get at 1.
  unfold bind at 1.
  destruct (rt_connected (containerRuntime s)); [| eexists; reflexivity].
  destruct H as [H | H]; [discriminate |].
  unfold assert at 1, ret at 1. unfold bind at 1. rewrite H.
  eexists; reflexivity.
Qed.

Lemma countsMessages_replay (s : PendingStateManager) :
  (forall c rt, forallb isReOnSubmitMessage (reentry c rt) = true) ->
  countsMessages s -> countsMessages (stateOf (replayPendingStates s)).
Proof.
  intros Hre H.
  destruct (rt_connected (containerRuntime s)) eqn:Hconn;
    [| destruct (replayPendingStates_refused s (or_introl Hconn)) as (msg & ->);
       exact H].
  destruct (option_string_eqb (clientId s) (rt_clientId (containerRuntime s)))
    eqn:Hcid;
    [destruct (replayPendingStates_refused s (or_intror Hcid)) as (msg & ->);
     exact H |].
  assert (Hid : initialClientId (stateOf (replayPendingStates s)) = None).
  { apply (kept_replayPendingStates (fun s0 => initialClientId s0 = None));
      try (intros; assumption).
    - intros s0.
      apply (kept_rebaseRemaining (fun s1 => initialClientId s1 = None));
        intros; assumption.
    - apply H. }
  destruct (replayPendingStates_outcome Hre s Hconn Hcid)
    as (s' & Hrun & Hcalls & _ & Hq & Hi & _ & _ & Hn & _).
  rewrite Hrun in *. unfold stateOf in *.
  split; [exact Hi |]. split; [exact Hid |].
  destruct H as (Hi0 & _ & Hn0). rewrite Hi0, app_nil_r in *.
  destruct (pendingStates s) as [| st rest] eqn:E.
  - intros Hcl. rewrite Hn, Hq. simpl.
    unfold closed in *. rewrite Hcalls in Hcl. simpl in Hcl.
    rewrite app_nil_r in Hcl. apply (Hn0 Hcl).
  - intros _. rewrite Hn, Hq. symmetry. apply submitted_are_messages.
Qed.

Lemma countsMessages_run (cs : list Call) (s : PendingStateManager) :
  (forall c rt, forallb isReOnSubmitMessage (reentry c rt) = true) ->
  countsMessages s -> countsMessages (run cs s).
Proof.
  intros Hre. revert s. induction cs as [| c cs IH]; intros s H; [exact H |].
  simpl. apply IH.
  destruct c as [m | f | | message local | | connected cid mode];
    try (now apply countsMessages_submission).
  - simpl. unfold bind at 1. destruct local.
    + unfold processMessage.
      destruct (isChunkedOp (msg_type message)); [exact H |].
      unfold bind.
      pose proof (countsMessages_local_ack message s H) as H1.
      now destruct (processPendingLocalMessage message s).
    + pose proof (countsMessages_remote message s H) as H1.
      destruct (processMessage message false s); unfold stateOf in *;
        now subst.
  - now apply countsMessages_replay.
Qed.

(** X9: On a manager constructed without initial state, with runtime hooks
    that come back through onSubmitMessage only: whatever was called, in
    whatever order, and whether the calls returned or threw, as long as no
    ack made the manager call closeFn, pendingMessagesCount is the number
    of messages in the pending queue.  hasPendingMessages is then true
    exactly when the queue holds a message, and getLocalState returns
    nothing exactly when it holds none. *)
Theorem count_is_number_of_pending_messages (rt : ContainerRuntime) (cs : list Call) :
  (forall c rt, forallb isReOnSubmitMessage (reentry c rt) = true) ->
  closed (run cs (new rt None)) = false ->
  pendingMessagesCount (run cs (new rt None))
  = messageCount (pendingStates (run cs (new rt None)))
  /\ hasPendingMessages (run cs (new rt None))
     = existsb isMessage (pendingStates (run cs (new rt None)))
  /\ (getLocalState (run cs (new rt None)) = None
      <-> messagesOf (pendingStates (run cs (new rt None))) = []).
Proof.
  intros Hre Hcl.
  assert (H : countsMessages (new rt None)).
  { repeat split. }
  apply (countsMessages_run cs _ Hre) in H.
  destruct H as (_ & _ & H). specialize (H Hcl).
  pose proof (hasPendingMessages_counted _ H) as Hh.
  split; [exact H |]. split; [exact Hh |].
  unfold getLocalState. rewrite Hh.
  pose proof (no_message_iff (pendingStates (run cs (new rt None)))) as Hq.
  destruct (existsb isMessage (pendingStates (run cs (new rt None)))).
  - split; [discriminate |]. intros E. apply Hq in E. discriminate.
  - split; [intros _; now apply Hq | reflexivity].
Qed.

(** ** Replaying twice *)

Lemma replayPendingStates_twice (s : PendingStateManager) :
  replayed s ->
  replayPendingStates s = Throw (AssertionError calledTwice) s.
Proof.
  intros (Hconn & Hcid). unfold replayPendingStates.
  unfold bind at 1, get at 1. unfold bind at 1. rewrite Hconn.
  unfold assert at 1, ret at 1. unfold bind at 1. rewrite Hcid.
  reflexivity.
Qed.

Lemma option_string_eqb_refl (a : option string) : option_string_eqb a a = true.
Proof. destruct a; [apply String.eqb_refl | reflexivity]. Qed.

(** The part of replayPendingStates behind its assertions keeps the
    client id it has just stored. *)
Lemma replayPendingStates_sets_clientId (s : PendingStateManager) :
  rt_connected (containerRuntime s) = true ->
  option_string_eqb (clientId s) (rt_clientId (containerRuntime s)) = false ->
  replayed (stateOf (replayPendingStates s)).
Proof.
  intros Hconn Hcid. unfold replayPendingStates.
  unfold bind at 1, get at 1. unfold bind at 1. rewrite Hconn.
  unfold assert at 1, ret at 1. unfold bind at 1. rewrite Hcid.
  unfold negb, assert at 1, ret at 1. unfold bind at 1, modify at 1.
  assert (Hpending : forall q s0, replayed s0 -> replayed (set_pendingStates q s0))
    by (intros; assumption).
  assert (Hcount : forall n s0, replayed s0 -> replayed (set_pendingMessagesCount n s0))
    by (intros; assumption).
  assert (Hcall : forall c s0, replayed s0 ->
                    replayed (set_containerRuntime (logCall c (containerRuntime s0)) s0))
    by (intros; assumption).
  refine (preserves_bind replayed _ _ _ _
            (set_clientId (rt_clientId (containerRuntime s)) s) _).
  - apply kept_rebaseRemaining; intros; assumption.
  - intros _. apply preserves_get_bind. intros s1 H1.
    destruct (List.length (pendingStates s1)); [exact H1 |].
    apply (preserves_bind replayed); [| | exact H1].
    + apply preserves_modify. intros s0 H0. apply Hcount, H0.
    + intros _. apply preserves_bind.
      * apply kept_replayLoop; assumption.
      * intros _. apply preserves_modify. intros s0.
        apply kept_callRuntime; assumption.
  - split; [exact Hconn | apply option_string_eqb_refl].
Qed.

Lemma replayed_step (c : Call) (s : PendingStateManager) :
  isRuntimeChanged c = false ->
  replayed s -> replayed (stateOf (step c s)).
Proof.
  intros Hc H.
  assert (Hpending : forall q s0, replayed s0 -> replayed (set_pendingStates q s0))
    by (intros; assumption).
  assert (Hcount : forall n s0, replayed s0 -> replayed (set_pendingMessagesCount n s0))
    by (intros; assumption).
  assert (Hcall : forall c s0, replayed s0 ->
                    replayed (set_containerRuntime (logCall c (containerRuntime s0)) s0))
    by (intros; assumption).
  destruct c as [m | f | | message local | | connected cid mode];
    try discriminate; simpl.
  - exact (kept_reenter replayed Hpending Hcount s (ReOnSubmitMessage m) H).
  - exact (kept_reenter replayed Hpending Hcount s (ReOnFlushModeUpdated f) H).
  - exact (kept_reenter replayed Hpending Hcount s ReOnFlush H).
  - apply (preserves_bind replayed); [| intros r; apply preserves_ret | exact H].
    apply kept_processMessage; try assumption; try (intros; assumption).
    intros m s0. apply kept_rebaseInitialUpTo; intros; assumption.
  - now rewrite (replayPendingStates_twice s H).
Qed.

(** X10: Once replayPendingStates has passed its two assertions, whether it
    then returned or threw, every further replayPendingStates is refused
    with the assertion "replayPendingStates called twice for same
    clientId!" and changes nothing, whatever else is called on the manager
    in between, until the runtime's connection changes. *)
Theorem replay_is_refused_until_the_runtime_changes (s : PendingStateManager)
    (cs : list Call) :
  rt_connected (containerRuntime s) = true ->
  option_string_eqb (clientId s) (rt_clientId (containerRuntime s)) = false ->
  existsb isRuntimeChanged cs = false ->
  replayPendingStates (run cs (stateOf (replayPendingStates s)))
  = Throw (AssertionError calledTwice) (run cs (stateOf (replayPendingStates s))).
Proof.
  intros Hconn Hcid Hcs. apply replayPendingStates_twice.
  pose proof (replayPendingStates_sets_clientId s Hconn Hcid) as H.
  revert H. generalize (stateOf (replayPendingStates s)). clear Hconn Hcid.
  induction cs as [| c cs IH]; intros s0 H; [exact H |].
  simpl in Hcs. apply orb_false_iff in Hcs. destruct Hcs as (Hc & Hcs).
  simpl. apply (IH Hcs). now apply replayed_step.
Qed.

(** ** A flush mode update at the head of the queue *)

Lemma automatic_at_head_step (c : Call) (s : PendingStateManager)
    (rest : list IPendingState) :
  isSubmission c = true ->
  pendingStates s = PFlushMode Automatic :: rest ->
  exists rest', pendingStates (stateOf (step c s)) = PFlushMode Automatic :: rest'.
Proof.
  intros Hc Hq.
  destruct c as [m | f | | message local | | connected cid mode];
    try discriminate; simpl.
  - destruct m. simpl. rewrite Hq. eexists. reflexivity.
  - unfold onFlushModeUpdated.
    destruct f; [| simpl; rewrite Hq; eexists; reflexivity].
    rewrite Hq. destruct rest as [| b r].
    + simpl. rewrite Hq. eexists. reflexivity.
    + rewrite peekBack_cons.
      destruct (peekBack (b :: r)) as [[p | [] | ] |]; unfold removeBack, push;
        simpl pendingStates; rewrite ?Hq;
        change (removelast (PFlushMode Automatic :: b :: r))
          with (PFlushMode Automatic :: removelast (b :: r));
        eexists; reflexivity.
  - unfold onFlush.
    destruct (rt_flushMode (containerRuntime s)); [now exists rest |].
    destruct (peekBack (pendingStates s)) as [[p | f | ] |];
      try (now exists rest).
    simpl. rewrite Hq. eexists. reflexivity.
  - now exists rest.
Qed.

(** X11: A flush mode update to Automatic at the head of the pending queue
    stays there whatever is submitted, and whatever flush bookkeeping
    follows; while it is there, the local ack of any message that is not a
    chunked op fails at the assertion "Flush mode should be manual when
    processing batch begin" and changes nothing. *)
Theorem automatic_at_head_blocks_local_acks (s : PendingStateManager)
    (rest : list IPendingState) (cs : list Call)
    (message : ISequencedDocumentMessage) :
  pendingStates s = PFlushMode Automatic :: rest ->
  forallb isSubmission cs = true ->
  isChunkedOp (msg_type message) = false ->
  (exists rest', pendingStates (run cs s) = PFlushMode Automatic :: rest')
  /\ processMessage message true (run cs s)
     = Throw (AssertionError notManual) (run cs s).
Proof.
  intros Hq Hcs Hc.
  assert (H : exists rest', pendingStates (run cs s) = PFlushMode Automatic :: rest').
  { revert s rest Hq. induction cs as [| c cs IH]; intros s rest Hq.
    - now exists rest.
    - simpl in Hcs. apply andb_true_iff in Hcs. destruct Hcs as (Hc1 & Hcs).
      destruct (automatic_at_head_step c s rest Hc1 Hq) as (rest1 & Hq1).
      simpl. exact (IH Hcs _ rest1 Hq1). }
  split; [exact H |]. destruct H as (rest' & Hq').
  unfold_local. now rewrite Hc, Hq'.
Qed.

(** ** Acks of a whole batch *)

Lemma maybeProcessBatchEnd_message (message : ISequencedDocumentMessage)
    (s : PendingStateManager) (p : IPendingMessage) (rest : list IPendingState) :
  pendingStates s = PMessage p :: rest ->
  maybeProcessBatchEnd message s = Ok s tt.
Proof. intros H. unfold_local. now rewrite H. Qed.

(** The ack of a message that has another message right behind it. *)
Lemma local_ack_before_message (message : ISequencedDocumentMessage)
    (s : PendingStateManager) (p q : IPendingMessage) (rest : list IPendingState) :
  isChunkedOp (msg_type message) = false ->
  pendingStates s = PMessage p :: PMessage q :: rest ->
  clientSequenceNumber p = msg_clientSequenceNumber message ->
  processMessage message true s
  = Ok (set_pendingMessagesCount (pendingMessagesCount s - 1) (shift s))
       {| localAck := false; res_localOpMetadata := Some (localOpMetadata p) |}.
Proof.
  intros Hc Hq Hcsn. unfold processMessage. rewrite Hc. unfold bind.
  rewrite (local_ack_at_message message s p _ Hq), Hcsn, Z.eqb_refl.
  cbv zeta. simpl negb. cbv iota.
  destruct (isProcessingBatch s); [| reflexivity].
  rewrite (maybeProcessBatchEnd_message message _ q rest); [reflexivity |].
  simpl. now rewrite Hq.
Qed.

(** The ack of the last message of an open batch whose metadata is right. *)
Lemma local_ack_closes_batch (message beginMessage : ISequencedDocumentMessage)
    (s : PendingStateManager) (p : IPendingMessage) (marker : IPendingState)
    (rest : list IPendingState) :
  isChunkedOp (msg_type message) = false ->
  pendingStates s = PMessage p :: marker :: rest ->
  clientSequenceNumber p = msg_clientSequenceNumber message ->
  closesBatch marker = true ->
  isProcessingBatch s = true ->
  pendingBatchBeginMessage s = Some beginMessage ->
  batchMetadataOk beginMessage message = true ->
  processMessage message true s
  = Ok (set_batch false None
          (afterBatchEnd marker
             (set_pendingMessagesCount (pendingMessagesCount s - 1) (shift s))))
       {| localAck := false; res_localOpMetadata := Some (localOpMetadata p) |}.
Proof.
  intros Hc Hq Hcsn Hclose Hbatch Hbegin Hok.
  assert (Hm : isMessage marker = false) by (now destruct marker as [q | [] | ]).
  assert (Hmanual : marker <> PFlushMode Manual) by (now destruct marker as [q | [] | ]).
  unfold processMessage. rewrite Hc. unfold bind.
  rewrite (local_ack_at_message message s p _ Hq), Hcsn, Z.eqb_refl, Hbatch.
  cbv zeta. simpl negb. cbv iota.
  rewrite (maybeProcessBatchEnd_at_marker message beginMessage _ marker rest);
    try assumption; [| simpl; now rewrite Hq].
  rewrite batchMetadataOk_cases, Hok. reflexivity.
Qed.

Lemma last_cons_default {A} (l : list A) (x d : A) : last (x :: l) d = last l x.
Proof.
  revert x d. induction l as [| y l IH]; intros x d; [reflexivity |].
  change (last (x :: y :: l) d) with (last (y :: l) d).
  now rewrite !IH.
Qed.

Lemma acknowledged_head (m : IPendingMessage) (ms : list IPendingMessage)
    (a : ISequencedDocumentMessage) (acks : list ISequencedDocumentMessage) :
  acknowledged (m :: ms) (a :: acks) = true ->
  isChunkedOp (msg_type a) = false.
Proof.
  intros H. simpl in H. apply andb_true_iff in H. destruct H as (H & _).
  apply andb_true_iff in H. destruct H as (H & _). now apply negb_true_iff.
Qed.

Lemma acks_inside_batch (beginMessage : ISequencedDocumentMessage)
    (closer : IPendingState) (rest : list IPendingState)
    (ms : list IPendingMessage) :
  closesBatch closer = true ->
  forall (m : IPendingMessage) (acks : list ISequencedDocumentMessage)
         (a : ISequencedDocumentMessage) (s : PendingStateManager),
    pendingStates s = map PMessage (m :: ms) ++ closer :: rest ->
    isProcessingBatch s = true ->
    pendingBatchBeginMessage s = Some beginMessage ->
    acknowledged (m :: ms) (a :: acks) = true ->
    batchMetadataOk beginMessage (last acks a) = true ->
    ackResults (a :: acks) s
    = map (fun m => Some {| localAck := false;
                            res_localOpMetadata := Some (localOpMetadata m) |})
        (m :: ms)
    /\ pendingStates (run (localAcks (a :: acks)) s) = behindBatch closer rest
    /\ isProcessingBatch (run (localAcks (a :: acks)) s) = false
    /\ pendingBatchBeginMessage (run (localAcks (a :: acks)) s) = None
    /\ pendingMessagesCount (run (localAcks (a :: acks)) s)
       = pendingMessagesCount s - Z.of_nat (List.length (m :: ms))
    /\ containerRuntime (run (localAcks (a :: acks)) s) = containerRuntime s.
Proof.
  intros Hclose. induction ms as [| m' ms IH]; intros m acks a s Hq Hb Hbegin Hack Hok.
  - simpl in Hack. destruct acks; [| now rewrite andb_false_r in Hack].
    rewrite andb_true_r in Hack.
    apply andb_true_iff in Hack. destruct Hack as (Hc & Hcsn).
    apply negb_true_iff in Hc. apply Z.eqb_eq in Hcsn. simpl in Hq, Hok.
    pose proof (local_ack_closes_batch a beginMessage s m closer rest
                  Hc Hq Hcsn Hclose Hb Hbegin Hok) as Hrun.
    simpl. unfold bind. rewrite Hrun. simpl.
    repeat split; try reflexivity.
    + destruct closer as [q | [] | ]; try discriminate; simpl; now rewrite Hq.
    + destruct closer as [q | [] | ]; try discriminate; reflexivity.
    + destruct closer as [q | [] | ]; try discriminate; reflexivity.
  - destruct acks as [| a' acks]; [simpl in Hack; now rewrite andb_false_r in Hack |].
    change (acknowledged (m :: m' :: ms) (a :: a' :: acks))
      with (negb (isChunkedOp (msg_type a))
            && (clientSequenceNumber m =? msg_clientSequenceNumber a)
            && acknowledged (m' :: ms) (a' :: acks)) in Hack.
    apply andb_true_iff in Hack. destruct Hack as (Ha & Hack).
    apply andb_true_iff in Ha. destruct Ha as (Hc & Hcsn).
    apply negb_true_iff in Hc. apply Z.eqb_eq in Hcsn.
    rewrite last_cons_default in Hok.
    pose proof (local_ack_before_message a s m m' (map PMessage ms ++ closer :: rest)
                  Hc Hq Hcsn) as Hrun.
    set (s1 := set_pendingMessagesCount (pendingMessagesCount s - 1) (shift s))
      in Hrun.
    assert (Hq1 : pendingStates s1 = map PMessage (m' :: ms) ++ closer :: rest).
    { unfold s1. simpl. now rewrite Hq. }
    destruct (IH m' acks a' s1 Hq1 Hb Hbegin Hack Hok)
      as (Hres & Hq' & Hb' & Hbegin' & Hn' & Hrt').
    assert (Hstep : run (localAcks (a :: a' :: acks)) s
                    = run (localAcks (a' :: acks)) s1).
    { change (run (localAcks (a :: a' :: acks)) s)
        with (run (localAcks (a' :: acks))
                (stateOf (step (ProcessMessage a true) s))).
      simpl step. unfold bind. now rewrite Hrun. }
    rewrite Hstep.
    change (ackResults (a :: a' :: acks) s)
      with (returnedValue (processMessage a true s)
            :: ackResults (a' :: acks) (stateOf (processMessage a true s))).
    rewrite Hrun. unfold stateOf, returnedValue. rewrite Hres, Hq', Hb', Hbegin', Hn', Hrt'.
    repeat split; try reflexivity.
    unfold s1. simpl pendingMessagesCount.
    change (List.length (m :: m' :: ms)) with (S (List.length (m' :: ms))).
    lia.
Qed.

(** X8: The acks of a whole batch, in submission order and with the batch
    metadata of section 4.1.5 (none on a batch of one message; true on the
    first and false on the last otherwise): when the pending queue starts
    with a marker that opens a batch, the messages of the batch and a
    marker that closes it, and no batch is being processed, every ack is
    accepted and returns the localOpMetadata of its message.  Afterwards
    the batch is gone from the queue (a flush that closed it stays, to open
    the next batch), the tracker is idle again, pendingMessagesCount is
    down by the size of the batch and the runtime has not been called. *)
Theorem acks_of_a_batch_close_it (s : PendingStateManager)
    (opener closer : IPendingState) (m : IPendingMessage)
    (ms : list IPendingMessage) (a : ISequencedDocumentMessage)
    (acks : list ISequencedDocumentMessage) (rest : list IPendingState) :
  pendingStates s = opener :: map PMessage (m :: ms) ++ closer :: rest ->
  opensBatch opener = true ->
  closesBatch closer = true ->
  isProcessingBatch s = false ->
  pendingBatchBeginMessage s = None ->
  acknowledged (m :: ms) (a :: acks) = true ->
  batchMetadataOk a (last acks a) = true ->
  ackResults (a :: acks) s
  = map (fun m => Some {| localAck := false;
                          res_localOpMetadata := Some (localOpMetadata m) |})
      (m :: ms)
  /\ pendingStates (run (localAcks (a :: acks)) s) = behindBatch closer rest
  /\ isProcessingBatch (run (localAcks (a :: acks)) s) = false
  /\ pendingBatchBeginMessage (run (localAcks (a :: acks)) s) = None
  /\ pendingMessagesCount (run (localAcks (a :: acks)) s)
     = pendingMessagesCount s - Z.of_nat (List.length (m :: ms))
  /\ containerRuntime (run (localAcks (a :: acks)) s) = containerRuntime s.
Proof.
  intros Hq Hopen Hclose Hb Hbegin Hack Hok.
  set (s1 := shift (set_batch true (Some a) s)).
  assert (Hsame : processMessage a true s = processMessage a true s1).
  { unfold processMessage.
    rewrite (acknowledged_head m ms a acks Hack).
    unfold bind.
    now rewrite (local_ack_opening_batch a s opener _ Hq Hopen Hb Hbegin). }
  assert (Hq1 : pendingStates s1 = map PMessage (m :: ms) ++ closer :: rest).
  { unfold s1. simpl. now rewrite Hq. }
  destruct (acks_inside_batch a closer rest ms Hclose m acks a s1 Hq1
              eq_refl eq_refl Hack Hok) as (Hres & H).
  change (run (localAcks (a :: acks)) s)
    with (run (localAcks acks) (stateOf (step (ProcessMessage a true) s))).
  change (run (localAcks (a :: acks)) s1)
    with (run (localAcks acks) (stateOf (step (ProcessMessage a true) s1))) in H.
  change (ackResults (a :: acks) s)
    with (returnedValue (processMessage a true s)
          :: ackResults acks (stateOf (processMessage a true s))).
  change (ackResults (a :: acks) s1)
    with (returnedValue (processMessage a true s1)
          :: ackResults acks (stateOf (processMessage a true s1))) in Hres.
  simpl step in *. unfold bind in *. rewrite Hsame.
  split; [exact Hres | exact H].
Qed.

(** ** Replay, whatever the hooks call back *)

Lemma replayLoop_step (n : nat) (s : PendingStateManager) (e : IPendingState)
    (q : list IPendingState) :
  pendingStates s = e :: q ->
  replayLoop (S n) s = replayLoop n (callRuntime (replayCall e) (shift s)).
Proof. intros H. simpl. unfold bind, get, modify. now rewrite H. Qed.

(** replayPendingStates behind its two assertions, on a manager without
    initial states whose queue is not empty. *)
Lemma replayPendingStates_passes (s : PendingStateManager) (e : IPendingState)
    (q : list IPendingState) :
  rt_connected (containerRuntime s) = true ->
  option_string_eqb (clientId s) (rt_clientId (containerRuntime s)) = false ->
  initialStates s = [] ->
  pendingStates s = e :: q ->
  replayPendingStates s
  = match replayLoop (S (List.length q))
            (set_pendingMessagesCount 0
               (set_clientId (rt_clientId (containerRuntime s)) s)) with
    | Ok s1 _ =>
        Ok (callRuntime (SetFlushMode (rt_flushMode (containerRuntime s))) s1) tt
    | Throw x s1 => Throw x s1
    end.
Proof.
  intros Hconn Hcid Hinit Hq.
  unfold replayPendingStates. unfold bind at 1, get at 1.
  rewrite Hconn, Hcid, Hinit. simpl negb. unfold assert.
  unfold bind at 1, ret at 1. unfold bind at 1, ret at 1.
  unfold bind at 1, modify at 1. unfold bind at 1.
  simpl rebaseRemaining. unfold ret at 1. unfold bind at 1, get at 1.
  change (pendingStates (set_clientId (rt_clientId (containerRuntime s)) s))
    with (pendingStates s).
  change (containerRuntime (set_clientId (rt_clientId (containerRuntime s)) s))
    with (containerRuntime s).
  rewrite Hq.
  change (List.length (e :: q)) with (S (List.length q)). cbv iota.
  unfold bind at 1, modify at 1. unfold bind at 1.
  destruct (replayLoop (S (List.length q)) _); reflexivity.
Qed.

End Manager.

Arguments Throw {Content LocalOpMetadata OpMetadata A} e s.
Arguments PFlush {Content LocalOpMetadata OpMetadata}.
Arguments PFlushMode {Content LocalOpMetadata OpMetadata} flushMode.
Arguments SetFlushMode {Content LocalOpMetadata OpMetadata} mode.
Arguments FlushCall {Content LocalOpMetadata OpMetadata}.
Arguments CloseFn {Content LocalOpMetadata OpMetadata} error.
Arguments OnFlushModeUpdated {Content LocalOpMetadata OpMetadata} flushMode.
Arguments OnFlush {Content LocalOpMetadata OpMetadata}.
Arguments ProcessMessage {Content LocalOpMetadata OpMetadata} message local.
Arguments ReplayPendingStates {Content LocalOpMetadata OpMetadata}.
Arguments RuntimeChanged {Content LocalOpMetadata OpMetadata} connected cid mode.
Arguments runtimeOf {Content LocalOpMetadata OpMetadata} connected cid mode.
Arguments pendingMessage {Content LocalOpMetadata OpMetadata} t csn rsn c l.

(** * Scenarios

    The scenarios of section 8 and the inputs at which the properties
    above are exercised.  Contents and metadata are strings here. *)

(** A manager of a runtime connected as "C1", without initial state. *)
Local Abbreviation fresh mode :=
  (new (runtimeOf (Content := string) (LocalOpMetadata := string)
          (OpMetadata := string) true (Some "C1") mode) None).

(** The op with client sequence number [csn], submitted at reference
    sequence number [rsn]. *)
Local Abbreviation op csn rsn c l :=
  (pendingMessage (Content := string) (LocalOpMetadata := string)
     (OpMetadata := string) opType csn rsn c l).

Local Abbreviation submitOnce := (@resubmitOnce string string string).

(** S2: an op that is acked leaves nothing pending and nothing to
    serialize. *)
Example scenario_acked_op_is_not_pending :
  let s := run submitOnce
             [OnSubmitMessage (op 1 0 "x" "meta-x");
              ProcessMessage (ack 1 "C1" 10 1 None) true]
             (fresh Automatic) in
  pendingStates s = [] /\ pendingMessagesCount s = 0 /\ getLocalState s = None.
Proof. vm_compute. repeat split. Qed.

(** S1: one op submitted, serialized and rehydrated is resubmitted once. *)
Example scenario_resend_one :
  let s := run submitOnce [OnSubmitMessage (op 1 0 "a" "meta-a")]
             (fresh Automatic) in
  resubmissions
    (rt_calls
       (containerRuntime
          (stateOf (replayPendingStates submitOnce
                      (rehydrate (runtimeOf true (Some "C2") Automatic) s)))))
  = [(opType, "a", "meta-a", None)].
Proof. vm_compute. reflexivity. Qed.

(** S3: a batch framed by Manual and Automatic is replayed as one batch. *)
Example scenario_batch_is_replayed :
  let s := run submitOnce
             [RuntimeChanged true (Some "C1") Manual;
              OnFlushModeUpdated Manual;
              OnSubmitMessage (op 1 0 "a" "meta-a");
              OnSubmitMessage (op 2 0 "b" "meta-b");
              OnSubmitMessage (op 3 0 "c" "meta-c");
              OnFlush;
              OnFlushModeUpdated Automatic]
             (fresh Automatic) in
  pendingStates s
  = [PFlushMode Manual; PMessage (op 1 0 "a" "meta-a"); PMessage (op 2 0 "b" "meta-b");
     PMessage (op 3 0 "c" "meta-c"); PFlushMode Automatic]
  /\ rt_calls
       (containerRuntime
          (stateOf (replayPendingStates submitOnce
                      (rehydrate (runtimeOf true (Some "C2") Automatic) s))))
     = [SetFlushMode Manual;
        ReSubmitFn opType "a" "meta-a" None;
        ReSubmitFn opType "b" "meta-b" None;
        ReSubmitFn opType "c" "meta-c" None;
        SetFlushMode Automatic;
        SetFlushMode Automatic].
Proof. vm_compute. split; reflexivity. Qed.

(** S5: batch metadata true on the first ack, absent on the second and
    false on the third is accepted; the tracker is set by the first ack
    and cleared by the third. *)
Example scenario_batch_metadata :
  let submitted :=
    run submitOnce
      [RuntimeChanged true (Some "C1") Manual;
       OnFlushModeUpdated Manual;
       OnSubmitMessage (op 1 0 "a" "meta-a");
       OnSubmitMessage (op 2 0 "b" "meta-b");
       OnSubmitMessage (op 3 0 "c" "meta-c");
       OnFlush]
      (fresh Automatic) in
  let s1 := run submitOnce [ProcessMessage (ack 1 "C1" 10 1 (Some true)) true]
              submitted in
  let s3 := run submitOnce
              [ProcessMessage (ack 2 "C1" 11 2 None) true;
               ProcessMessage (ack 3 "C1" 12 3 (Some false)) true] s1 in
  isProcessingBatch s1 = true
  /\ isProcessingBatch s3 = false
  /\ pendingStates s3 = [PFlush]
  /\ pendingMessagesCount s3 = 0
  /\ rt_calls (containerRuntime s3) = [].
Proof. vm_compute. repeat split. Qed.

(** ** Local acks *)

(** C1, as stated, fails: the ack of the only pending message, with an
    equal client sequence number, returns localAck false. *)
Lemma local_ack_reports_no_local_ack :
  afterBatchBegin
    (pendingStates (run submitOnce [OnSubmitMessage (op 1 0 "a" "meta-a")]
                      (fresh Automatic)))
  = [PMessage (op 1 0 "a" "meta-a")]
  /\ clientSequenceNumber (op 1 0 "a" "meta-a")
     = msg_clientSequenceNumber (ack 1 "C1" 10 1 None)
  /\ returnedValue
       (processMessage (ack 1 "C1" 10 1 None) true
          (run submitOnce [OnSubmitMessage (op 1 0 "a" "meta-a")] (fresh Automatic)))
     = Some {| localAck := false; res_localOpMetadata := Some "meta-a" |}
  /\ returnedValue
       (processMessage (ack 1 "C1" 10 1 None) true
          (run submitOnce [OnSubmitMessage (op 1 0 "a" "meta-a")] (fresh Automatic)))
     <> Some {| localAck := true; res_localOpMetadata := Some "meta-a" |}.
Proof. vm_compute. repeat split. discriminate. Qed.

Lemma local_ack_returns_metadata_witness :
  isChunkedOp (msg_type (ack 1 "C1" 10 1 None)) = false
  /\ afterBatchBegin
       (pendingStates (run submitOnce [OnSubmitMessage (op 1 0 "a" "meta-a")]
                         (fresh Automatic)))
     = [PMessage (op 1 0 "a" "meta-a")]
  /\ clientSequenceNumber (op 1 0 "a" "meta-a")
     = msg_clientSequenceNumber (ack 1 "C1" 10 1 None)
  /\ match processMessage (ack 1 "C1" 10 1 None) true
             (run submitOnce [OnSubmitMessage (op 1 0 "a" "meta-a")]
                (fresh Automatic)) with
     | Ok s' r =>
         r = {| localAck := false; res_localOpMetadata := Some "meta-a" |}
         /\ pendingMessagesCount s' = 1 - 1
     | Throw e _ => isAssertionError e = true
     end.
Proof.
  split; [reflexivity |]. split; [reflexivity |]. split; [reflexivity |].
  exact (proj1 (local_ack_returns_metadata string string string
                  (run submitOnce [OnSubmitMessage (op 1 0 "a" "meta-a")]
                     (fresh Automatic))
                  (ack 1 "C1" 10 1 None) (op 1 0 "a" "meta-a") []
                  eq_refl eq_refl eq_refl)).
Defined.

(** C3, as stated, fails: a local ack on an empty queue fails an assertion,
    and a local ack of type ChunkedOp is skipped although its client
    sequence number is not the pending one; closeFn is called in neither
    case. *)
Lemma local_ack_without_match_does_not_close :
  (processMessage (ack 1 "C1" 10 1 None) true (fresh Automatic)
   = Throw (AssertionError noPendingState) (fresh Automatic)
   /\ pendingStates (fresh Automatic) = []
   /\ rt_calls (containerRuntime (fresh Automatic)) = [])
  /\ (let s := run submitOnce [OnSubmitMessage (op 5 0 "a" "meta-a")]
                 (fresh Automatic) in
      let chunk := {| msg_ref := 1; msg_type := ChunkedOp; msg_clientId := "C1";
                      msg_sequenceNumber := 10; msg_clientSequenceNumber := 6;
                      msg_batch := None |} in
      processMessage chunk true s
      = Ok s {| localAck := false; res_localOpMetadata := None |}
      /\ pendingStates s = [PMessage (op 5 0 "a" "meta-a")]
      /\ rt_calls (containerRuntime s) = []).
Proof. vm_compute. repeat split. Qed.

(** S4: the ack with client sequence number 6 of the op submitted with 5
    closes the container with a data corruption error. *)
Example scenario_csn_mismatch :
  rt_calls
    (containerRuntime
       (run submitOnce
          [OnSubmitMessage (op 5 0 "a" "meta-a");
           ProcessMessage (ack 1 "C1" 10 6 None) true] (fresh Automatic)))
  = [CloseFn {| dce_message := "Unexpected ack received";
                dce_clientId := "C1";
                dce_sequenceNumber := 10;
                dce_clientSequenceNumber := 6;
                dce_expectedClientSequenceNumber := 5 |}].
Proof. vm_compute. reflexivity. Qed.

(** ** Batches *)

(** The manager once the first two acks of scenario S5 are processed. *)
Local Abbreviation inBatch :=
  (run submitOnce
     [RuntimeChanged true (Some "C1") Manual;
      OnFlushModeUpdated Manual;
      OnSubmitMessage (op 1 0 "a" "meta-a");
      OnSubmitMessage (op 2 0 "b" "meta-b");
      OnSubmitMessage (op 3 0 "c" "meta-c");
      OnFlush;
      ProcessMessage (ack 1 "C1" 10 1 (Some true)) true;
      ProcessMessage (ack 2 "C1" 11 2 None) true]
     (fresh Automatic)).

(** C5, as stated, fails: in S5 with batch metadata absent on the last
    ack, the violation fails an assertion and closeFn is not called. *)
Lemma batch_metadata_violation_does_not_close :
  pendingStates inBatch = [PMessage (op 3 0 "c" "meta-c"); PFlush]
  /\ isProcessingBatch inBatch = true
  /\ batchMetadataOk (ack 1 "C1" 10 1 (Some true)) (ack 3 "C1" 12 3 None) = false
  /\ match processMessage (ack 3 "C1" 12 3 None) true inBatch with
     | Throw e s' =>
         e = AssertionError "Did not receive batch end metadata"
         /\ rt_calls (containerRuntime s') = []
     | Ok _ _ => False
     end.
Proof. vm_compute. repeat split. Qed.

Lemma local_ack_closing_batch_witness :
  isChunkedOp (msg_type (ack 3 "C1" 12 3 (Some false))) = false
  /\ clientSequenceNumber (op 3 0 "c" "meta-c")
     = msg_clientSequenceNumber (ack 3 "C1" 12 3 (Some false))
  /\ closesBatch (@PFlush string string string) = true
  /\ pendingStates inBatch = [PMessage (op 3 0 "c" "meta-c"); PFlush]
  /\ isProcessingBatch inBatch = true
  /\ pendingBatchBeginMessage inBatch = Some (ack 1 "C1" 10 1 (Some true))
  /\ exists s',
       processMessage (ack 3 "C1" 12 3 (Some false)) true inBatch
       = Ok s' {| localAck := false; res_localOpMetadata := Some "meta-c" |}
       /\ isProcessingBatch s' = false
       /\ pendingBatchBeginMessage s' = None
       /\ pendingStates s' = [PFlush]
       /\ rt_calls (containerRuntime s') = rt_calls (containerRuntime inBatch).
Proof.
  do 6 (split; [reflexivity |]).
  pose proof (proj1 (proj1 (local_ack_closing_batch string string string inBatch
                              (ack 3 "C1" 12 3 (Some false))
                              (op 3 0 "c" "meta-c") PFlush [] eq_refl eq_refl)
                       eq_refl)
                (ack 1 "C1" 10 1 (Some true)) eq_refl eq_refl eq_refl) as H.
  exact H.
Defined.

(** A batch of one message: the ack that opens the batch closes it, and
    is accepted when it carries no batch metadata. *)
Example scenario_batch_of_one :
  let s := run submitOnce
             [RuntimeChanged true (Some "C1") Manual;
              OnFlushModeUpdated Manual;
              OnSubmitMessage (op 1 0 "a" "meta-a");
              OnFlushModeUpdated Automatic]
             (fresh Automatic) in
  pendingStates s
  = [PFlushMode Manual; PMessage (op 1 0 "a" "meta-a"); PFlushMode Automatic]
  /\ returnedValue (processMessage (ack 1 "C1" 10 1 None) true s)
     = Some {| localAck := false; res_localOpMetadata := Some "meta-a" |}
  /\ pendingStates (stateOf (processMessage (ack 1 "C1" 10 1 None) true s)) = []
  /\ returned (processMessage (ack 1 "C1" 10 1 (Some true)) true s) = false.
Proof. vm_compute. repeat split. Qed.

(** ** Acks on a queue that runs out *)

Lemma local_ack_peeks_empty_queue_witness :
  isChunkedOp (msg_type (ack 1 "C1" 10 1 None)) = false
  /\ clientSequenceNumber (op 1 0 "a" "meta-a")
     = msg_clientSequenceNumber (ack 1 "C1" 10 1 None)
  /\ exists s',
       processMessage (ack 1 "C1" 10 1 None) true
         (onSubmit (op 1 0 "a" "meta-a")
            (onFlushModeUpdated Manual (fresh Automatic)))
       = Throw (AssertionError noPendingState) s'
       /\ pendingStates s' = []
       /\ isProcessingBatch s' = true
       /\ rt_calls (containerRuntime s') = [].
Proof.
  split; [reflexivity |]. split; [reflexivity |].
  exact (proj2 (proj2 (proj2 (proj2
           (local_ack_peeks_empty_queue string string string
              (fresh Automatic) (ack 1 "C1" 10 1 None) (op 1 0 "a" "meta-a")
              eq_refl eq_refl))))
           (runtimeOf true (Some "C1") Automatic)).
Defined.

(** ** Rehydration *)

(** A serialized state of the session "C0": one op, submitted at
    reference sequence number [rsn]. *)
Local Abbreviation stashed rsn :=
  (Some {| ls_clientId := Some "C0";
           ls_pendingStates := [PMessage (op 1 rsn "a" "meta-a")] |}).

Local Abbreviation rehydrated rsn :=
  (new (runtimeOf true (Some "C1") Automatic) (stashed rsn)).

(** C2 at the failing input: a manager rehydrated with one op submitted at
    reference sequence number 5 processes the remote op of another client
    sequenced at 5.  The op is then pending, and the count is still 0. *)
Lemma remote_ack_promotes_without_counting_witness :
  isChunkedOp (msg_type (ack 7 "other" 5 3 None)) = false
  /\ initialStates (rehydrated 5) = [PMessage (op 1 5 "a" "meta-a")]
  /\ referenceSequenceNumber (op 1 5 "a" "meta-a")
     = msg_sequenceNumber (ack 7 "other" 5 3 None)
  /\ option_string_eqb (Some (msg_clientId (ack 7 "other" 5 3 None)))
       (initialClientId (rehydrated 5)) = false
  /\ exists s',
       processMessage (ack 7 "other" 5 3 None) false (rehydrated 5)
       = Ok s' {| localAck := false; res_localOpMetadata := None |}
       /\ pendingStates s' = [PMessage (op 1 5 "a" "meta-a")]
       /\ pendingMessagesCount s' = 0
       /\ messageCount (pendingStates s') = 0 + 1
       /\ (0 = 0 -> pendingMessagesCount s' <> messageCount (pendingStates s')).
Proof.
  do 4 (split; [reflexivity |]).
  exact (remote_ack_promotes_without_counting string string string
           (rehydrated 5) (ack 7 "other" 5 3 None) (op 1 5 "a" "meta-a")
           eq_refl eq_refl eq_refl eq_refl).
Defined.

(** After that call the manager has a message pending, reports none and
    has nothing to serialize. *)
Example scenario_promoted_op_is_not_counted :
  let s := run submitOnce [ProcessMessage (ack 7 "other" 5 3 None) false]
             (rehydrated 5) in
  messagesOf (pendingStates s) = [op 1 5 "a" "meta-a"]
  /\ pendingMessagesCount s = 0
  /\ hasPendingMessages s = false
  /\ getLocalState s = None.
Proof. vm_compute. repeat split. Qed.

(** S6 *)
Lemma remote_ack_snapshot_too_recent_witness :
  isChunkedOp (msg_type (ack 9 "C0" 150 1 None)) = false
  /\ initialStates (rehydrated 100) = [PMessage (op 1 100 "a" "meta-a")]
  /\ clientSequenceNumber (op 1 100 "a" "meta-a")
     = initialClientSeqNum (rehydrated 100)
  /\ msg_sequenceNumber (ack 9 "C0" 150 1 None)
     > referenceSequenceNumber (op 1 100 "a" "meta-a")
  /\ processMessage (ack 9 "C0" 150 1 None) false (rehydrated 100)
     = Throw (JsError tooRecent) (rehydrated 100)
  /\ rebaseOpCalls
       (stateOf (processMessage (ack 9 "C0" 150 1 None) false (rehydrated 100)))
     = []
  /\ initialStates
       (stateOf (processMessage (ack 9 "C0" 150 1 None) false (rehydrated 100)))
     = [PMessage (op 1 100 "a" "meta-a")].
Proof.
  do 4 (split; [reflexivity |]).
  exact (remote_ack_snapshot_too_recent string string string
           (rehydrated 100) (ack 9 "C0" 150 1 None) (op 1 100 "a" "meta-a") []
           eq_refl eq_refl eq_refl eq_refl).
Defined.

(** ** Replay *)

Lemma resubmitOnce_submits :
  forall (c : RuntimeCall string string string)
         (rt : ContainerRuntime string string string),
    forallb (@isReOnSubmitMessage string string string) (submitOnce c rt) = true.
Proof. intros [t c l o | mode | | e] rt; reflexivity. Defined.

(** The queue of scenario S3, and the manager rehydrated from it on a
    runtime connected as "C2". *)
Local Abbreviation batchCalls :=
  [RuntimeChanged (Content := string) (LocalOpMetadata := string)
     (OpMetadata := string) true (Some "C1") Manual;
   OnFlushModeUpdated Manual;
   OnSubmitMessage (op 1 0 "a" "meta-a");
   OnSubmitMessage (op 2 0 "b" "meta-b");
   OnFlush;
   OnFlushModeUpdated Automatic].

Local Abbreviation reconnected :=
  (rehydrate (runtimeOf true (Some "C2") Automatic)
     (run submitOnce batchCalls (fresh Automatic))).

Lemma replay_processes_each_pending_state_once_witness :
  (forall c rt, forallb (@isReOnSubmitMessage string string string)
                  (submitOnce c rt) = true)
  /\ rt_connected (containerRuntime reconnected) = true
  /\ option_string_eqb (clientId reconnected)
       (rt_clientId (containerRuntime reconnected)) = false
  /\ exists s',
       replayPendingStates submitOnce reconnected = Ok s' tt
       /\ rt_calls (containerRuntime s')
          = [SetFlushMode Manual;
             ReSubmitFn opType "a" "meta-a" None;
             ReSubmitFn opType "b" "meta-b" None;
             SetFlushMode Automatic;
             SetFlushMode Automatic]
       /\ 5%nat = 5%nat
       /\ pendingStates s'
          = [PMessage (op 2 0 "a" "meta-a"); PMessage (op 3 0 "b" "meta-b")]
       /\ initialStates s' = []
       /\ rt_flushMode (containerRuntime s') = Automatic.
Proof.
  split; [exact resubmitOnce_submits |].
  split; [reflexivity |]. split; [reflexivity |].
  exact (replay_processes_each_pending_state_once string string string
           submitOnce resubmitOnce_submits reconnected eq_refl eq_refl).
Defined.



(** ** Flush markers *)

(** The calls of a batch whose first message is acked. *)
Local Abbreviation ackedInBatch :=
  [RuntimeChanged (Content := string) (LocalOpMetadata := string)
     (OpMetadata := string) true (Some "C1") Manual;
   OnFlushModeUpdated Manual;
   OnSubmitMessage (op 1 0 "a" "meta-a");
   OnFlush;
   ProcessMessage (ack 1 "C1" 10 1 None) true].

(** C9, as stated, fails: once the message before a flush is acked, the
    flush is the head of the pending queue, with no message before it. *)
Lemma flush_is_head_after_ack :
  pendingStates (run submitOnce ackedInBatch (fresh Automatic)) = [PFlush]
  /\ flushesBetweenMessages
       (pendingStates (run submitOnce ackedInBatch (fresh Automatic))) = false.
Proof. vm_compute. split; reflexivity. Qed.

Lemma flush_markers_follow_messages_witness :
  (forallb (fun c => negb (@enqueuesMessage string string string c))
     [OnFlushModeUpdated Manual; OnFlush] = true
   /\ existsb (@isFlush string string string)
        (pendingStates
           (run submitOnce [OnFlushModeUpdated Manual; OnFlush] (fresh Manual)))
      = false)
  /\ flushesFollowMessages
       (pendingStates (run submitOnce ackedInBatch (fresh Automatic))) = true
  /\ (rt_flushMode (containerRuntime (fresh Automatic)) = Automatic
      /\ onFlush (fresh Automatic) = fresh Automatic).
Proof.
  split; [split; [reflexivity |] | split].
  - exact (proj1 (flush_markers_follow_messages string string string submitOnce
                    (runtimeOf true (Some "C1") Manual)
                    [OnFlushModeUpdated Manual; OnFlush])
             eq_refl).
  - exact (proj1 (proj2 (flush_markers_follow_messages string string string
                           submitOnce (runtimeOf true (Some "C1") Automatic)
                           ackedInBatch))).
  - split; [reflexivity |].
    exact (proj1 (proj2 (proj2 (flush_markers_follow_messages string string string
                                  submitOnce (runtimeOf true (Some "C1") Automatic)
                                  [])))
             (fresh Automatic) eq_refl).
Defined.

(** * Further properties, on the scenarios *)

(** ** Remote messages on a rehydrated manager *)

(** The op of another client sequenced at 5, the reference sequence number
    of the stashed op; then the ack of the stashed op itself, sent by the
    previous session "C0". *)
Local Abbreviation remoteOp := (ack 7 "other" 5 3 None).
Local Abbreviation remoteAck := (ack 8 "C0" 6 1 None).

(** The rehydrated manager once [remoteOp] has promoted the stashed op. *)
Local Abbreviation promoted :=
  (run submitOnce [ProcessMessage remoteOp false] (rehydrated 5)).

Lemma unclaimed_remote_message_keeps_order_witness :
  isChunkedOp (msg_type remoteOp) = false
  /\ claimsAck remoteOp (rehydrated 5) = false
  /\ pendingStates (stateOf (processMessage remoteOp false (rehydrated 5)))
     ++ initialStates (stateOf (processMessage remoteOp false (rehydrated 5)))
     = pendingStates (rehydrated 5) ++ initialStates (rehydrated 5)
  /\ getPendingMessages (stateOf (processMessage remoteOp false (rehydrated 5)))
     = getPendingMessages (rehydrated 5)
  /\ pendingMessagesCount (stateOf (processMessage remoteOp false (rehydrated 5)))
     = pendingMessagesCount (rehydrated 5).
Proof.
  do 2 (split; [reflexivity |]).
  exact (unclaimed_remote_message_keeps_order string string string
           (rehydrated 5) remoteOp eq_refl eq_refl).
Defined.

Lemma claimed_remote_ack_dequeues_first_message_witness :
  isChunkedOp (msg_type remoteAck) = false
  /\ rebaseStops remoteAck (initialStates promoted) = true
  /\ claimsAck remoteAck promoted = true
  /\ existsb (@isMessage string string string) [] = false
  /\ pendingStates promoted = [] ++ PMessage (op 1 5 "a" "meta-a") :: []
  /\ exists s',
       processMessage remoteAck false promoted
       = Ok s' {| localAck := true;
                  res_localOpMetadata :=
                    Some (localOpMetadata (op 1 5 "a" "meta-a")) |}
       /\ pendingStates s' = []
       /\ initialStates s' = initialStates promoted
       /\ pendingMessagesCount s' = pendingMessagesCount promoted
       /\ rebaseOpCalls s' = rebaseOpCalls promoted
       /\ containerRuntime s' = containerRuntime promoted.
Proof.
  do 5 (split; [reflexivity |]).
  exact (proj1 (claimed_remote_ack_dequeues_first_message string string string
                  promoted remoteAck [] eq_refl eq_refl eq_refl eq_refl)
           (op 1 5 "a" "meta-a") [] eq_refl).
Defined.

(** The stashed op is acked by the previous session's own message: it is
    rebased, leaves the queue unsent, and a replay has nothing to
    resubmit. *)
Example scenario_stashed_op_acked_remotely :
  let s := run submitOnce
             [ProcessMessage remoteOp false;
              ProcessMessage remoteAck false;
              ReplayPendingStates]
             (rehydrated 5) in
  rebaseOpCalls s = [("a", "meta-a")]
  /\ pendingStates s = []
  /\ initialStates s = []
  /\ rt_calls (containerRuntime s) = [].
Proof. vm_compute. repeat split. Qed.

Lemma leading_initial_message_is_rebased_at_its_reference_witness :
  isChunkedOp (msg_type remoteOp) = false
  /\ initialStates (rehydrated 5) = PMessage (op 1 5 "a" "meta-a") :: []
  /\ clientSequenceNumber (op 1 5 "a" "meta-a") = initialClientSeqNum (rehydrated 5)
  /\ msg_sequenceNumber remoteOp = referenceSequenceNumber (op 1 5 "a" "meta-a")
  /\ exists more,
       rebaseOpCalls (stateOf (processMessage remoteOp false (rehydrated 5)))
       = rebaseOpCalls (rehydrated 5)
         ++ (content (op 1 5 "a" "meta-a"), localOpMetadata (op 1 5 "a" "meta-a"))
            :: more.
Proof.
  do 4 (split; [reflexivity |]).
  exact (proj2 (leading_initial_message_is_rebased_at_its_reference
                  string string string (rehydrated 5) remoteOp
                  (op 1 5 "a" "meta-a") [] eq_refl eq_refl eq_refl)
           eq_refl).
Defined.

(** ** Submissions and acks *)

Lemma submissions_are_queued_in_order_witness :
  forallb (@isSubmission string string string) batchCalls = true
  /\ messagesOf (pendingStates (run submitOnce batchCalls (fresh Automatic)))
     = messagesOf (pendingStates (fresh Automatic)) ++ submittedMessages batchCalls
  /\ pendingMessagesCount (run submitOnce batchCalls (fresh Automatic))
     = pendingMessagesCount (fresh Automatic)
       + Z.of_nat (List.length (submittedMessages batchCalls))
  /\ initialStates (run submitOnce batchCalls (fresh Automatic))
     = initialStates (fresh Automatic)
  /\ (initialStates (fresh Automatic) = [] ->
      getPendingMessages (run submitOnce batchCalls (fresh Automatic))
      = getPendingMessages (fresh Automatic)
        ++ map (@content string string string) (submittedMessages batchCalls)).
Proof.
  split; [reflexivity |].
  exact (submissions_are_queued_in_order string string string submitOnce
           batchCalls (fresh Automatic) eq_refl).
Defined.

Local Abbreviation twoOps := [op 1 0 "a" "meta-a"; op 2 0 "b" "meta-b"].
Local Abbreviation twoAcks := [ack 1 "C1" 10 1 None; ack 2 "C1" 11 2 None].
Local Abbreviation twoSubmitted :=
  (run submitOnce
     [OnSubmitMessage (op 1 0 "a" "meta-a"); OnSubmitMessage (op 2 0 "b" "meta-b")]
     (fresh Automatic)).

Lemma acks_in_submission_order_drain_the_queue_witness :
  pendingStates twoSubmitted = map (@PMessage string string string) twoOps ++ []
  /\ isProcessingBatch twoSubmitted = false
  /\ acknowledged twoOps twoAcks = true
  /\ ackResults twoAcks twoSubmitted
     = map (fun m => Some {| localAck := false;
                             res_localOpMetadata := Some (localOpMetadata m) |})
         twoOps
  /\ pendingStates (run submitOnce (localAcks string string string twoAcks) twoSubmitted) = []
  /\ pendingMessagesCount (run submitOnce (localAcks string string string twoAcks) twoSubmitted)
     = pendingMessagesCount twoSubmitted - Z.of_nat (List.length twoOps)
  /\ isProcessingBatch (run submitOnce (localAcks string string string twoAcks) twoSubmitted) = false
  /\ containerRuntime (run submitOnce (localAcks string string string twoAcks) twoSubmitted)
     = containerRuntime twoSubmitted.
Proof.
  do 3 (split; [reflexivity |]).
  exact (acks_in_submission_order_drain_the_queue string string string submitOnce
           twoSubmitted twoOps twoAcks [] eq_refl eq_refl eq_refl).
Defined.

(** The batch of scenario S3, acked with batch metadata on its first and
    last message. *)
Local Abbreviation batchAcks :=
  [ack 1 "C1" 10 1 (Some true); ack 2 "C1" 11 2 (Some false)].

Lemma acks_of_a_batch_close_it_witness :
  pendingStates (run submitOnce batchCalls (fresh Automatic))
  = PFlushMode Manual
    :: map (@PMessage string string string) (op 1 0 "a" "meta-a" :: [op 2 0 "b" "meta-b"])
       ++ PFlushMode Automatic :: []
  /\ @opensBatch string string string (PFlushMode Manual) = true
  /\ @closesBatch string string string (PFlushMode Automatic) = true
  /\ isProcessingBatch (run submitOnce batchCalls (fresh Automatic)) = false
  /\ pendingBatchBeginMessage (run submitOnce batchCalls (fresh Automatic)) = None
  /\ acknowledged (op 1 0 "a" "meta-a" :: [op 2 0 "b" "meta-b"]) batchAcks = true
  /\ batchMetadataOk (ack 1 "C1" 10 1 (Some true))
       (last [ack 2 "C1" 11 2 (Some false)] (ack 1 "C1" 10 1 (Some true))) = true
  /\ ackResults batchAcks (run submitOnce batchCalls (fresh Automatic))
     = map (fun m => Some {| localAck := false;
                             res_localOpMetadata := Some (localOpMetadata m) |})
         (op 1 0 "a" "meta-a" :: [op 2 0 "b" "meta-b"])
  /\ pendingStates
       (run submitOnce (localAcks string string string batchAcks)
          (run submitOnce batchCalls (fresh Automatic)))
     = behindBatch (PFlushMode Automatic) []
  /\ isProcessingBatch
       (run submitOnce (localAcks string string string batchAcks)
          (run submitOnce batchCalls (fresh Automatic))) = false
  /\ pendingBatchBeginMessage
       (run submitOnce (localAcks string string string batchAcks)
          (run submitOnce batchCalls (fresh Automatic))) = None
  /\ pendingMessagesCount
       (run submitOnce (localAcks string string string batchAcks)
          (run submitOnce batchCalls (fresh Automatic)))
     = pendingMessagesCount (run submitOnce batchCalls (fresh Automatic))
       - Z.of_nat (List.length (op 1 0 "a" "meta-a" :: [op 2 0 "b" "meta-b"]))
  /\ containerRuntime
       (run submitOnce (localAcks string string string batchAcks)
          (run submitOnce batchCalls (fresh Automatic)))
     = containerRuntime (run submitOnce batchCalls (fresh Automatic)).
Proof.
  do 7 (split; [reflexivity |]).
  exact (acks_of_a_batch_close_it string string string submitOnce
           (run submitOnce batchCalls (fresh Automatic))
           (PFlushMode Manual) (PFlushMode Automatic)
           (op 1 0 "a" "meta-a") [op 2 0 "b" "meta-b"]
           (ack 1 "C1" 10 1 (Some true)) [ack 2 "C1" 11 2 (Some false)] []
           eq_refl eq_refl eq_refl eq_refl eq_refl eq_refl eq_refl).
Defined.

(** ** The count of pending messages *)

(** Two ops are submitted, the first is acked, the client reconnects as
    "C2" and replays. *)
Local Abbreviation countedCalls :=
  [OnSubmitMessage (op 1 0 "a" "meta-a");
   OnSubmitMessage (op 2 0 "b" "meta-b");
   ProcessMessage (ack 1 "C1" 10 1 None) true;
   RuntimeChanged true (Some "C2") Automatic;
   ReplayPendingStates].

Lemma count_is_number_of_pending_messages_witness :
  (forall (c : RuntimeCall string string string)
          (rt : ContainerRuntime string string string),
     forallb (@isReOnSubmitMessage string string string) (submitOnce c rt) = true)
  /\ closed (run submitOnce countedCalls (fresh Automatic)) = false
  /\ pendingMessagesCount (run submitOnce countedCalls (fresh Automatic))
     = messageCount (pendingStates (run submitOnce countedCalls (fresh Automatic)))
  /\ hasPendingMessages (run submitOnce countedCalls (fresh Automatic))
     = existsb (@isMessage string string string)
         (pendingStates (run submitOnce countedCalls (fresh Automatic)))
  /\ (getLocalState (run submitOnce countedCalls (fresh Automatic)) = None
      <-> messagesOf (pendingStates (run submitOnce countedCalls (fresh Automatic)))
          = []).
Proof.
  split; [exact resubmitOnce_submits |]. split; [reflexivity |].
  exact (count_is_number_of_pending_messages string string string submitOnce
           (runtimeOf true (Some "C1") Automatic) countedCalls
           resubmitOnce_submits eq_refl).
Defined.

(** ** Replaying twice *)

Lemma replay_is_refused_until_the_runtime_changes_witness :
  rt_connected (containerRuntime reconnected) = true
  /\ option_string_eqb (clientId reconnected)
       (rt_clientId (containerRuntime reconnected)) = false
  /\ existsb (@isRuntimeChanged string string string)
       [OnSubmitMessage (op 9 0 "z" "meta-z")] = false
  /\ replayPendingStates submitOnce
       (run submitOnce [OnSubmitMessage (op 9 0 "z" "meta-z")]
          (stateOf (replayPendingStates submitOnce reconnected)))
     = Throw (AssertionError calledTwice)
         (run submitOnce [OnSubmitMessage (op 9 0 "z" "meta-z")]
            (stateOf (replayPendingStates submitOnce reconnected))).
Proof.
  do 3 (split; [reflexivity |]).
  exact (replay_is_refused_until_the_runtime_changes string string string
           submitOnce reconnected [OnSubmitMessage (op 9 0 "z" "meta-z")]
           eq_refl eq_refl eq_refl).
Defined.

(** ** A flush mode update at the head of the queue *)

(** In Manual mode an op is submitted, flushed and acked; the flush stays
    at the head of the queue, and the update to Automatic replaces it. *)
Local Abbreviation wedged :=
  (run submitOnce
     [RuntimeChanged true (Some "C1") Manual;
      OnFlushModeUpdated Manual;
      OnSubmitMessage (op 1 0 "a" "meta-a");
      OnFlush;
      ProcessMessage (ack 1 "C1" 10 1 None) true;
      OnFlushModeUpdated Automatic]
     (fresh Automatic)).

Lemma automatic_at_head_blocks_local_acks_witness :
  pendingStates wedged = PFlushMode Automatic :: []
  /\ forallb (@isSubmission string string string)
       [OnSubmitMessage (op 2 0 "b" "meta-b")] = true
  /\ isChunkedOp (msg_type (ack 2 "C1" 11 2 None)) = false
  /\ (exists rest',
        pendingStates (run submitOnce [OnSubmitMessage (op 2 0 "b" "meta-b")] wedged)
        = PFlushMode Automatic :: rest')
  /\ processMessage (ack 2 "C1" 11 2 None) true
       (run submitOnce [OnSubmitMessage (op 2 0 "b" "meta-b")] wedged)
     = Throw (AssertionError notManual)
         (run submitOnce [OnSubmitMessage (op 2 0 "b" "meta-b")] wedged).
Proof.
  do 3 (split; [reflexivity |]).
  exact (automatic_at_head_blocks_local_acks string string string submitOnce
           wedged [] [OnSubmitMessage (op 2 0 "b" "meta-b")]
           (ack 2 "C1" 11 2 None) eq_refl eq_refl eq_refl).
Defined.

(** * Replay on a runtime that notifies the manager *)

(** C7 (what the code does): on a runtime whose hooks notify the manager
    (reSubmitFn through onSubmitMessage, setFlushMode through
    onFlushModeUpdated when the mode changes), connected and in Manual
    mode, replayPendingStates on the queue [flushMode Automatic; message
    b; flushMode Manual] returns after four calls for its three entries:
    setFlushMode(Automatic), reSubmitFn of b, reSubmitFn of b again, and
    the setFlushMode(Manual) that restores the saved mode.  The hook of the
    first call removes the flushMode Manual entry from the back of the
    queue, so the third entry the loop shifts is the one the resubmission
    of b has pushed: an entry added by the call's own resubmission is
    processed in the same call, b is resubmitted twice, and the queue
    holds one message afterwards while pendingMessagesCount is 2. *)
Theorem replay_resubmits_requeued_message (Content LocalOpMetadata OpMetadata : Type)
    (s : PendingStateManager Content LocalOpMetadata OpMetadata)
    (b : IPendingMessage Content LocalOpMetadata OpMetadata) :
  rt_connected (containerRuntime s) = true ->
  option_string_eqb (clientId s) (rt_clientId (containerRuntime s)) = false ->
  rt_flushMode (containerRuntime s) = Manual ->
  initialStates s = [] ->
  pendingStates s = [PFlushMode Automatic; PMessage b; PFlushMode Manual] ->
  exists s',
    replayPendingStates (@notifying Content LocalOpMetadata OpMetadata) s = Ok s' tt
    /\ rt_calls (containerRuntime s')
       = rt_calls (containerRuntime s)
         ++ [SetFlushMode Automatic;
             ReSubmitFn (messageType b) (content b) (localOpMetadata b) (opMetadata b);
             ReSubmitFn (messageType b) (content b) (localOpMetadata b) (opMetadata b);
             SetFlushMode Manual]
    /\ resubmissions (rt_calls (containerRuntime s'))
       = resubmissions (rt_calls (containerRuntime s))
         ++ [resubmission b; resubmission b]
    /\ List.length (messagesOf (pendingStates s')) = 1%nat
    /\ pendingMessagesCount s' = 2.
Proof.
  intros Hconn Hcid Hmode Hinit Hq.
  rewrite (replayPendingStates_passes _ _ _ _ s _ _ Hconn Hcid Hinit Hq).
  assert (Hloop : exists s1,
            replayLoop (@notifying Content LocalOpMetadata OpMetadata) 3
              (set_pendingMessagesCount 0
                 (set_clientId (rt_clientId (containerRuntime s)) s))
            = Ok s1 tt
            /\ rt_calls (containerRuntime s1)
               = rt_calls (containerRuntime s)
                 ++ [SetFlushMode Automatic;
                     ReSubmitFn (messageType b) (content b) (localOpMetadata b)
                       (opMetadata b);
                     ReSubmitFn (messageType b) (content b) (localOpMetadata b)
                       (opMetadata b)]
            /\ rt_flushMode (containerRuntime s1) = Automatic
            /\ List.length (messagesOf (pendingStates s1)) = 1%nat
            /\ pendingMessagesCount s1 = 2).
  { clear Hconn Hcid.
    destruct s as [q i ic ics n pb bm cid rt rb].
    destruct rt as [conn rcid mode calls].
    cbn [pendingStates initialStates containerRuntime rt_flushMode]
      in Hmode, Hinit, Hq.
    subst mode i q.
    cbn [set_pendingMessagesCount set_clientId pendingStates initialStates
         initialClientId initialClientSeqNum pendingMessagesCount isProcessingBatch
         pendingBatchBeginMessage clientId containerRuntime rebaseOpCalls
         rt_clientId rt_flushMode rt_calls].
    erewrite replayLoop_step by reflexivity.
    cbn -[Z.add Z.of_nat replayLoop].
    erewrite replayLoop_step by reflexivity.
    cbn -[Z.add Z.of_nat replayLoop].
    erewrite replayLoop_step by reflexivity.
    cbn -[Z.add Z.of_nat].
    eexists. split; [reflexivity |].
    cbn -[Z.add Z.of_nat].
    rewrite <- !app_assoc. cbn [app]. repeat split. }
  destruct Hloop as (s1 & Hrun & Hcalls & Hmode1 & Hlen & Hn).
  cbn [List.length]. rewrite Hrun, Hmode.
  eexists. split; [reflexivity |].
  unfold callRuntime. cbn [notifying]. rewrite Hmode1. cbn [FlushMode_eqb].
  cbn -[Z.add Z.of_nat].
  rewrite Hcalls, <- !app_assoc. cbn [app].
  split; [reflexivity |].
  split; [rewrite resubmissions_app; reflexivity |].
  split; [| exact Hn].
  rewrite messagesOf_app, length_app, Hlen. reflexivity.
Qed.

(** The failing input: on a new manager, in Manual mode, the flush mode is
    updated to Automatic, an op is submitted and the flush mode is updated
    to Manual; then the manager replays. *)
Local Abbreviation requeued :=
  (run (@notifying string string string)
     [OnFlushModeUpdated Automatic;
      OnSubmitMessage (op 1 0 "b" "meta-b");
      OnFlushModeUpdated Manual]
     (fresh Manual)).

Lemma replay_resubmits_requeued_message_witness :
  rt_connected (containerRuntime requeued) = true
  /\ option_string_eqb (clientId requeued) (rt_clientId (containerRuntime requeued))
     = false
  /\ rt_flushMode (containerRuntime requeued) = Manual
  /\ initialStates requeued = []
  /\ pendingStates requeued
     = [PFlushMode Automatic; PMessage (op 1 0 "b" "meta-b"); PFlushMode Manual]
  /\ exists s',
       replayPendingStates (@notifying string string string) requeued = Ok s' tt
       /\ rt_calls (containerRuntime s')
          = rt_calls (containerRuntime requeued)
            ++ [SetFlushMode Automatic;
                ReSubmitFn (messageType (op 1 0 "b" "meta-b"))
                  (content (op 1 0 "b" "meta-b"))
                  (localOpMetadata (op 1 0 "b" "meta-b"))
                  (opMetadata (op 1 0 "b" "meta-b"));
                ReSubmitFn (messageType (op 1 0 "b" "meta-b"))
                  (content (op 1 0 "b" "meta-b"))
                  (localOpMetadata (op 1 0 "b" "meta-b"))
                  (opMetadata (op 1 0 "b" "meta-b"));
                SetFlushMode Manual]
       /\ resubmissions (rt_calls (containerRuntime s'))
          = resubmissions (rt_calls (containerRuntime requeued))
            ++ [resubmission (op 1 0 "b" "meta-b");
                resubmission (op 1 0 "b" "meta-b")]
       /\ List.length (messagesOf (pendingStates s')) = 1%nat
       /\ pendingMessagesCount s' = 2.
Proof.
  do 5 (split; [reflexivity |]).
  exact (replay_resubmits_requeued_message string string string requeued
           (op 1 0 "b" "meta-b") eq_refl eq_refl eq_refl eq_refl eq_refl).
Defined.

(** The same replay, evaluated: one op was pending, two resubmissions
    reach the runtime, and setFlushMode(Manual) is called once, to restore
    the saved mode, not for the entry of the queue. *)
Example scenario_replay_resubmits_twice :
  rt_calls (containerRuntime
              (stateOf (replayPendingStates (@notifying string string string)
                          requeued)))
  = [SetFlushMode Automatic;
     ReSubmitFn opType "b" "meta-b" None;
     ReSubmitFn opType "b" "meta-b" None;
     SetFlushMode Manual]
  /\ messagesOf (pendingStates requeued) = [op 1 0 "b" "meta-b"]
  /\ hasPendingMessages requeued = true.
Proof. vm_compute. repeat split. Qed.

(** On a batch framed by Manual and Automatic the same runtime sees one
    call per entry, and its notifications rebuild the queue behind the
    entries being replayed. *)
Example scenario_notifying_batch_is_replayed :
  let s := run (@notifying string string string)
             [OnFlushModeUpdated Manual;
              OnSubmitMessage (op 1 0 "a" "meta-a");
              OnSubmitMessage (op 2 0 "b" "meta-b");
              OnFlushModeUpdated Automatic]
             (fresh Automatic) in
  let s' := stateOf (replayPendingStates (@notifying string string string) s) in
  rt_calls (containerRuntime s')
  = [SetFlushMode Manual;
     ReSubmitFn opType "a" "meta-a" None;
     ReSubmitFn opType "b" "meta-b" None;
     SetFlushMode Automatic;
     SetFlushMode Automatic]
  /\ pendingStates s'
     = [PFlushMode Manual; PMessage (op 2 0 "a" "meta-a");
        PMessage (op 3 0 "b" "meta-b"); PFlushMode Automatic]
  /\ pendingMessagesCount s' = 2.
Proof. vm_compute. repeat split. Qed.
